(** * quizy_parser_service: the PDF analysis-and-extraction pipeline

    A shallow embedding of [app/parsers/pdf/*.py] and [app/utils/cache.py].

    Conventions.
    - A Python [str] is a [string]; a character outside ASCII stands as its
      UTF-8 bytes, so substring tests and replacements agree with Python.
    - A Python [int] is a [Z]; a Python [float] is a binary64 [float].
    - A [Dict[str, Any]] of options is a [gmap string value].
    - A call that may raise returns [res A]; [await] of a coroutine and
      [run_in_executor] are the call itself, [asyncio.gather] is the list of
      results in argument order, the first raised exception propagating.
    - What the PDF, OCR, regular-expression and imaging libraries answer for
      a file is data of the environment ([Env]). *)

From Stdlib Require Import ZArith String Ascii List Bool Floats Lia.
From stdpp Require Import gmap strings list sorting.

Set Warnings "-register-all,-inexact-float".
Open Scope string_scope.
Open Scope Z_scope.
Open Scope list_scope.

(* ===================================================================== *)
(** * Exceptions *)
(* ===================================================================== *)

Inductive exn : Type :=
| TypeError | ValueError | ZeroDivisionError | OverflowError
| UnboundLocalError | OSError | ImportError
| LibraryError.   (* an exception raised inside a third-party library *)

Inductive res (A : Type) : Type :=
| Ok (a : A)
| Raise (e : exn).
Arguments Ok {A} a.
Arguments Raise {A} e.

#[global] Instance res_ret : MRet res := fun A a => Ok a.
#[global] Instance res_bind : MBind res := fun A B k m =>
  match m with Ok a => k a | Raise e => Raise e end.

(** [try: m except: h] is [try m except Exception: h]. *)
Definition try_except {A} (m : res A) (h : exn -> res A) : res A :=
  match m with Ok a => Ok a | Raise e => h e end.

(** A [for] loop whose body may raise: the state is threaded through. *)
Fixpoint for_each {S A} (body : S -> A -> res S) (xs : list A) (s : S) : res S :=
  match xs with
  | [] => Ok s
  | x :: xs' => s' ← body s x; for_each body xs' s'
  end.

(** [asyncio.gather] over a batch of tasks: results in task order. *)
Fixpoint gather {A} (tasks : list (res A)) : res (list A) :=
  match tasks with
  | [] => Ok []
  | t :: ts => r ← t; rs ← gather ts; Ok (r :: rs)
  end.

(* ===================================================================== *)
(** * Python strings *)
(* ===================================================================== *)

Module Py.

Definition NL : string := String "010" EmptyString.
Definition CR : string := String "013" EmptyString.
Definition NUL : string := String "000" EmptyString.
Definition QUOTE : string := String (ascii_of_nat 34) EmptyString.

Definition code (c : ascii) : Z := Z.of_nat (nat_of_ascii c).

(** [c.isspace()] on ASCII. *)
Definition isspace (c : ascii) : bool :=
  let n := code c in ((9 <=? n) && (n <=? 13)) || ((28 <=? n) && (n <=? 32)).

Definition isdigit (c : ascii) : bool := let n := code c in (48 <=? n) && (n <=? 57).
Definition isupper (c : ascii) : bool := let n := code c in (65 <=? n) && (n <=? 90).
Definition islower (c : ascii) : bool := let n := code c in (97 <=? n) && (n <=? 122).

(** [c.isalnum()] on ASCII. *)
Definition isalnum (c : ascii) : bool := isdigit c || isupper c || islower c.

(** [s.lower()] on ASCII. *)
Definition lower_char (c : ascii) : ascii :=
  if isupper c then ascii_of_nat (nat_of_ascii c + 32) else c.

Fixpoint lower (s : string) : string :=
  match s with
  | EmptyString => EmptyString
  | String c s' => String (lower_char c) (lower s')
  end.

Fixpoint any_char (p : ascii -> bool) (s : string) : bool :=
  match s with
  | EmptyString => false
  | String c s' => p c || any_char p s'
  end.

(** [len(s)]: the number of code points, a UTF-8 continuation byte
    (10xxxxxx) counting for none. *)
Fixpoint len (s : string) : Z :=
  match s with
  | EmptyString => 0
  | String c s' => (if (128 <=? code c) && (code c <? 192) then 0 else 1) + len s'
  end.

Fixpoint startswith (p s : string) : bool :=
  match p, s with
  | EmptyString, _ => true
  | String a p', String b s' => Ascii.eqb a b && startswith p' s'
  | String _ _, EmptyString => false
  end.

(** [sub in s]. *)
Fixpoint contains (sub s : string) : bool :=
  startswith sub s ||
  match s with
  | EmptyString => false
  | String _ s' => contains sub s'
  end.

Fixpoint lstrip (s : string) : string :=
  match s with
  | EmptyString => EmptyString
  | String c s' => if isspace c then lstrip s' else s
  end.

Fixpoint rstrip (s : string) : string :=
  match s with
  | EmptyString => EmptyString
  | String c s' =>
      match rstrip s' with
      | EmptyString => if isspace c then EmptyString else String c EmptyString
      | r => String c r
      end
  end.

(** [s.strip()]. *)
Definition strip (s : string) : string := rstrip (lstrip s).

(** [s.split()]: the maximal runs of non-whitespace characters. *)
Fixpoint split_go (cur : string) (s : string) : list string :=
  match s with
  | EmptyString => match cur with EmptyString => [] | _ => [cur] end
  | String c s' =>
      if isspace c
      then match cur with EmptyString => split_go EmptyString s' | _ => cur :: split_go EmptyString s' end
      else split_go (cur +:+ String c EmptyString) s'
  end.
Definition split (s : string) : list string := split_go EmptyString s.

(** [s.split(sep)] for a one-character separator. *)
Fixpoint split_on_go (sep : ascii) (cur : string) (s : string) : list string :=
  match s with
  | EmptyString => [cur]
  | String c s' =>
      if Ascii.eqb c sep then cur :: split_on_go sep EmptyString s'
      else split_on_go sep (cur +:+ String c EmptyString) s'
  end.
Definition split_on (sep : ascii) (s : string) : list string := split_on_go sep EmptyString s.

(** [s.replace(old, new)] for a non-empty [old]; [skip] characters of a
    match just replaced are still to be passed over. *)
Fixpoint replace_go (old new : string) (skip : nat) (s : string) : string :=
  match s with
  | EmptyString => EmptyString
  | String c s' =>
      match skip with
      | S k => replace_go old new k s'
      | O => if startswith old s
             then new +:+ replace_go old new (String.length old - 1) s'
             else String c (replace_go old new O s')
      end
  end.
Definition replace (old new s : string) : string := replace_go old new O s.

(** [s.count(sub)]: non-overlapping occurrences of a non-empty [sub]. *)
Fixpoint count_go (sub : string) (skip : nat) (s : string) : Z :=
  match s with
  | EmptyString => 0
  | String c s' =>
      match skip with
      | S k => count_go sub k s'
      | O => if startswith sub s
             then 1 + count_go sub (String.length sub - 1) s'
             else count_go sub O s'
      end
  end.
Definition count (sub s : string) : Z := count_go sub O s.

(** [sep.join(xs)]. *)
Definition join (sep : string) (xs : list string) : string := String.concat sep xs.

(** [str(n)] for an [int]. *)
Definition digit (n : nat) : ascii := ascii_of_nat (48 + n).
Fixpoint str_pos_go (fuel : nat) (n : nat) (acc : string) : string :=
  match fuel with
  | O => acc
  | S f =>
      let acc' := String (digit (n mod 10)) acc in
      match (n / 10)%nat with
      | O => acc'
      | q => str_pos_go f q acc'
      end
  end.
Definition str_nat (n : nat) : string := str_pos_go (S n) n EmptyString.
Definition str_int (z : Z) : string :=
  if z <? 0 then "-" +:+ str_nat (Z.to_nat (- z)) else str_nat (Z.to_nat z).

(** [range(a, b)]. *)
Definition range (a b : Z) : list Z := map (fun i => a + Z.of_nat i) (seq 0 (Z.to_nat (b - a))).

(** [range(0, n, 5)] as list positions. *)
Definition seq_step (n : nat) : list nat := map (fun k => (5 * k)%nat) (seq 0 ((n + 4) / 5)%nat).

(** [list(enumerate(xs, start))]. *)
Fixpoint enumerate {A} (start : Z) (xs : list A) : list (Z * A) :=
  match xs with
  | [] => []
  | x :: xs' => (start, x) :: enumerate (start + 1) xs'
  end.

(** [xs[:n]] for [n >= 0], and [range(n)] as positions into [xs]. *)
Definition upto {A} (n : Z) (xs : list A) : list A := take (Z.to_nat n) xs.

End Py.

(* ===================================================================== *)
(** * Python floats *)
(* ===================================================================== *)

Module Float.

(** [float(n)] for an [int] (round to nearest even). *)
Definition of_int (n : Z) : float := SF2Prim (binary_normalize prec emax n 0 false).

(** [a / b]: a zero divisor raises. *)
Definition truediv (a b : float) : res float :=
  if PrimFloat.eqb b 0%float then Raise ZeroDivisionError else Ok (PrimFloat.div a b).

(** [int(x)]: truncation towards zero. *)
Definition to_int (x : float) : res Z :=
  match Prim2SF x with
  | S754_zero _ => Ok 0
  | S754_finite s m e =>
      let v := if 0 <=? e then Z.shiftl (Z.pos m) e else Z.shiftr (Z.pos m) (- e) in
      Ok (if s then - v else v)
  | S754_infinity _ => Raise OverflowError
  | S754_nan => Raise ValueError
  end.

Definition lt (a b : float) : bool := PrimFloat.ltb a b.
Definition gt (a b : float) : bool := PrimFloat.ltb b a.

End Float.

(* ===================================================================== *)
(** * Option values and dictionaries *)
(* ===================================================================== *)

(** The JSON-like values an options dictionary holds. *)
Inductive value : Type :=
| VNone
| VBool (b : bool)
| VInt (n : Z)
| VStr (s : string)
| VList (l : list value).

Abbreviation options := (gmap string value).

(** [bool(v)]. *)
Definition truthy (v : value) : bool :=
  match v with
  | VNone => false
  | VBool b => b
  | VInt n => negb (n =? 0)
  | VStr s => negb (String.eqb s EmptyString)
  | VList l => match l with [] => false | _ => true end
  end.

(** [d.get(key, default)]. *)
Definition get (d : options) (key : string) (default : value) : value :=
  match d !! key with Some v => v | None => default end.

(** [min(options.get("max_pages", n), n)]: [bool] is an [int], any other
    type does not compare with one. *)
Definition min_max_pages (opts : options) (n : Z) : res Z :=
  match get opts "max_pages" (VInt n) with
  | VInt m => Ok (Z.min m n)
  | VBool b => Ok (Z.min (Z.b2z b) n)
  | _ => Raise TypeError
  end.

(* ===================================================================== *)
(** * hashlib.md5 and json.dumps *)
(* ===================================================================== *)

Module hashlib.

Definition mask32 (x : Z) : Z := Z.land x 4294967295.
Definition not32 (x : Z) : Z := Z.lxor x 4294967295.
Definition rotl32 (x c : Z) : Z :=
  mask32 (Z.lor (Z.shiftl x c) (Z.shiftr x (32 - c))).

Definition shifts : list Z :=
  [7; 12; 17; 22; 7; 12; 17; 22; 7; 12; 17; 22; 7; 12; 17; 22;
   5; 9; 14; 20; 5; 9; 14; 20; 5; 9; 14; 20; 5; 9; 14; 20;
   4; 11; 16; 23; 4; 11; 16; 23; 4; 11; 16; 23; 4; 11; 16; 23;
   6; 10; 15; 21; 6; 10; 15; 21; 6; 10; 15; 21; 6; 10; 15; 21].

(** [floor(2^32 * abs(sin(i + 1)))] for [i] in 0..63. *)
Definition sines : list Z :=
  [3614090360; 3905402710; 606105819; 3250441966;
   4118548399; 1200080426; 2821735955; 4249261313;
   1770035416; 2336552879; 4294925233; 2304563134;
   1804603682; 4254626195; 2792965006; 1236535329;
   4129170786; 3225465664; 643717713; 3921069994;
   3593408605; 38016083; 3634488961; 3889429448;
   568446438; 3275163606; 4107603335; 1163531501;
   2850285829; 4243563512; 1735328473; 2368359562;
   4294588738; 2272392833; 1839030562; 4259657740;
   2763975236; 1272893353; 4139469664; 3200236656;
   681279174; 3936430074; 3572445317; 76029189;
   3654602809; 3873151461; 530742520; 3299628645;
   4096336452; 1126891415; 2878612391; 4237533241;
   1700485571; 2399980690; 4293915773; 2240044497;
   1873313359; 4264355552; 2734768916; 1309151649;
   4149444226; 3174756917; 718787259; 3951481745].

Definition bytes_of (s : string) : list Z := map Py.code (list_ascii_of_string s).

(** [n] little-endian bytes of [x]. *)
Fixpoint le_bytes (n : nat) (x : Z) : list Z :=
  match n with
  | O => []
  | S n' => Z.land x 255 :: le_bytes n' (Z.shiftr x 8)
  end.

Fixpoint le_word (bs : list Z) : Z :=
  match bs with
  | [] => 0
  | b :: bs' => b + 256 * le_word bs'
  end.

Definition pad (msg : list Z) : list Z :=
  let n := Z.of_nat (length msg) in
  msg ++ [128] ++ repeat 0 (Z.to_nat ((55 - n) mod 64)) ++ le_bytes 8 (8 * n).

(** The sixteen 32-bit words of a 64-byte block. *)
Fixpoint words (n : nat) (block : list Z) : list Z :=
  match n with
  | O => []
  | S n' => le_word (take 4 block) :: words n' (drop 4 block)
  end.

Definition state : Type := Z * Z * Z * Z.

Definition step (M : list Z) (st : state) (i : nat) : state :=
  let '(a, b, c, d) := st in
  let iz := Z.of_nat i in
  let '(f, g) :=
    if iz <? 16 then (Z.lor (Z.land b c) (Z.land (not32 b) d), iz)
    else if iz <? 32 then (Z.lor (Z.land d b) (Z.land (not32 d) c), (5 * iz + 1) mod 16)
    else if iz <? 48 then (Z.lxor b (Z.lxor c d), (3 * iz + 5) mod 16)
    else (Z.lxor c (Z.lor b (not32 d)), (7 * iz) mod 16) in
  let f' := mask32 (f + a + nth i sines 0 + nth (Z.to_nat g) M 0) in
  (d, mask32 (b + rotl32 f' (nth i shifts 0)), b, c).

Definition compress (st : state) (block : list Z) : state :=
  let '(a0, b0, c0, d0) := st in
  let '(a, b, c, d) := fold_left (step (words 16 block)) (seq 0 64) st in
  (mask32 (a0 + a), mask32 (b0 + b), mask32 (c0 + c), mask32 (d0 + d)).

Fixpoint blocks (n : nat) (bs : list Z) : list (list Z) :=
  match n with
  | O => []
  | S n' => take 64 bs :: blocks n' (drop 64 bs)
  end.

Definition hex_digit (n : Z) : ascii :=
  if n <? 10 then ascii_of_nat (Z.to_nat (48 + n)) else ascii_of_nat (Z.to_nat (87 + n)).

Fixpoint hex (bs : list Z) : string :=
  match bs with
  | [] => EmptyString
  | b :: bs' => String (hex_digit (Z.shiftr b 4)) (String (hex_digit (Z.land b 15)) (hex bs'))
  end.

(** [hashlib.md5(s).hexdigest()]. *)
Definition md5 (s : string) : string :=
  let padded := pad (bytes_of s) in
  let '(a, b, c, d) :=
    fold_left compress (blocks (length padded / 64) padded)
      (1732584193, 4023233417, 2562383102, 271733878) in
  hex (le_bytes 4 a ++ le_bytes 4 b ++ le_bytes 4 c ++ le_bytes 4 d).

End hashlib.

Module json.

(** The escape of one character inside a JSON string (ASCII; a byte of a
    non-ASCII character is left as it is). *)
Definition escape_char (c : ascii) : string :=
  let n := Py.code c in
  if n =? 34 then "\" +:+ Py.QUOTE
  else if n =? 92 then "\\"
  else if n =? 10 then "\n"
  else if n =? 13 then "\r"
  else if n =? 9 then "\t"
  else if n =? 8 then "\b"
  else if n =? 12 then "\f"
  else if n <? 32 then
    "\u00" +:+ String (hashlib.hex_digit (Z.shiftr n 4)) (String (hashlib.hex_digit (Z.land n 15)) EmptyString)
  else String c EmptyString.

Fixpoint escape (s : string) : string :=
  match s with
  | EmptyString => EmptyString
  | String c s' => escape_char c +:+ escape s'
  end.

Definition dumps_str (s : string) : string := Py.QUOTE +:+ escape s +:+ Py.QUOTE.

Fixpoint dumps_value (v : value) : string :=
  match v with
  | VNone => "null"
  | VBool true => "true"
  | VBool false => "false"
  | VInt n => Py.str_int n
  | VStr s => dumps_str s
  | VList l => "[" +:+ Py.join ", " (map dumps_value l) +:+ "]"
  end.

Definition key_le (a b : string * value) : Prop := Is_true (String.leb a.1 b.1).
#[global] Instance key_le_dec a b : Decision (key_le a b) := _.

(** [json.dumps(d, sort_keys=True)]. *)
Definition dumps (d : options) : string :=
  "{" +:+ Py.join ", "
            (map (fun kv => dumps_str kv.1 +:+ ": " +:+ dumps_value kv.2)
                 (merge_sort key_le (map_to_list d)))
      +:+ "}".

End json.

(* ===================================================================== *)
(** * app/utils/cache.py *)
(* ===================================================================== *)

Module cache.

Definition MAX_CACHE_SIZE : nat := 100.
Definition DEFAULT_TTL : Z := 900.

(** def get_cache_key(file_id, options) *)
Definition get_cache_key (file_id : string) (opts : options) : string :=
  let options_str := json.dumps opts in
  let combined := file_id +:+ ":" +:+ options_str in
  hashlib.md5 combined.

Section Store.
Context {V : Type}.

(** The module-level [_cache] dictionary, in insertion order, each entry
    a (value, expiry) pair; with the hit and miss counters. *)
Record store : Type := {
  entries : list (string * (V * Z));
  cache_hits : Z;
  cache_misses : Z;
}.

Definition empty_store : store := {| entries := []; cache_hits := 0; cache_misses := 0 |}.

Fixpoint lookup (key : string) (es : list (string * (V * Z))) : option (V * Z) :=
  match es with
  | [] => None
  | (k, e) :: es' => if String.eqb k key then Some e else lookup key es'
  end.

(** del d[key] *)
Fixpoint del (key : string) (es : list (string * (V * Z))) : list (string * (V * Z)) :=
  match es with
  | [] => []
  | (k, e) :: es' => if String.eqb k key then es' else (k, e) :: del key es'
  end.

(** d[key] = e: an existing key keeps its place. *)
Fixpoint assign (key : string) (e : V * Z) (es : list (string * (V * Z))) : list (string * (V * Z)) :=
  match es with
  | [] => [(key, e)]
  | (k, e') :: es' => if String.eqb k key then (k, e) :: es' else (k, e') :: assign key e es'
  end.

(** def get_from_cache(key), read at time [now] *)
Definition get_from_cache (now : Z) (key : string) (st : store) : option V * store :=
  match lookup key (entries st) with
  | Some (v, expiry) =>
      if now <? expiry
      then (Some v, {| entries := entries st; cache_hits := cache_hits st + 1;
                       cache_misses := cache_misses st |})
      else (None, {| entries := del key (entries st); cache_hits := cache_hits st;
                     cache_misses := cache_misses st + 1 |})
  | None => (None, {| entries := entries st; cache_hits := cache_hits st;
                      cache_misses := cache_misses st + 1 |})
  end.

(** min(_cache.keys(), key=lambda k: _cache[k][1]): the first key of the
    least expiry. *)
Fixpoint oldest (best : string * Z) (es : list (string * (V * Z))) : string :=
  match es with
  | [] => best.1
  | (k, (_, x)) :: es' => oldest (if x <? best.2 then (k, x) else best) es'
  end.

(** def _evict_oldest() *)
Definition _evict_oldest (es : list (string * (V * Z))) : list (string * (V * Z)) :=
  match es with
  | [] => []
  | (k, (_, x)) :: es' => del (oldest (k, x) es') es
  end.

(** def set_in_cache(key, value, ttl=DEFAULT_TTL), written at time [now] *)
Definition set_in_cache (now : Z) (key : string) (v : V) (ttl : Z) (st : store) : store :=
  let es := if (MAX_CACHE_SIZE <=? length (entries st))%nat
            then _evict_oldest (entries st) else entries st in
  let expiry := now + ttl in
  {| entries := assign key (v, expiry) es;
     cache_hits := cache_hits st; cache_misses := cache_misses st |}.

End Store.
Arguments store : clear implicits.

(** def clear_cache() *)
Definition clear_cache {V} (st : store V) : store V := empty_store.

Definition MAX_OCR_CACHE : nat := 50.

(** def get_ocr_cache_key(image_hash, language) *)
Definition get_ocr_cache_key (image_hash language : string) : string :=
  "ocr:" +:+ image_hash +:+ ":" +:+ language.

(** The module-level [_ocr_cache] dictionary, in insertion order. *)
Fixpoint ocr_lookup (key : string) (oc : list (string * string)) : option string :=
  match oc with
  | [] => None
  | (k, text) :: oc' => if String.eqb k key then Some text else ocr_lookup key oc'
  end.

Fixpoint ocr_assign (key text : string) (oc : list (string * string)) : list (string * string) :=
  match oc with
  | [] => [(key, text)]
  | (k, t) :: oc' => if String.eqb k key then (k, text) :: oc' else (k, t) :: ocr_assign key text oc'
  end.

(** def cache_ocr_result(image_hash, language, text): a full cache first
    loses its first entry, [_ocr_cache.pop(next(iter(_ocr_cache)))]. *)
Definition cache_ocr_result (image_hash language text : string) (oc : list (string * string))
  : list (string * string) :=
  let oc := if (MAX_OCR_CACHE <=? length oc)%nat then tail oc else oc in
  ocr_assign (get_ocr_cache_key image_hash language) text oc.

(** def get_cached_ocr(image_hash, language) *)
Definition get_cached_ocr (image_hash language : string) (oc : list (string * string))
  : option string :=
  ocr_lookup (get_ocr_cache_key image_hash language) oc.

End cache.

(* ===================================================================== *)
(** * Documents as the libraries present them *)
(* ===================================================================== *)

(** PNG bytes of a rendered page, and a PIL image of pdf2image. *)
Definition image : Type := string.
Definition pil_image : Type := string.

(** doc.extract_image(xref) *)
Record Pix : Type := {
  pix_ext : string;
  pix_width : Z;
  pix_height : Z;
  pix_image : string;
}.

(** A span and a block of page.get_text("dict"). *)
Record Span : Type := { span_font : string; span_text : string }.
Record Block : Type := { block_type : Z; block_lines : list (list Span) }.

(** A page of a PyMuPDF (fitz) document. *)
Record FitzPage : Type := {
  get_text : string;                      (* page.get_text() *)
  get_fonts : list string;                (* font[3] of each page.get_fonts() *)
  get_images : list (res (option Pix));   (* extract_image of each page.get_images() *)
  annots : bool;                          (* truth of page.annots() *)
  rect_width : float;                     (* page.rect.width *)
  rect_height : float;                    (* page.rect.height *)
  get_text_dict : list Block;             (* page.get_text("dict")["blocks"] *)
  get_pixmap : res image;                 (* page.get_pixmap(matrix=Matrix(2, 2)).tobytes("png"), of
                                             the page loaded as doc[page_num]; loading and
                                             rendering can raise *)
}.

(** doc.metadata: the raw title, author, subject and keywords. *)
Record FitzMeta : Type := {
  meta_title : option string;
  meta_author : option string;
  meta_subject : option string;
  meta_keywords : option string;
}.

Record FitzDoc : Type := {
  fitz_pages : list FitzPage;
  fitz_metadata : option FitzMeta;
}.

(** A raw table of pdfplumber: rows of cells, a cell a string or None. *)
Definition RawTable : Type := list (list (option string)).

(** A page of a pdfplumber document. *)
Record PlumberPage : Type := {
  extract_text : option string;           (* page.extract_text() *)
  extract_tables : list RawTable;         (* page.extract_tables() *)
  find_tables : bool;                     (* truth of page.find_tables() *)
}.

(** The [re] module on the patterns the source uses. *)
Record Regex : Type := {
  finditer : string -> string -> list string;   (* match.group(1) of each match, MULTILINE | DOTALL *)
  search : string -> string -> bool;            (* truth of re.search(pattern, text) *)
  sub : string -> string -> string -> string;   (* re.sub(pattern, repl, text) *)
}.

(** What the file system and the third-party libraries answer. *)
Record Env : Type := {
  open_rb : string -> option string;            (* the bytes of open(path, 'rb'); None: OSError *)
  fitz_open : string -> option FitzDoc;         (* fitz.open(path); None: it raises *)
  pdfplumber_open : string -> option (list PlumberPage);
  re : Regex;
  float_ok : string -> bool;                    (* float(s) does not raise *)
  ensure_tmp_space : Z -> bool;
  convert_from_path : option (string -> value -> res (list pil_image));
                                                (* pdf2image, None when not installed; the second
                                                   argument is last_page *)
  save_png : pil_image -> res image;            (* img.save(buffer, format='PNG') *)
  fitz_installed : bool;                        (* ocr_processor._get_fitz() is not None *)
  vision_ocr : option (image -> res string);    (* Cloud Vision document text, None when no client *)
  tesseract : option (image -> value -> res string);
                                                (* image_to_string of the opened image, by language *)
  preprocess : image -> image;                  (* _preprocess_image_sync *)
}.

(* ===================================================================== *)
(** * csv.writer (excel dialect) *)
(* ===================================================================== *)

Module csv.

Definition special (c : ascii) : bool :=
  let n := Py.code c in (n =? 44) || (n =? 34) || (n =? 13) || (n =? 10).

Fixpoint double_quotes (s : string) : string :=
  match s with
  | EmptyString => EmptyString
  | String c s' =>
      if Py.code c =? 34 then Py.QUOTE +:+ Py.QUOTE +:+ double_quotes s'
      else String c (double_quotes s')
  end.

(** QUOTE_MINIMAL: a field with a delimiter, a quote or a line break is
    quoted, its quotes doubled. *)
Definition field (s : string) : string :=
  if Py.any_char special s then Py.QUOTE +:+ double_quotes s +:+ Py.QUOTE else s.

(** writer.writerow(row): a lone empty field is written quoted. *)
Definition writerow (row : list string) : string :=
  match row with
  | [EmptyString] => Py.QUOTE +:+ Py.QUOTE +:+ Py.CR +:+ Py.NL
  | _ => Py.join "," (map field row) +:+ Py.CR +:+ Py.NL
  end.

Definition writerows (rows : list (list string)) : string :=
  String.concat EmptyString (map writerow rows).

End csv.

(* ===================================================================== *)
(** * app/parsers/pdf/table_extractor.py *)
(* ===================================================================== *)

Module table_extractor.

Record Analysis : Type := {
  data_types : list string;
  has_numeric : bool;
  row_count : Z;
  col_count : Z;
}.

Record Representations : Type := {
  markdown : string;
  csv : string;
  html : string;
}.

Record Table : Type := {
  id : string;
  page_number : Z;
  headers : list string;
  rows : list (list string);
  num_rows : Z;
  num_cols : Z;
  representations : Representations;
  analysis : Analysis;
}.

Definition len {A} (l : list A) : Z := Z.of_nat (length l).
Definition nonempty (s : string) : bool := negb (String.eqb s EmptyString).

(** def _to_markdown(headers, rows) *)
Definition _to_markdown (headers : list string) (rows : list (list string)) : string :=
  match headers, rows with
  | [], [] => EmptyString
  | _, _ =>
      let lines :=
        (match headers with
         | [] => []
         | _ => ["| " +:+ Py.join " | " headers +:+ " |";
                 "| " +:+ Py.join " | " (map (fun _ => "---") headers) +:+ " |"]
         end)
        ++ map (fun row => "| " +:+ Py.join " | " row +:+ " |") rows in
      Py.join Py.NL lines
  end.

(** def _to_csv(headers, rows) *)
Definition _to_csv (headers : list string) (rows : list (list string)) : string :=
  (match headers with [] => EmptyString | _ => csv.writerow headers end)
  +:+ csv.writerows rows.

(** def _to_html(headers, rows) *)
Definition _to_html (headers : list string) (rows : list (list string)) : string :=
  let html := ["<table>"] in
  let html :=
    match headers with
    | [] => html
    | _ => html ++ ["  <thead><tr>"]
                ++ map (fun h => "    <th>" +:+ h +:+ "</th>") headers
                ++ ["  </tr></thead>"]
    end in
  let html := html ++ ["  <tbody>"] in
  let html :=
    fold_left (fun html row =>
                 html ++ ["  <tr>"]
                      ++ map (fun cell => "    <td>" +:+ cell +:+ "</td>") row
                      ++ ["  </tr>"]) rows html in
  let html := html ++ ["  </tbody>"] in
  let html := html ++ ["</table>"] in
  Py.join Py.NL html.

Section WithEnv.
Variable env : Env.

(** def _is_numeric(value) *)
Definition _is_numeric (v : string) : bool :=
  float_ok env (Py.replace "%" EmptyString (Py.replace "$" EmptyString (Py.replace "," EmptyString v))).

Definition count_if {A} (p : A -> bool) (l : list A) : Z := len (filter (fun x => Is_true (p x)) l).

(** def _is_header_row(row); [n < len(row) * 0.5] is [2 * n < len(row)]. *)
Definition _is_header_row (row : list string) : bool :=
  match row with
  | [] => false
  | _ =>
      let non_empty := count_if nonempty row in
      if 2 * non_empty <? len row then false
      else
        let numeric_count := count_if _is_numeric row in
        numeric_count <? len row
  end.

(** def _analyze_table(headers, rows) *)
Definition _analyze_table (headers : list string) (rows : list (list string)) : Analysis :=
  let cols :=
    match headers with
    | [] => match rows with [] => 0 | r :: _ => len r end
    | _ => len headers
    end in
  let start := {| data_types := []; has_numeric := false;
                  row_count := len rows; col_count := cols |} in
  match rows with
  | [] => start
  | _ =>
      fold_left (fun a col_idx =>
        let col_values := map (fun row => nth (Z.to_nat col_idx) row EmptyString) rows in
        let numeric_count := count_if _is_numeric col_values in
        if len col_values <? 2 * numeric_count
        then {| data_types := data_types a ++ ["numeric"]; has_numeric := true;
                row_count := row_count a; col_count := col_count a |}
        else {| data_types := data_types a ++ ["text"]; has_numeric := has_numeric a;
                row_count := row_count a; col_count := col_count a |})
        (Py.range 0 cols) start
  end.

(** [str(cell).strip() if cell else ''] *)
Definition clean_cell (cell : option string) : string :=
  match cell with
  | Some s => if nonempty s then Py.strip s else EmptyString
  | None => EmptyString
  end.

(** def _process_table(raw_table, page_num, table_idx) *)
Definition _process_table (raw_table : RawTable) (page_num table_idx : Z) : option Table :=
  match raw_table with
  | [] => None
  | _ =>
      let cleaned :=
        fold_left (fun cleaned row =>
          match row with
          | [] => cleaned
          | _ => let cleaned_row := map clean_cell row in
                 if existsb nonempty cleaned_row then cleaned ++ [cleaned_row] else cleaned
          end) raw_table [] in
      match cleaned with
      | [] => None
      | first :: rest =>
          let '(headers, data_rows) :=
            if _is_header_row first then (first, rest) else ([], cleaned) in
          Some {| id := "page" +:+ Py.str_int page_num +:+ "_table" +:+ Py.str_int table_idx;
                  page_number := page_num;
                  headers := headers;
                  rows := data_rows;
                  num_rows := len data_rows;
                  num_cols := match headers with
                              | [] => match data_rows with [] => 0 | r :: _ => len r end
                              | _ => len headers
                              end;
                  representations := {| markdown := _to_markdown headers data_rows;
                                        csv := _to_csv headers data_rows;
                                        html := _to_html headers data_rows |};
                  analysis := _analyze_table headers data_rows |}
      end
  end.

(** The pages [options["pages"]] selects: all of them, or the listed
    1-based page numbers that exist. *)
Fixpoint select_pages (pages : list PlumberPage) (wanted : list value) : res (list PlumberPage) :=
  match wanted with
  | [] => Ok []
  | VInt i :: w =>
      ps ← select_pages pages w;
      Ok (if (0 <? i) && (i <=? len pages)
          then match pages !! Z.to_nat (i - 1) with Some p => p :: ps | None => ps end
          else ps)
  | VBool b :: w =>
      ps ← select_pages pages w;
      Ok (if b && (1 <=? len pages)
          then match pages !! 0%nat with Some p => p :: ps | None => ps end
          else ps)
  | _ :: _ => Raise TypeError
  end.

(** def extract_tables_from_pdf(file_path, options=None) *)
Definition extract_tables_from_pdf (file_path : string) (opts : options) : res (list Table) :=
  match pdfplumber_open env file_path with
  | None => Raise LibraryError
  | Some pdf_pages =>
      pages ← match get opts "pages" (VStr "all") with
              | VList l => select_pages pdf_pages l
              | _ => Ok pdf_pages
              end;
      Ok (fold_left (fun tables '(page_num, page) =>
            fold_left (fun tables '(table_idx, raw_table) =>
              match _process_table raw_table page_num table_idx with
              | Some processed => tables ++ [processed]
              | None => tables
              end) (Py.enumerate 0 (extract_tables page)) tables)
          (Py.enumerate 1 pages) [])
  end.

End WithEnv.

End table_extractor.

(* ===================================================================== *)
(** * app/parsers/pdf/math_extractor.py *)
(* ===================================================================== *)

Module math_extractor.

Record Equation : Type := {
  id : string;
  page_number : Z;
  eq_type : string;
  raw_text : string;
  latex : string;
}.

Definition operators : list string := ["="; "+"; "-"; "*"; "/"; "^"; "_"].

(** def _is_valid_equation(text) *)
Definition _is_valid_equation (text : string) : bool :=
  existsb (fun op => Py.contains op text) operators && Py.any_char Py.isalnum text.

Definition replacements : list (string * string) :=
  [("×", "\times"); ("÷", "\div"); ("±", "\pm");
   ("≈", "\approx"); ("≠", "\neq"); ("≤", "\leq"); ("≥", "\geq");
   ("∞", "\infty"); ("√", "\sqrt"); ("∑", "\sum"); ("∫", "\int");
   ("α", "\alpha"); ("β", "\beta"); ("γ", "\gamma"); ("δ", "\delta");
   ("θ", "\theta"); ("π", "\pi"); ("σ", "\sigma"); ("λ", "\lambda");
   ("μ", "\mu"); ("φ", "\phi"); ("ω", "\omega")].

(** The patterns of extract_equations_from_page, with their type tags. *)
Definition patterns : list (string * string) :=
  [("\$\$([^$]+)\$\$", "display");
   ("\$([^$]+)\$", "inline");
   ("\\begin{equation}(.*?)\\end{equation}", "display");
   ("\\\[(.*?)\\\]", "display");
   ("\\\((.*?)\\\)", "inline");
   ("([a-zA-Z_]\w*\s*=\s*[^.,;]+)(?:[.,;]|\s|$)", "simple")].

Definition math_fonts : list string := ["math"; "symbol"; "cmr"; "cmmi"].

Section WithEnv.
Variable env : Env.

(** def _convert_to_latex(text, eq_type) *)
Definition _convert_to_latex (text eq_type : string) : string :=
  if String.eqb eq_type "display" || String.eqb eq_type "inline" then text
  else
    let latex := Py.strip text in
    let latex := fold_left (fun latex '(old, new) => Py.replace old new latex) replacements latex in
    let latex := sub (re env) "(\w+)/(\w+)" "\\frac{\1}{\2}" latex in
    let latex := sub (re env) "(\w)_(\w+)" "\1_{\2}" latex in
    let latex := sub (re env) "(\w)\^(\w+)" "\1^{\2}" latex in
    if negb (Py.startswith "$" latex) then
      if String.eqb eq_type "display" || (50 <? Py.len latex)
      then "$$" +:+ latex +:+ "$$"
      else "$" +:+ latex +:+ "$"
    else latex.

(** The loop state of extract_equations_from_page: the list and [eq_id]. *)
Definition append_equation (st : list Equation * Z) (page_num : Z) (ty text : string)
  : list Equation * Z :=
  let '(equations, eq_id) := st in
  (equations ++ [{| id := "page" +:+ Py.str_int page_num +:+ "_eq" +:+ Py.str_int eq_id;
                    page_number := page_num;
                    eq_type := ty;
                    raw_text := text;
                    latex := _convert_to_latex text ty |}],
   eq_id + 1).

(** The pattern-based pass: a match is kept when longer than two
    characters and valid. *)
Definition pattern_pass (text : string) (page_num : Z) (st : list Equation * Z)
  : list Equation * Z :=
  fold_left (fun st '(pattern, ty) =>
    fold_left (fun st group1 =>
      let eq_text := Py.strip group1 in
      if (2 <? Py.len eq_text) && _is_valid_equation eq_text
      then append_equation st page_num ty eq_text
      else st) (finditer (re env) pattern text) st) patterns st.

Definition block_text (b : Block) : string :=
  String.concat EmptyString (map span_text (List.concat (block_lines b))).

Definition has_math_font (b : Block) : bool :=
  existsb (fun span =>
             let font := Py.lower (span_font span) in
             existsb (fun mf => Py.contains mf font) math_fonts)
          (List.concat (block_lines b)).

(** The font-based pass over the text blocks. *)
Definition block_pass (blocks : list Block) (page_num : Z) (st : list Equation * Z)
  : list Equation * Z :=
  fold_left (fun st block =>
    if block_type block =? 0 then
      if has_math_font block
         && negb (existsb (String.eqb (block_text block)) (map raw_text st.1))
      then append_equation st page_num "structural" (Py.strip (block_text block))
      else st
    else st) blocks st.

(** def extract_equations_from_page(page, page_num) *)
Definition extract_equations_from_page (page : FitzPage) (page_num : Z) : list Equation :=
  let st := pattern_pass (get_text page) page_num ([], 0) in
  let st := block_pass (get_text_dict page) page_num st in
  st.1.

(** def extract_math_from_pdf(file_path, options=None): an exception is
    logged, the equations found so far are returned. *)
Definition extract_math_from_pdf (file_path : string) (opts : options) : list Equation :=
  match fitz_open env file_path with
  | None => []
  | Some doc =>
      match min_max_pages opts (Z.of_nat (length (fitz_pages doc))) with
      | Raise _ => []
      | Ok max_pages =>
          fold_left (fun equations '(page_num, page) =>
                       equations ++ extract_equations_from_page page (page_num + 1))
                    (Py.enumerate 0 (Py.upto max_pages (fitz_pages doc))) []
      end
  end.

End WithEnv.

End math_extractor.

(* ===================================================================== *)
(** * Extraction results *)
(* ===================================================================== *)

Record PageMetadata : Type := {
  wordCount : Z;
  characterCount : Z;
  paragraphCount : option Z;
  textDensity : option float;
  hasImages : option bool;
  hasTables : option bool;
  ocrApplied : option value;
  ocrMethod : option string;
  hasEquations : option bool;
  estimatedReadingTime : Z;
}.

(** A table of a page: the simple form of the text-focused strategy (id,
    headers, rows, markdown) or a table of the table extractor. *)
Inductive TableElement : Type :=
| SimpleTable (id : string) (headers : list (option string)) (rows : RawTable) (markdown : string)
| FullTable (t : table_extractor.Table).

Record ImageInfo : Type := {
  image_id : string;
  image_pageNumber : Z;
  image_format : string;
  image_width : Z;
  image_height : Z;
  image_size : Z;
}.

(** The [elements] dictionary of a page: an absent key is [None]. *)
Record Elements : Type := {
  tables : option (list TableElement);
  images : option (list ImageInfo);
  equations : option (list math_extractor.Equation);
}.

Record PageData : Type := {
  pageNumber : Z;
  content : string;
  metadata : PageMetadata;
  elements : Elements;
}.

Record ExtractionResult : Type := {
  pages : list PageData;
  fullText : string;
  totalWordCount : Z;
  totalTables : option Z;
  totalEquations : option Z;
  allEquations : option (list math_extractor.Equation);
  extractionMethod : string;
}.

Definition no_elements : Elements := {| tables := None; images := None; equations := None |}.

(** [len(text.split())] *)
Definition word_count (text : string) : Z := Z.of_nat (length (Py.split text)).

(** The accumulators of a page loop: [pages], [full_text], [total_word_count]. *)
Record Acc : Type := {
  acc_pages : list PageData;
  acc_full_text : list string;
  acc_total_word_count : Z;
}.

Definition acc0 : Acc := {| acc_pages := []; acc_full_text := []; acc_total_word_count := 0 |}.

(** pages.append(page_data); full_text.append(text); total_word_count += n *)
Definition push (a : Acc) (page_data : PageData) (text : string) (n : Z) : Acc :=
  {| acc_pages := acc_pages a ++ [page_data];
     acc_full_text := acc_full_text a ++ [text];
     acc_total_word_count := acc_total_word_count a + n |}.

Definition NLNL : string := Py.NL +:+ Py.NL.

(* ===================================================================== *)
(** * app/parsers/pdf/ocr_processor.py *)
(* ===================================================================== *)

Module ocr_processor.

Section WithEnv.
Variable env : Env.

(** def _get_ocr_method() *)
Definition _get_ocr_method : string :=
  match vision_ocr env, tesseract env with
  | Some _, _ => "cloud_vision"
  | None, Some _ => "tesseract"
  | None, None => "none"
  end.

Definition nonempty_result (r : res string) : option string :=
  match r with
  | Ok s => if String.eqb s EmptyString then None else Some s
  | Raise _ => None
  end.

(** def _process_image_ocr(image_data, options): Cloud Vision first, then
    Tesseract on the (by default preprocessed) image, else the empty
    string; a failing provider is passed over. *)
Definition _process_image_ocr (image_data : image) (opts : options) : string :=
  let vision :=
    match vision_ocr env with
    | Some f => nonempty_result (f image_data)
    | None => None
    end in
  match vision with
  | Some result => result
  | None =>
      let local :=
        match tesseract env with
        | Some f =>
            let img_data := if truthy (get opts "preprocess" (VBool true))
                            then preprocess env image_data else image_data in
            let lang := get opts "language" (VStr "eng") in
            nonempty_result (s ← f img_data lang; Ok (Py.strip s))
        | None => None
        end in
      match local with
      | Some result => result
      | None => EmptyString
      end
  end.

Definition ocr_page (text : string) (page_num : Z) : PageData :=
  let n := word_count text in
  {| pageNumber := page_num;
     content := text;
     metadata := {| wordCount := n; characterCount := Py.len text;
                    paragraphCount := None; textDensity := None;
                    hasImages := None; hasTables := None; ocrApplied := None;
                    ocrMethod := Some _get_ocr_method; hasEquations := None;
                    estimatedReadingTime := n / 200 |};
     elements := no_elements |}.

(** async def _process_page_image(img, page_num, options) *)
Definition _process_page_image (img : pil_image) (page_num : Z) (opts : options) : res PageData :=
  img_data ← save_png env img;
  Ok (ocr_page (_process_image_ocr img_data opts) page_num).

(** async def _process_page_data(img_data, page_num, options) *)
Definition _process_page_data (img_data : image) (page_num : Z) (opts : options) : res PageData :=
  Ok (ocr_page (_process_image_ocr img_data opts) page_num).

(** async def process_page_with_ocr(page, options) *)
Definition process_page_with_ocr (page : FitzPage) (opts : options) : res string :=
  if fitz_installed env then
    img_data ← get_pixmap page;
    Ok (_process_image_ocr img_data opts)
  else Raise ImportError.

(** The groups [tasks[i:i+5]] for [i] in [range(0, len(tasks), 5)]. *)
Definition batches {A} (tasks : list A) : list (list A) :=
  map (fun i => take 5 (drop i tasks)) (Py.seq_step (length tasks)).

(** Each batch is gathered before the next starts; the results extend
    [results] in order. *)
Definition run_batches {A} (tasks : list (res A)) : res (list A) :=
  for_each (fun results batch => batch_results ← gather batch; Ok (results ++ batch_results))
           (batches tasks) [].

(** The response built from the per-page results. *)
Definition build_response (results : list PageData) : ExtractionResult :=
  let a := fold_left (fun a page_data =>
                        push a page_data (content page_data) (wordCount (metadata page_data)))
                     results acc0 in
  {| pages := acc_pages a;
     fullText := Py.join NLNL (acc_full_text a);
     totalWordCount := acc_total_word_count a;
     totalTables := None; totalEquations := None; allEquations := None;
     extractionMethod := "ocr" |}.

(** async def _process_with_fitz(file_path, options) *)
Definition _process_with_fitz (file_path : string) (opts : options) : res ExtractionResult :=
  page_images ←
    (if fitz_installed env then
       match fitz_open env file_path with
       | None => Raise LibraryError
       | Some doc =>
           max_pages ← min_max_pages opts (Z.of_nat (length (fitz_pages doc)));
           for_each (fun page_images '(page_num, page) =>
                       img_data ← get_pixmap page;
                       Ok (page_images ++ [(page_num + 1, img_data)]))
                    (Py.enumerate 0 (Py.upto max_pages (fitz_pages doc))) []
       end
     else Raise ImportError);
  let tasks := map (fun '(page_num, img_data) => _process_page_data img_data page_num opts)
                   page_images in
  results ← run_batches tasks;
  Ok (build_response results).

(** async def process_pdf_with_ocr(file_path, options) *)
Definition process_pdf_with_ocr (file_path : string) (opts : options) : res ExtractionResult :=
  if negb (ensure_tmp_space env 100) then Raise ValueError
  else
    match convert_from_path env with
    | Some convert =>
        try_except
          (images ← convert file_path (get opts "max_pages" VNone);
           let tasks := map (fun '(page_num, img) => _process_page_image img page_num opts)
                            (Py.enumerate 1 images) in
           results ← run_batches tasks;
           Ok (build_response results))
          (fun _ => _process_with_fitz file_path opts)
    | None => _process_with_fitz file_path opts
    end.

End WithEnv.

End ocr_processor.

(* ===================================================================== *)
(** * app/parsers/pdf/extractor.py *)
(* ===================================================================== *)

Module extractor.

Definition math_indicators : list string :=
  ["∑"; "∫"; "∂"; "√"; "±"; "×"; "÷"; "≈"; "≠"; "≤"; "≥"; "α"; "β"; "γ"; "δ"; "θ"; "π"].

(** def _has_math_content(text) *)
Definition _has_math_content (text : string) : bool :=
  existsb (fun indicator => Py.contains indicator text) math_indicators.

(** [str(h)] of a cell: None prints as its name. *)
Definition str_cell (c : option string) : string :=
  match c with Some s => s | None => "None" end.

(** [str(cell) if cell else ""] *)
Definition str_cell_or_empty (c : option string) : string :=
  match c with Some s => s | None => EmptyString end.

(** def _simple_table_to_markdown(headers, rows) *)
Definition _simple_table_to_markdown (headers : list (option string)) (rows : RawTable) : string :=
  match headers, rows with
  | [], [] => EmptyString
  | _, _ =>
      let lines :=
        (match headers with
         | [] => []
         | _ => ["| " +:+ Py.join " | " (map str_cell headers) +:+ " |";
                 "| " +:+ Py.join " | " (map (fun _ => "---") headers) +:+ " |"]
         end)
        ++ map (fun row => "| " +:+ Py.join " | " (map str_cell_or_empty row) +:+ " |") rows in
      Py.join Py.NL lines
  end.

(** def _format_simple_tables(tables) *)
Definition _format_simple_tables (tables : list RawTable) : list TableElement :=
  fold_left (fun formatted '(i, table) =>
    match table with
    | [] => formatted
    | headers :: rows =>
        formatted ++ [SimpleTable ("table_" +:+ Py.str_int i) headers rows
                                  (_simple_table_to_markdown headers rows)]
    end) (Py.enumerate 0 tables) [].

(** def _extract_page_images(page, page_num): an image whose extraction
    raises or yields nothing is skipped. *)
Definition _extract_page_images (page : FitzPage) (page_num : Z) : list ImageInfo :=
  fold_left (fun images '(img_index, img) =>
    match img with
    | Ok (Some pix) =>
        images ++ [{| image_id := "page" +:+ Py.str_int page_num +:+ "_img" +:+ Py.str_int img_index;
                      image_pageNumber := page_num;
                      image_format := pix_ext pix;
                      image_width := pix_width pix;
                      image_height := pix_height pix;
                      image_size := Z.of_nat (String.length (pix_image pix)) |}]
    | _ => images
    end) (Py.enumerate 0 (get_images page)) [].

Definition result_of (a : Acc) (method : string) : ExtractionResult :=
  {| pages := acc_pages a;
     fullText := Py.join NLNL (acc_full_text a);
     totalWordCount := acc_total_word_count a;
     totalTables := None; totalEquations := None; allEquations := None;
     extractionMethod := method |}.

Section WithEnv.
Variable env : Env.

(** async def extract_text_focused(file_path, options) *)
Definition extract_text_focused (file_path : string) (opts : options) : res ExtractionResult :=
  match pdfplumber_open env file_path with
  | None => Raise LibraryError
  | Some pdf_pages =>
      max_pages ← min_max_pages opts (Z.of_nat (length pdf_pages));
      let a :=
        fold_left (fun a '(i, page) =>
          let text := match extract_text page with
                      | Some t => t
                      | None => EmptyString
                      end in
          let n := word_count text in
          let found := if truthy (get opts "extract_tables" (VBool true))
                       then extract_tables page else [] in
          let has_tables := match found with [] => false | _ => true end in
          let page_data :=
            {| pageNumber := i + 1;
               content := text;
               metadata := {| wordCount := n; characterCount := Py.len text;
                              paragraphCount :=
                                Some (if String.eqb text EmptyString then 0
                                      else Py.count NLNL text + 1);
                              textDensity := None;
                              hasImages := Some false;
                              hasTables := Some has_tables;
                              ocrApplied := None; ocrMethod := None; hasEquations := None;
                              estimatedReadingTime := n / 200 |};
               elements := {| tables := if has_tables then Some (_format_simple_tables found)
                                        else None;
                              images := None; equations := None |} |} in
          push a page_data text n)
        (Py.enumerate 0 (Py.upto max_pages pdf_pages)) acc0 in
      Ok (result_of a "text_focused")
  end.

(** One entry of [pages_data] in extract_hybrid. *)
Record HybridPage : Type := {
  hp_page : FitzPage;
  hp_page_num : Z;
  hp_text : string;
  hp_text_density : float;
  hp_needs_ocr : value;
}.

(** The first pass of extract_hybrid (_sync_extract_text). *)
Definition hybrid_first_pass (file_path : string) (opts : options) : res (list HybridPage) :=
  match fitz_open env file_path with
  | None => Raise LibraryError
  | Some doc =>
      max_pages ← min_max_pages opts (Z.of_nat (length (fitz_pages doc)));
      for_each (fun pages_data '(page_num, page) =>
        let text := get_text page in
        text_density ←
          (if Float.gt (rect_width page) 0%float
           then Float.truediv (Float.of_int (Py.len (Py.strip text)))
                              (PrimFloat.mul (rect_width page) (rect_height page))
           else Ok 0%float);
        Ok (pages_data ++
              [{| hp_page := page; hp_page_num := page_num; hp_text := text;
                  hp_text_density := text_density;
                  hp_needs_ocr := if Float.lt text_density 0.01%float
                                  then get opts "ocr_enabled" (VBool false)
                                  else VBool false |}]))
        (Py.enumerate 0 (Py.upto max_pages (fitz_pages doc))) []
  end.

(** async def extract_hybrid(file_path, options).  The equation step
    calls extract_equations_from_page with three positional arguments
    where it takes two: a page with math content raises TypeError. *)
Definition extract_hybrid (file_path : string) (opts : options) : res ExtractionResult :=
  pages_data ← hybrid_first_pass file_path opts;
  a ← for_each (fun a pd =>
         text ← (if truthy (hp_needs_ocr pd) then
                   ocr_text ← ocr_processor.process_page_with_ocr env (hp_page pd) opts;
                   Ok (if String.eqb ocr_text EmptyString then hp_text pd
                       else Py.strip (hp_text pd +:+ Py.NL +:+ ocr_text))
                 else Ok (hp_text pd));
         let n := word_count text in
         let found := if truthy (get opts "extract_images" (VBool false))
                      then _extract_page_images (hp_page pd) (hp_page_num pd + 1) else [] in
         let has_images := match found with [] => false | _ => true end in
         let page_data :=
           {| pageNumber := hp_page_num pd + 1;
              content := text;
              metadata := {| wordCount := n; characterCount := Py.len text;
                             paragraphCount := None;
                             textDensity := Some (hp_text_density pd);
                             hasImages := Some has_images;
                             hasTables := Some false;
                             ocrApplied := Some (hp_needs_ocr pd);
                             ocrMethod := None; hasEquations := None;
                             estimatedReadingTime := n / 200 |};
              elements := {| tables := None;
                             images := if has_images then Some found else None;
                             equations := None |} |} in
         if _has_math_content text then Raise TypeError
         else Ok (push a page_data text n))
       pages_data acc0;
  Ok (result_of a "hybrid").

(** async def extract_table_focused(file_path, options) *)
Definition extract_table_focused (file_path : string) (opts : options) : res ExtractionResult :=
  all_tables ← table_extractor.extract_tables_from_pdf env file_path opts;
  match pdfplumber_open env file_path with
  | None => Raise LibraryError
  | Some pdf_pages =>
      let a :=
        fold_left (fun a '(i, page) =>
          let text := match extract_text page with
                      | Some t => t
                      | None => EmptyString
                      end in
          let n := word_count text in
          let page_tables :=
            List.filter (fun t => table_extractor.page_number t =? i + 1) all_tables in
          let page_data :=
            {| pageNumber := i + 1;
               content := text;
               metadata := {| wordCount := n; characterCount := Py.len text;
                              paragraphCount := None; textDensity := None;
                              hasImages := None;
                              hasTables := Some (match page_tables with [] => false | _ => true end);
                              ocrApplied := None; ocrMethod := None; hasEquations := None;
                              estimatedReadingTime := n / 200 |};
               elements := {| tables := Some (map FullTable page_tables);
                              images := None; equations := None |} |} in
          push a page_data text n)
        (Py.enumerate 0 pdf_pages) acc0 in
      let r := result_of a "table_focused" in
      Ok {| pages := pages r; fullText := fullText r; totalWordCount := totalWordCount r;
            totalTables := Some (Z.of_nat (length all_tables));
            totalEquations := None; allEquations := None;
            extractionMethod := extractionMethod r |}
  end.

(** Merge equations into pages (extract_math_focused). *)
Definition merge_equations (all_equations : list math_extractor.Equation) (page : PageData)
  : PageData :=
  let page_equations :=
    List.filter (fun e => math_extractor.page_number e =? pageNumber page) all_equations in
  match page_equations with
  | [] => page
  | _ =>
      let m := metadata page in
      {| pageNumber := pageNumber page;
         content := content page;
         metadata := {| wordCount := wordCount m; characterCount := characterCount m;
                        paragraphCount := paragraphCount m; textDensity := textDensity m;
                        hasImages := hasImages m; hasTables := hasTables m;
                        ocrApplied := ocrApplied m; ocrMethod := ocrMethod m;
                        hasEquations := Some true;
                        estimatedReadingTime := estimatedReadingTime m |};
         elements := {| tables := tables (elements page); images := images (elements page);
                        equations := Some page_equations |} |}
  end.

(** async def extract_math_focused(file_path, options) *)
Definition extract_math_focused (file_path : string) (opts : options) : res ExtractionResult :=
  let all_equations := math_extractor.extract_math_from_pdf env file_path opts in
  match fitz_open env file_path with
  | None => Raise LibraryError
  | Some doc =>
      let a :=
        fold_left (fun a '(page_num, page) =>
          let text := get_text page in
          let n := word_count text in
          let page_data :=
            {| pageNumber := page_num + 1;
               content := text;
               metadata := {| wordCount := n; characterCount := Py.len text;
                              paragraphCount := None; textDensity := None;
                              hasImages := None; hasTables := None;
                              ocrApplied := None; ocrMethod := None; hasEquations := None;
                              estimatedReadingTime := n / 200 |};
               elements := no_elements |} in
          push a page_data text n)
        (Py.enumerate 0 (fitz_pages doc)) acc0 in
      Ok {| pages := map (merge_equations all_equations) (acc_pages a);
            fullText := Py.join NLNL (acc_full_text a);
            totalWordCount := acc_total_word_count a;
            totalTables := None;
            totalEquations := Some (Z.of_nat (length all_equations));
            allEquations := Some all_equations;
            extractionMethod := "math_focused" |}
  end.

(** async def extract_ocr_heavy(file_path, options) *)
Definition extract_ocr_heavy (file_path : string) (opts : options) : res ExtractionResult :=
  ocr_processor.process_pdf_with_ocr env file_path opts.

(** async def extract_with_strategy(file_path, strategy, options): an
    unknown strategy falls back to the text-focused one. *)
Definition extract_with_strategy (file_path strategy : string) (opts : options)
  : res ExtractionResult :=
  if String.eqb strategy "text_focus" then extract_text_focused file_path opts
  else if String.eqb strategy "ocr_heavy" then extract_ocr_heavy file_path opts
  else if String.eqb strategy "hybrid" then extract_hybrid file_path opts
  else if String.eqb strategy "table_focus" then extract_table_focused file_path opts
  else if String.eqb strategy "math_focus" then extract_math_focused file_path opts
  else extract_text_focused file_path opts.

End WithEnv.

End extractor.

(* ===================================================================== *)
(** * app/parsers/pdf/analyzer.py *)
(* ===================================================================== *)

Module analyzer.

Record PDFCharacteristics : Type := {
  total_pages : Z;
  has_text : bool;
  has_images : bool;
  has_tables : bool;
  has_forms : bool;
  is_scanned : bool;
  has_annotations : bool;
  text_density : float;
  image_density : float;
  table_density : float;
  avg_text_per_page : Z;
  fonts_used : list string;
  page_sizes : list (float * float);
  has_equations : bool;
  has_diagrams : bool;
  recommended_strategy : string;
  file_hash : string;
}.

(** The characteristics the [except] branch of analyze_pdf returns. *)
Definition default_characteristics (file_hash : string) : PDFCharacteristics :=
  {| total_pages := 0; has_text := false; has_images := false; has_tables := false;
     has_forms := false; is_scanned := false; has_annotations := false;
     text_density := 0%float; image_density := 0%float; table_density := 0%float;
     avg_text_per_page := 0; fonts_used := []; page_sizes := [];
     has_equations := false; has_diagrams := false;
     recommended_strategy := "text_focus"; file_hash := file_hash |}.

(** def _get_sample_pages(total_pages); [list(set(samples))] lists each
    sampled index once, in the order of the set. *)
Definition _get_sample_pages (total_pages : Z) : list Z :=
  if total_pages <=? 20 then Py.range 0 total_pages
  else
    let samples := Py.range 0 (Z.min 10 total_pages) in
    let middle := total_pages / 2 in
    let samples := samples ++ Py.range (Z.max 10 (middle - 2)) (Z.min (middle + 3) total_pages) in
    let samples := samples ++ Py.range (Z.max (middle + 3) (total_pages - 5)) total_pages in
    base.elements (list_to_set samples : gset Z).

(** def _is_scanned_pdf(text_density, avg_text_per_page, image_density) *)
Definition _is_scanned_pdf (text_density : float) (avg_text_per_page : Z) (image_density : float)
  : bool :=
  if Float.lt text_density 0.1%float && (avg_text_per_page <? 100) then true
  else if Float.gt image_density 0.8%float && (avg_text_per_page <? 200) then true
  else false.

(** def _determine_strategy(...) *)
Definition _determine_strategy (is_scanned : bool) (text_density image_density table_density : float)
    (has_equations : bool) : string :=
  if is_scanned then "ocr_heavy"
  else if has_equations then "math_focus"
  else if Float.gt table_density 0.3%float then "table_focus"
  else if Float.gt image_density 0.5%float && Float.lt text_density 0.5%float then "hybrid"
  else if Float.gt text_density 0.7%float then "text_focus"
  else "hybrid".

Definition math_indicators : list string :=
  ["∑"; "∫"; "∂"; "√"; "±"; "×"; "÷"; "≈"; "≠"; "≤"; "≥";
   "∈"; "∉"; "⊂"; "⊃"; "∪"; "∩"; "∀"; "∃"; "∇"; "∆";
   "α"; "β"; "γ"; "δ"; "θ"; "λ"; "μ"; "σ"; "π"; "φ"; "ω"].

Definition equation_patterns : list string :=
  ["\b[a-z]\s*=\s*\d+";
   "\d+\s*[+\-*/]\s*\d+\s*=";
   "\\[a-z]+\{";
   "\$.*\$";
   "[\u0660-\u0669]+\s*[+\-*/]\s*[\u0660-\u0669]+";
   "[٠-٩]+\s*[+\-*/]\s*[٠-٩]+"].

Definition math_and_arabic_fonts : list string :=
  ["math"; "symbol"; "equation"; "cmr"; "cmmi"; "arabic"; "traditional arabic";
   "simplified arabic"; "arial unicode"; "tahoma"; "droid arabic"].

(** The locals of analyze_pdf that its page loop updates; [last_text] is
    the variable [text], unbound until a page has been read. *)
Record Scan : Type := {
  text_pages : Z;
  image_count : Z;
  total_text_length : Z;
  fonts : gset string;
  sizes : list (float * float);
  seen_annotations : bool;
  potential_equations : bool;
  potential_diagrams : bool;
  last_text : option string;
}.

Definition scan0 : Scan :=
  {| text_pages := 0; image_count := 0; total_text_length := 0; fonts := ∅; sizes := [];
     seen_annotations := false; potential_equations := false; potential_diagrams := false;
     last_text := None |}.

(** One iteration of the page loop on an existing page. *)
Definition scan_page (st : Scan) (page : FitzPage) : Scan :=
  let text := get_text page in
  let text_length := Py.len (Py.strip text) in
  let math_font :=
    existsb (fun font =>
               let name := Py.lower font in
               existsb (fun font_name => Py.contains font_name name) math_and_arabic_fonts
               && (Py.contains "math" name || Py.contains "symbol" name))
            (get_fonts page) in
  let diagram :=
    existsb (fun img =>
               match img with
               | Ok (Some pix) => (200 <? pix_width pix) && (200 <? pix_height pix)
               | _ => false
               end) (get_images page) in
  {| text_pages := if 50 <? text_length then text_pages st + 1 else text_pages st;
     image_count := image_count st + Z.of_nat (length (get_images page));
     total_text_length := total_text_length st + text_length;
     fonts := fonts st ∪ list_to_set (get_fonts page);
     sizes := sizes st ++ [(rect_width page, rect_height page)];
     seen_annotations := seen_annotations st || annots page;
     potential_equations := potential_equations st || math_font;
     potential_diagrams := potential_diagrams st || diagram;
     last_text := Some text |}.

(** [int((count / sample_size) * total_pages)] *)
Definition extrapolate (count sample_size total_pages : Z) : res Z :=
  ratio ← Float.truediv (Float.of_int count) (Float.of_int sample_size);
  Float.to_int (PrimFloat.mul ratio (Float.of_int total_pages)).

(** [count / total_pages if total_pages > 0 else 0] *)
Definition density (count total_pages : Z) : res float :=
  if 0 <? total_pages then Float.truediv (Float.of_int count) (Float.of_int total_pages)
  else Ok 0%float.

Section WithEnv.
Variable env : Env.

(** def _calculate_file_hash(file_path): the digest of the chunks read is
    the digest of the file's bytes; a file that cannot be opened raises. *)
Definition _calculate_file_hash (file_path : string) : res string :=
  match open_rb env file_path with
  | Some bytes => Ok (hashlib.md5 bytes)
  | None => Raise OSError
  end.

(** def _has_math_content(text) *)
Definition _has_math_content (text : string) : bool :=
  if existsb (fun indicator => Py.contains indicator text) math_indicators then true
  else existsb (fun pattern => search (re env) pattern text) equation_patterns.

(** def _detect_tables(file_path, total_pages): any failure gives 0.0. *)
Definition _detect_tables (file_path : string) (total_pages : Z) : float :=
  match pdfplumber_open env file_path with
  | None => 0%float
  | Some pdf_pages =>
      let n := Z.of_nat (length pdf_pages) in
      let pages_to_check := _get_sample_pages (Z.min total_pages n) in
      let pages_with_tables :=
        fold_left (fun count page_num =>
                     if page_num <? n then
                       match pdf_pages !! Z.to_nat page_num with
                       | Some page => if find_tables page then count + 1 else count
                       | None => count
                       end
                     else count) (take 20 pages_to_check) 0 in
      match pages_to_check with
      | [] => 0%float
      | _ => match Float.truediv (Float.of_int pages_with_tables)
                                 (Float.of_int (Z.of_nat (length pages_to_check))) with
             | Ok d => d
             | Raise _ => 0%float
             end
      end
  end.

(** The [try] block of analyze_pdf. *)
Definition analyze_body (file_path file_hash : string) : res PDFCharacteristics :=
  match fitz_open env file_path with
  | None => Raise LibraryError
  | Some doc =>
      let total_pages := Z.of_nat (length (fitz_pages doc)) in
      let pages_to_analyze := _get_sample_pages total_pages in
      let st :=
        fold_left (fun st page_num =>
                     if total_pages <=? page_num then st
                     else match fitz_pages doc !! Z.to_nat page_num with
                          | Some page => scan_page st page
                          | None => st
                          end) pages_to_analyze scan0 in
      let sample_size := Z.of_nat (length pages_to_analyze) in
      '(text_pages, image_count, total_text_length) ←
        (if 0 <? sample_size then
           a ← extrapolate (text_pages st) sample_size total_pages;
           b ← extrapolate (image_count st) sample_size total_pages;
           c ← extrapolate (total_text_length st) sample_size total_pages;
           Ok (a, b, c)
         else Ok (text_pages st, image_count st, total_text_length st));
      let avg_text_per_page := if 0 <? total_pages then total_text_length / total_pages else 0 in
      text_density ← density text_pages total_pages;
      image_density ← density image_count total_pages;
      let is_scanned := _is_scanned_pdf text_density avg_text_per_page image_density in
      let table_density := _detect_tables file_path total_pages in
      potential_equations ←
        (if potential_equations st then Ok true
         else match last_text st with
              | Some text => Ok (_has_math_content text)
              | None => Raise UnboundLocalError
              end);
      let strategy := _determine_strategy is_scanned text_density image_density table_density
                                          potential_equations in
      Ok {| total_pages := total_pages;
            has_text := Float.gt text_density 0.1%float;
            has_images := 0 <? image_count;
            has_tables := Float.gt table_density 0%float;
            has_forms := false;
            is_scanned := is_scanned;
            has_annotations := seen_annotations st;
            text_density := text_density;
            image_density := image_density;
            table_density := table_density;
            avg_text_per_page := avg_text_per_page;
            fonts_used := base.elements (fonts st);
            page_sizes := sizes st;
            has_equations := potential_equations;
            has_diagrams := potential_diagrams st;
            recommended_strategy := strategy;
            file_hash := file_hash |}
  end.

(** def analyze_pdf(file_path): the file hash is computed before the
    [try]; what the [try] block raises gives the default characteristics. *)
Definition analyze_pdf (file_path : string) : res PDFCharacteristics :=
  file_hash ← _calculate_file_hash file_path;
  try_except (analyze_body file_path file_hash)
             (fun _ => Ok (default_characteristics file_hash)).

End WithEnv.

End analyzer.

(* ===================================================================== *)
(** * app/parsers/pdf/metadata_extractor.py *)
(* ===================================================================== *)

Module metadata_extractor.

(** The keys of the metadata dictionary that the assembler reads; an
    absent key is [None]. *)
Record PdfMetadata : Type := {
  title : option string;
  author : option string;
  subject : option string;
  keywords : option (list string);
}.

Definition no_metadata : PdfMetadata :=
  {| title := None; author := None; subject := None; keywords := None |}.

(** def _clean_string(value) *)
Definition _clean_string (v : option string) : option string :=
  match v with
  | None => None
  | Some raw =>
      let str_value := Py.replace Py.NUL EmptyString (Py.strip raw) in
      if String.eqb str_value EmptyString then None else Some str_value
  end.

(** [[k.strip() for k in keywords if k.strip() and len(k.strip()) > 1]] *)
Definition clean_keywords (ks : list string) : list string :=
  List.filter (fun k => negb (String.eqb k EmptyString) && (1 <? Py.len k)) (map Py.strip ks).

(** def _extract_keywords(keywords_str) *)
Definition _extract_keywords (keywords_str : string) : list string :=
  if String.eqb keywords_str EmptyString then []
  else if Py.contains "," keywords_str then clean_keywords (Py.split_on "," keywords_str)
  else if Py.contains ";" keywords_str then clean_keywords (Py.split_on ";" keywords_str)
  else if Py.contains "|" keywords_str then clean_keywords (Py.split_on "|" keywords_str)
  else clean_keywords (Py.split keywords_str).

(** def extract_pdf_metadata(file_path): a failure gives the empty
    dictionary; keys of value None are removed. *)
Definition extract_pdf_metadata (env : Env) (file_path : string) : PdfMetadata :=
  match fitz_open env file_path with
  | None => no_metadata
  | Some doc =>
      match fitz_metadata doc with
      | None => no_metadata
      | Some m =>
          {| title := _clean_string (meta_title m);
             author := _clean_string (meta_author m);
             subject := _clean_string (meta_subject m);
             keywords := Some (_extract_keywords (match meta_keywords m with
                                                  | Some k => k
                                                  | None => EmptyString
                                                  end)) |}
      end
  end.

(** The standard page formats, in PostScript points, in the order of
    the [formats] dictionary. *)
Definition formats : list (string * (float * float)) :=
  [("Letter", (612%float, 792%float));
   ("Legal", (612%float, 1008%float));
   ("A4", (595%float, 842%float));
   ("A3", (842%float, 1191%float));
   ("A5", (420%float, 595%float))].

(** [abs(x - std) < 10] *)
Definition within_tolerance (x std : float) : bool :=
  PrimFloat.ltb (PrimFloat.abs (PrimFloat.sub x std)) 10%float.

(** The loop over the formats: the first one that the page matches in
    portrait or in landscape orientation. *)
Fixpoint find_format (width height : float) (fs : list (string * (float * float)))
  : option string :=
  match fs with
  | [] => None
  | (format_name, (std_width, std_height)) :: fs' =>
      if within_tolerance width std_width && within_tolerance height std_height
      then Some format_name
      else if within_tolerance width std_height && within_tolerance height std_width
      then Some format_name
      else find_format width height fs'
  end.

(** def _identify_page_format(width, height) *)
Definition _identify_page_format (width height : float) : string :=
  match find_format width height formats with
  | Some format_name => format_name
  | None => if Float.gt width height then "Custom (Landscape)" else "Custom (Portrait)"
  end.

End metadata_extractor.

(* ===================================================================== *)
(** * app/parsers/pdf/__init__.py *)
(* ===================================================================== *)

Module pdf.

(** A [pathlib.Path]: [str(p)], [p.name] and [p.stem]. *)
Record Path : Type := { path_str : string; path_name : string; path_stem : string }.

(** The readings of the clock during one parse_pdf call. *)
Record Clock : Type := {
  lookup_time : Z;        (* time.time() of the cache lookup *)
  store_time : Z;         (* time.time() of the cache write *)
  elapsed_ms : Z;         (* int((time.time() - start_time) * 1000) *)
  parsed_at : string;     (* time.strftime(...) *)
}.

Record DocumentMetadata : Type := {
  md_title : option string;
  md_author : option string;
  md_subject : value;
  md_keywords : list string;
  md_language : value;
  md_totalPages : Z;
  md_totalWordCount : Z;
  md_estimatedTotalReadingTime : Z;
  md_documentType : value;
  md_academicLevel : value;
}.

Record ProcessingInfo : Type := {
  parsedAt : string;
  parserVersion : string;
  pi_extractionMethod : string;
  processingTime : Z;
  warnings : list string;
  cached : bool;
}.

Definition of_option (o : option string) : value :=
  match o with Some s => VStr s | None => VNone end.

(** [a or b] *)
Definition py_or (a b : value) : value := if truthy a then a else b.

(** def _build_metadata_with_fallback(pdf_metadata, characteristics,
    extraction_result, options) *)
Definition _build_metadata_with_fallback (pdf_metadata : metadata_extractor.PdfMetadata)
    (characteristics : analyzer.PDFCharacteristics) (extraction_result : ExtractionResult)
    (opts : options) : DocumentMetadata :=
  let language := get opts "language" (VStr "en") in
  let subject := get opts "subject" (VStr "general") in
  let document_type := get opts "document_type" (VStr "mixed") in
  let academic_level := get opts "academic_level" VNone in
  {| md_title := metadata_extractor.title pdf_metadata;
     md_author := metadata_extractor.author pdf_metadata;
     md_subject := py_or subject (of_option (metadata_extractor.subject pdf_metadata));
     md_keywords := match metadata_extractor.keywords pdf_metadata with
                    | Some ks => ks
                    | None => []
                    end;
     md_language := language;
     md_totalPages := analyzer.total_pages characteristics;
     md_totalWordCount := totalWordCount extraction_result;
     md_estimatedTotalReadingTime := totalWordCount extraction_result / 200;
     md_documentType := document_type;
     md_academicLevel := academic_level |}.

Section WithEnv.
Variable env : Env.
(** The quiz content of [_generate_quiz_content] (content_analyzer.py) is
    not analysed here: it enters as a function of the extraction result
    and the language. *)
Variable QuizContent : Type.
Variable _generate_quiz_content : ExtractionResult -> value -> QuizContent.

Record ParsedDocument : Type := {
  documentId : string;
  fileName : string;
  mimeType : string;
  format : string;
  version : string;
  doc_pages : list PageData;
  doc_fullText : string;
  doc_metadata : DocumentMetadata;
  processingInfo : ProcessingInfo;
  quizContent : option QuizContent;
}.

(** def _build_document_structure(file_path, extraction_result,
    characteristics, options, processing_time) *)
Definition _build_document_structure (file_path : Path) (extraction_result : ExtractionResult)
    (characteristics : analyzer.PDFCharacteristics) (opts : options) (clock : Clock)
  : ParsedDocument :=
  let pdf_metadata := metadata_extractor.extract_pdf_metadata env (path_str file_path) in
  let metadata := _build_metadata_with_fallback pdf_metadata characteristics extraction_result opts in
  let warnings :=
    (if analyzer.is_scanned characteristics && negb (truthy (get opts "ocr_enabled" VNone))
     then ["Document appears to be scanned but OCR was not enabled"] else [])
    ++ (if totalWordCount extraction_result <? 100 then ["Very little text extracted"] else []) in
  {| documentId := path_stem file_path;
     fileName := path_name file_path;
     mimeType := "application/pdf";
     format := "pdf";
     version := "1.0";
     doc_pages := pages extraction_result;
     doc_fullText := fullText extraction_result;
     doc_metadata := metadata;
     processingInfo := {| parsedAt := parsed_at clock;
                          parserVersion := "1.0.0";
                          pi_extractionMethod := extractionMethod extraction_result;
                          processingTime := elapsed_ms clock;
                          warnings := warnings;
                          cached := false |};
     quizContent := if truthy (get opts "generate_quiz_content" VNone)
                    then Some (_generate_quiz_content extraction_result
                                 (get opts "language" (VStr "en")))
                    else None |}.

Definition mark_cached (d : ParsedDocument) : ParsedDocument :=
  {| documentId := documentId d; fileName := fileName d; mimeType := mimeType d;
     format := format d; version := version d; doc_pages := doc_pages d;
     doc_fullText := doc_fullText d; doc_metadata := doc_metadata d;
     processingInfo := {| parsedAt := parsedAt (processingInfo d);
                          parserVersion := parserVersion (processingInfo d);
                          pi_extractionMethod := pi_extractionMethod (processingInfo d);
                          processingTime := processingTime (processingInfo d);
                          warnings := warnings (processingInfo d);
                          cached := true |};
     quizContent := quizContent d |}.

(** The strategy that [strategies.get(strategy, extract_text_focused)]
    selects for an option value: a list is unhashable, any other value
    that is no string names no strategy. *)
Definition run_strategy (file_path : string) (strategy : value) (opts : options)
  : res ExtractionResult :=
  match strategy with
  | VStr name => extractor.extract_with_strategy env file_path name opts
  | VList _ => Raise TypeError
  | _ => extractor.extract_text_focused env file_path opts
  end.

(** The cache key parse_pdf derives. *)
Definition parse_pdf_cache_key (file_path : Path) (opts : options) : string :=
  cache.get_cache_key (path_str file_path) opts.

(** async def parse_pdf(file_path, options=None), on the module-level
    cache [st]: a hit marks the stored document as cached and returns
    it; a failure is raised as ValueError. *)
Definition parse_pdf (file_path : Path) (opts : options) (clock : Clock)
    (st : cache.store ParsedDocument) : res ParsedDocument * cache.store ParsedDocument :=
  let cache_key := parse_pdf_cache_key file_path opts in
  let '(cached_result, st) := cache.get_from_cache (lookup_time clock) cache_key st in
  match cached_result with
  | Some d =>
      let d := mark_cached d in
      let expiry := match cache.lookup cache_key (cache.entries st) with
                    | Some (_, x) => x
                    | None => 0
                    end in
      (Ok d, {| cache.entries := cache.assign cache_key (d, expiry) (cache.entries st);
                cache.cache_hits := cache.cache_hits st;
                cache.cache_misses := cache.cache_misses st |})
  | None =>
      let parsed :=
        characteristics ← analyzer.analyze_pdf env (path_str file_path);
        let strategy := get opts "force_strategy"
                            (VStr (analyzer.recommended_strategy characteristics)) in
        result ← run_strategy (path_str file_path) strategy opts;
        Ok (_build_document_structure file_path result characteristics opts clock) in
      match parsed with
      | Ok parsed_document =>
          (Ok parsed_document,
           cache.set_in_cache (store_time clock) cache_key parsed_document 1800 st)
      | Raise _ => (Raise ValueError, st)
      end
  end.

End WithEnv.

Arguments documentId {QuizContent} _.
Arguments fileName {QuizContent} _.
Arguments doc_pages {QuizContent} _.
Arguments doc_fullText {QuizContent} _.
Arguments doc_metadata {QuizContent} _.
Arguments processingInfo {QuizContent} _.
Arguments quizContent {QuizContent} _.

End pdf.

(* ===================================================================== *)
(** * app/parsers/registry.py *)
(* ===================================================================== *)

Module registry.

(** The parser functions a module can provide. *)
Inductive Parser : Type := parse_pdf | parse_word | parse_text | parse_csv | parse_html.

(** Which of the optional parser modules can be imported; the PDF
    parser module belongs to the service. *)
Record Modules : Type := {
  word_parser : bool;
  text_parser : bool;
  csv_parser : bool;
  html_parser : bool;
}.

Record Info : Type := { info_name : string; info_version : string; info_formats : list string }.

(** The module-level dictionaries [_parsers] and [_parser_info]. *)
Record Registry : Type := {
  _parsers : gmap string Parser;
  _parser_info : gmap string Info;
}.

Definition empty_registry : Registry := {| _parsers := ∅; _parser_info := ∅ |}.

(** The lazy loading of get_parser: the parser and its info, None when
    the MIME type is unknown or the import fails. *)
Definition load (mods : Modules) (mime_type : string) : option (Parser * Info) :=
  if String.eqb mime_type "application/pdf" then
    Some (parse_pdf, {| info_name := "PDF Parser"; info_version := "1.0";
                        info_formats := ["pdf"] |})
  else if existsb (String.eqb mime_type)
            ["application/vnd.openxmlformats-officedocument.wordprocessingml.document";
             "application/msword"] then
    if word_parser mods
    then Some (parse_word, {| info_name := "Word Parser"; info_version := "1.0";
                              info_formats := ["docx"; "doc"] |})
    else None
  else if String.eqb mime_type "text/plain" then
    if text_parser mods
    then Some (parse_text, {| info_name := "Text Parser"; info_version := "1.0";
                              info_formats := ["txt"] |})
    else None
  else if existsb (String.eqb mime_type) ["text/csv"; "application/csv"] then
    if csv_parser mods
    then Some (parse_csv, {| info_name := "CSV Parser"; info_version := "1.0";
                             info_formats := ["csv"] |})
    else None
  else if existsb (String.eqb mime_type) ["text/html"; "application/xhtml+xml"] then
    if html_parser mods
    then Some (parse_html, {| info_name := "HTML Parser"; info_version := "1.0";
                              info_formats := ["html"; "htm"] |})
    else None
  else None.

(** def get_parser(mime_type) *)
Definition get_parser (mods : Modules) (mime_type : string) (reg : Registry)
  : option Parser * Registry :=
  match _parsers reg !! mime_type with
  | Some parser => (Some parser, reg)
  | None =>
      match load mods mime_type with
      | Some (parser, info) =>
          (Some parser, {| _parsers := <[mime_type := parser]> (_parsers reg);
                           _parser_info := <[mime_type := info]> (_parser_info reg) |})
      | None => (None, reg)
      end
  end.

(** def clear_parser_cache() *)
Definition clear_parser_cache (reg : Registry) : Registry := empty_registry.

(** The service as it stands: no optional parser module. *)
Definition pdf_only : Modules :=
  {| word_parser := false; text_parser := false; csv_parser := false; html_parser := false |}.

End registry.

(* ===================================================================== *)
(** * app/utils/validation.py *)
(* ===================================================================== *)

Module validation.

Definition MAX_FILE_SIZE : Z := 10 * 1024 * 1024.

Definition ALLOWED_MIME_TYPES : list string :=
  ["application/pdf";
   "text/plain";
   "application/msword";
   "application/vnd.openxmlformats-officedocument.wordprocessingml.document";
   "text/csv";
   "application/csv";
   "text/html";
   "application/xhtml+xml"].

(** def validate_file_size(file_path, max_size=MAX_FILE_SIZE), on the
    size that file_path.stat() reports (None: the call raises). *)
Definition validate_file_size (st_size : option Z) (max_size : Z) : res bool :=
  match st_size with
  | None => Raise OSError
  | Some file_size => if max_size <? file_size then Raise ValueError else Ok true
  end.

(** def validate_mime_type(mime_type, allowed=ALLOWED_MIME_TYPES) *)
Definition validate_mime_type (mime_type : string) (allowed : list string) : res bool :=
  if existsb (String.eqb mime_type) allowed then Ok true else Raise ValueError.

End validation.

(* ===================================================================== *)
(** * A small concrete environment *)
(* ===================================================================== *)

Module demo.

Definition text_page (text font : string) : FitzPage :=
  {| get_text := text;
     get_fonts := [font];
     get_images := [];
     annots := false;
     rect_width := 612%float;
     rect_height := 792%float;
     get_text_dict := [{| block_type := 0;
                          block_lines := [[{| span_font := font; span_text := text |}]] |}];
     get_pixmap := Ok ("png of " +:+ text) |}.

(** A page set in a Computer Modern font whose only text is a word. *)
Definition cmr_page : FitzPage := text_page "Hello" "CMR10".

Definition three_pages : FitzDoc :=
  {| fitz_pages := [text_page "first page" "Helvetica";
                    text_page "second page" "Helvetica";
                    text_page "third page" "Helvetica"];
     fitz_metadata := Some {| meta_title := Some "Demo"; meta_author := None;
                              meta_subject := Some "Physics"; meta_keywords := None |} |}.

Definition no_pages : FitzDoc := {| fitz_pages := []; fitz_metadata := None |}.

Definition plumber_three : list PlumberPage :=
  [{| extract_text := Some "first page"; extract_tables := []; find_tables := false |};
   {| extract_text := Some "second page";
      extract_tables := [[[Some "Name"; Some "Age"]; [Some "Ann"; Some "30"]]];
      find_tables := true |};
   {| extract_text := Some "third page"; extract_tables := []; find_tables := false |}].

Definition is_copy (path : string) : bool :=
  String.eqb path "/tmp/a.pdf" || String.eqb path "/tmp/b.pdf".

(** [float(s)] on the cells of the demo tables: a run of digits. *)
Definition digits_only (s : string) : bool :=
  negb (String.eqb s EmptyString) && negb (Py.any_char (fun c => negb (Py.isdigit c)) s).

(** Two files of the same bytes at two paths, an empty document, and no
    other file; no pattern of the source matches the demo texts. *)
Definition env : Env :=
  {| open_rb := fun path =>
       if is_copy path then Some "%PDF-1.4 demo"
       else if String.eqb path "/tmp/empty.pdf" then Some "%PDF-1.4 empty"
       else None;
     fitz_open := fun path =>
       if is_copy path then Some three_pages
       else if String.eqb path "/tmp/empty.pdf" then Some no_pages
       else None;
     pdfplumber_open := fun path =>
       if is_copy path then Some plumber_three
       else if String.eqb path "/tmp/empty.pdf" then Some []
       else None;
     re := {| finditer := fun _ _ => []; search := fun _ _ => false; sub := fun _ _ t => t |};
     float_ok := digits_only;
     ensure_tmp_space := fun _ => true;
     convert_from_path := None;
     save_png := fun img => Ok img;
     fitz_installed := true;
     vision_ocr := None;
     tesseract := Some (fun img _ => Ok ("ocr of " +:+ img));
     preprocess := fun img => img |}.

Definition max_pages_1 : options := {[ "max_pages" := VInt 1 ]}.

Definition path_a : pdf.Path :=
  {| pdf.path_str := "/tmp/a.pdf"; pdf.path_name := "a.pdf"; pdf.path_stem := "a" |}.
Definition path_b : pdf.Path :=
  {| pdf.path_str := "/tmp/b.pdf"; pdf.path_name := "b.pdf"; pdf.path_stem := "b" |}.

(** A path at which there is no file. *)
Definition path_missing : pdf.Path :=
  {| pdf.path_str := "/tmp/missing.pdf"; pdf.path_name := "missing.pdf";
     pdf.path_stem := "missing" |}.

Definition clock (t : Z) : pdf.Clock :=
  {| pdf.lookup_time := t; pdf.store_time := t + 1; pdf.elapsed_ms := 1000;
     pdf.parsed_at := "2024-01-01T00:00:00Z" |}.

(** The number of pages of a returned result. *)
Definition page_count (r : res ExtractionResult) : option nat :=
  match r with Ok x => Some (length (pages x)) | Raise _ => None end.

End demo.

(* ===================================================================== *)
(** * Predicates of the statements *)
(* ===================================================================== *)

(** [sub] occurs in [s]. *)
Definition infix_of (sub s : string) : Prop := exists pre post, s = pre +:+ sub +:+ post.

(** An equation whose raw text passes the validity predicate. *)
Definition valid (e : math_extractor.Equation) : Prop :=
  Is_true (math_extractor._is_valid_equation (math_extractor.raw_text e)).

(** The page numbers 1, 2, ..., n. *)
Definition page_numbers (n : nat) : list Z := map (fun i => Z.of_nat i + 1) (seq 0 n).

(** The loop invariant: the texts collected are the contents of the pages
    collected, and these are numbered from 1 without a gap. *)
Definition consistent (a : Acc) : Prop :=
  acc_full_text a = map content (acc_pages a)
  /\ map pageNumber (acc_pages a) = page_numbers (length (acc_pages a)).

(** What the invariant says of a result. *)
Definition ordered (r : ExtractionResult) : Prop :=
  fullText r = Py.join NLNL (map content (pages r))
  /\ map pageNumber (pages r) = page_numbers (length (pages r)).

(** The cache of parsed documents after a first parse of [path_a] at time
    0 on an empty cache, without quiz content. *)
Definition after_first_parse : cache.store (pdf.ParsedDocument unit) :=
  (pdf.parse_pdf demo.env unit (fun _ _ => tt) demo.path_a ∅ (demo.clock 0) cache.empty_store).2.

(** Whether a parse returned a document served from the cache. *)
Definition served_from_cache (r : res (pdf.ParsedDocument unit)) : option bool :=
  match r with
  | Ok d => Some (pdf.cached (pdf.processingInfo d))
  | Raise _ => None
  end.

(** The sum of the word counts that the pages record. *)
Definition sum_word_counts (ps : list PageData) : Z :=
  foldr Z.add 0 (map (fun p => wordCount (metadata p)) ps).

(** A page records the number of words of its content. *)
Definition counts_its_words (p : PageData) : Prop :=
  wordCount (metadata p) = word_count (content p).

(** The loop invariant of the word counts: the running total is the sum
    over the pages collected, each of which counts its own words. *)
Definition tallied (a : Acc) : Prop :=
  acc_total_word_count a = sum_word_counts (acc_pages a)
  /\ Forall counts_its_words (acc_pages a).

(** A page without math content and without an equations entry. *)
Definition math_free (p : PageData) : Prop :=
  extractor._has_math_content (content p) = false /\ equations (elements p) = None.

(** The extraction method a strategy name leads to. *)
Definition method_of_strategy (strategy : string) : string :=
  if String.eqb strategy "ocr_heavy" then "ocr"
  else if String.eqb strategy "hybrid" then "hybrid"
  else if String.eqb strategy "table_focus" then "table_focused"
  else if String.eqb strategy "math_focus" then "math_focused"
  else "text_focused".

(** The demo environment with a Cloud Vision client whose calls fail. *)
Definition vision_down : Env :=
  {| open_rb := open_rb demo.env;
     fitz_open := fitz_open demo.env;
     pdfplumber_open := pdfplumber_open demo.env;
     re := re demo.env;
     float_ok := float_ok demo.env;
     ensure_tmp_space := ensure_tmp_space demo.env;
     convert_from_path := convert_from_path demo.env;
     save_png := save_png demo.env;
     fitz_installed := fitz_installed demo.env;
     vision_ocr := Some (fun _ => Raise LibraryError);
     tesseract := tesseract demo.env;
     preprocess := preprocess demo.env |}.

(** The rows of a raw table that have a non-blank cell, every cell
    cleaned. *)
Definition kept_rows (raw_table : RawTable) : list (list string) :=
  List.filter (existsb table_extractor.nonempty)
              (map (map table_extractor.clean_cell) raw_table).

(** A cell that cleaning leaves empty: None, the empty string or
    whitespace only. *)
Definition blank_cell (cell : option string) : Prop :=
  table_extractor.clean_cell cell = EmptyString.

(** Whether more than half of the values of a column are numeric. *)
Definition numeric_column (env : Env) (rows : list (list string)) (col_idx : Z) : bool :=
  let col_values := map (fun row => nth (Z.to_nat col_idx) row EmptyString) rows in
  table_extractor.len col_values
  <? 2 * table_extractor.count_if (table_extractor._is_numeric env) col_values.

(** The number of columns of a table. *)
Definition column_count (headers : list string) (rows : list (list string)) : Z :=
  match headers with
  | [] => match rows with [] => 0 | r :: _ => table_extractor.len r end
  | _ => table_extractor.len headers
  end.

(** The rows of a table, the header row first when there is one. *)
Definition table_lines (t : table_extractor.Table) : list (list string) :=
  match table_extractor.headers t with
  | [] => table_extractor.rows t
  | h => h :: table_extractor.rows t
  end.

(** The identifier of the equation of position [k] on a page. *)
Definition equation_id (page_num : Z) (k : nat) : string :=
  "page" +:+ Py.str_int page_num +:+ "_eq" +:+ Py.str_int (Z.of_nat k).

(** What every equation of a page satisfies: it carries the page number,
    one of the four types, and LaTeX that is the raw text for the display
    and inline types and begins with a dollar sign for the others. *)
Definition well_formed (page_num : Z) (e : math_extractor.Equation) : Prop :=
  math_extractor.page_number e = page_num
  /\ math_extractor.eq_type e ∈ ["display"; "inline"; "simple"; "structural"]
  /\ (math_extractor.eq_type e = "display" \/ math_extractor.eq_type e = "inline" ->
      math_extractor.latex e = math_extractor.raw_text e)
  /\ (math_extractor.eq_type e = "simple" \/ math_extractor.eq_type e = "structural" ->
      Py.startswith "$" (math_extractor.latex e) = true).

(** The demo environment with PyMuPDF opening [doc] at every path. *)
Definition with_fitz (doc : FitzDoc) : Env :=
  {| open_rb := open_rb demo.env;
     fitz_open := fun _ => Some doc;
     pdfplumber_open := pdfplumber_open demo.env;
     re := re demo.env;
     float_ok := float_ok demo.env;
     ensure_tmp_space := ensure_tmp_space demo.env;
     convert_from_path := convert_from_path demo.env;
     save_png := save_png demo.env;
     fitz_installed := fitz_installed demo.env;
     vision_ocr := vision_ocr demo.env;
     tesseract := tesseract demo.env;
     preprocess := preprocess demo.env |}.

(** A document that opens but whose only page does not render. *)
Definition unrenderable : FitzDoc :=
  {| fitz_pages := [{| get_text := EmptyString; get_fonts := []; get_images := [];
                       annots := false; rect_width := 612%float; rect_height := 792%float;
                       get_text_dict := []; get_pixmap := Raise LibraryError |}];
     fitz_metadata := None |}.

(** Two pages set in a Computer Modern font. *)
Definition two_math_pages : FitzDoc :=
  {| fitz_pages := [demo.cmr_page; demo.text_page "x = 1" "CMMI10"]; fitz_metadata := None |}.

(** The registries that calls of get_parser and clear_parser_cache
    produce from the empty one. *)
Inductive reachable (mods : registry.Modules) : registry.Registry -> Prop :=
| reachable_empty : reachable mods registry.empty_registry
| reachable_get (mime_type : string) (reg : registry.Registry) :
    reachable mods reg -> reachable mods (registry.get_parser mods mime_type reg).2
| reachable_clear (reg : registry.Registry) :
    reachable mods reg -> reachable mods (registry.clear_parser_cache reg).

(* ===================================================================== *)
(** * Properties: the library models on reference values *)
(* ===================================================================== *)

Section ReferenceValues.

(** The MD5 test suite of RFC 1321 (one-block and two-block messages). *)
Example md5_empty : hashlib.md5 EmptyString = "d41d8cd98f00b204e9800998ecf8427e".
Proof. vm_compute. reflexivity. Qed.

Example md5_abc : hashlib.md5 "abc" = "900150983cd24fb0d6963f7d28e17f72".
Proof. vm_compute. reflexivity. Qed.

Example md5_message_digest :
  hashlib.md5 "message digest" = "f96b697d7cb7938d525a2f31aaf161d0".
Proof. vm_compute. reflexivity. Qed.

Example md5_eighty_digits :
  hashlib.md5 "12345678901234567890123456789012345678901234567890123456789012345678901234567890"
  = "57edf4a22be3c955ac49da2e2107b67a".
Proof. vm_compute. reflexivity. Qed.

(** The digest of json.dumps of max_pages 3, ocr_enabled True, pages
    [1, 2], subject None, keys sorted. *)
Example json_dumps_digest :
  hashlib.md5 (json.dumps (<["max_pages" := VInt 3]>
                            (<["ocr_enabled" := VBool true]>
                               (<["subject" := VNone]>
                                  (<["pages" := VList [VInt 1; VInt 2]]> ∅)))))
  = "3b57ac0f85f3b60c203feb759c2c2a8a".
Proof. vm_compute. reflexivity. Qed.

(** The digest of four rows written by csv.writer: fields with a comma
    and with a quote, a lone empty field, an empty row, fields with
    spaces. *)
Example csv_writer_digest :
  hashlib.md5 (csv.writerows [["a,b"; "c" +:+ Py.QUOTE +:+ "d"; EmptyString];
                              [EmptyString]; []; ["x y"; " z"]])
  = "7d57c180b56d5b0601fec9a1b6624f88".
Proof. vm_compute. reflexivity. Qed.

End ReferenceValues.

(* ===================================================================== *)
(** * Properties: page sampling *)
(* ===================================================================== *)

Section Sampling.

Lemma elem_of_range (a b i : Z) : i ∈ Py.range a b ↔ a <= i < b.
Proof.
  unfold Py.range. rewrite list_elem_of_fmap. split.
  - intros (k & -> & Hk). apply elem_of_seq in Hk. lia.
  - intros H. exists (Z.to_nat (i - a)). split; [lia|]. apply elem_of_seq. lia.
Qed.

Lemma sample_small (total_pages : Z) :
  total_pages <= 20 -> analyzer._get_sample_pages total_pages = Py.range 0 total_pages.
Proof.
  intros H. unfold analyzer._get_sample_pages.
  destruct (Z.leb_spec total_pages 20); [reflexivity | lia].
Qed.

Lemma sample_large_elem (total_pages i : Z) :
  20 < total_pages ->
  i ∈ analyzer._get_sample_pages total_pages ↔
    (0 <= i < 10 \/ total_pages / 2 - 2 <= i < total_pages / 2 + 3
     \/ total_pages - 5 <= i < total_pages).
Proof.
  intros H. unfold analyzer._get_sample_pages.
  destruct (Z.leb_spec total_pages 20); [lia|].
  rewrite elem_of_elements, elem_of_list_to_set, !elem_of_app, !elem_of_range.
  pose proof (Z.div_mod total_pages 2) as Hdiv.
  pose proof (Z.mod_pos_bound total_pages 2) as Hmod.
  generalize dependent (total_pages mod 2). generalize dependent (total_pages / 2).
  intros middle r Hdiv Hmod. lia.
Qed.

Lemma sample_large_NoDup (total_pages : Z) :
  20 < total_pages -> NoDup (analyzer._get_sample_pages total_pages).
Proof.
  intros H. unfold analyzer._get_sample_pages.
  destruct (Z.leb_spec total_pages 20); [lia|]. apply NoDup_elements.
Qed.

(** C8: a document of at most 20 pages is sampled on every page, in order;
    a larger one on the first 10 pages, the 5 pages around the middle and
    the last 5 pages, each index once; so 15 pages give all 15 indices and
    100 pages give exactly the 20 indices 0..9, 48..52, 95..99. *)
Theorem get_sample_pages_spec (total_pages : Z) :
  (total_pages <= 20 -> analyzer._get_sample_pages total_pages = Py.range 0 total_pages)
  /\ (20 < total_pages ->
      NoDup (analyzer._get_sample_pages total_pages)
      /\ forall i, i ∈ analyzer._get_sample_pages total_pages ↔
           (0 <= i < 10 \/ total_pages / 2 - 2 <= i < total_pages / 2 + 3
            \/ total_pages - 5 <= i < total_pages))
  /\ analyzer._get_sample_pages 15 = [0; 1; 2; 3; 4; 5; 6; 7; 8; 9; 10; 11; 12; 13; 14]
  /\ analyzer._get_sample_pages 100
       ≡ₚ [0; 1; 2; 3; 4; 5; 6; 7; 8; 9; 48; 49; 50; 51; 52; 95; 96; 97; 98; 99].
Proof.
  split; [apply sample_small|]. split.
  { intros H. split; [by apply sample_large_NoDup|]. intros i. by apply sample_large_elem. }
  split; [reflexivity|].
  apply NoDup_Permutation.
  - apply sample_large_NoDup. lia.
  - apply (bool_decide_unpack _). vm_compute. exact I.
  - intros i. rewrite sample_large_elem by lia.
    change (100 / 2) with 50.
    rewrite !elem_of_cons, elem_of_nil. lia.
Qed.

End Sampling.

(* ===================================================================== *)
(** * Properties: substrings *)
(* ===================================================================== *)

Section Substrings.


Lemma append_cons (c : ascii) (a b : string) : String c a +:+ b = String c (a +:+ b).
Proof. reflexivity. Qed.

Lemma append_nil_l (a : string) : EmptyString +:+ a = a.
Proof. reflexivity. Qed.

Lemma append_assoc (a b c : string) : (a +:+ b) +:+ c = a +:+ b +:+ c.
Proof.
  induction a as [|x a IH]; [reflexivity|].
  by rewrite !append_cons, IH.
Qed.

Lemma append_nil_r (a : string) : a +:+ EmptyString = a.
Proof. induction a as [|x a IH]; [reflexivity | by rewrite append_cons, IH]. Qed.

Lemma startswith_append (p s : string) : Py.startswith p (p +:+ s) = true.
Proof.
  induction p as [|x p IH]; [reflexivity|].
  rewrite append_cons. simpl. by rewrite Ascii.eqb_refl, IH.
Qed.

Lemma startswith_inv (p s : string) :
  Py.startswith p s = true -> exists post, s = p +:+ post.
Proof.
  revert s. induction p as [|x p IH]; intros s H; simpl in *.
  - by exists s.
  - destruct s as [|y s]; [discriminate|].
    apply andb_true_iff in H as [Hxy Hp]. apply Ascii.eqb_eq in Hxy as ->.
    destruct (IH _ Hp) as [post ->]. by exists post.
Qed.

Lemma contains_cons (sub : string) (c : ascii) (s : string) :
  Py.contains sub s = true -> Py.contains sub (String c s) = true.
Proof. intros H. simpl. rewrite H. apply orb_true_r. Qed.

Lemma contains_startswith (sub s : string) :
  Py.startswith sub s = true -> Py.contains sub s = true.
Proof. intros H. destruct s; simpl in *; rewrite H; reflexivity. Qed.

(** The boolean test [sub in s] decides occurrence. *)
Lemma contains_spec (sub s : string) : Py.contains sub s = true <-> infix_of sub s.
Proof.
  split.
  - induction s as [|c s IH]; simpl; intros H.
    + rewrite orb_false_r in H. destruct (startswith_inv _ _ H) as [post Hp].
      exists EmptyString, post. exact Hp.
    + apply orb_true_iff in H as [H|H].
      * destruct (startswith_inv _ _ H) as [post Hp]. exists EmptyString, post. exact Hp.
      * destruct (IH H) as (pre & post & ->). by exists (String c pre), post.
  - intros (pre & post & ->). induction pre as [|c pre IH].
    + rewrite append_nil_l. apply contains_startswith, startswith_append.
    + rewrite append_cons. by apply contains_cons.
Qed.

Lemma infix_of_refl (s : string) : infix_of s s.
Proof. exists EmptyString, EmptyString. by rewrite append_nil_l, append_nil_r. Qed.

Lemma infix_of_trans (a b c : string) : infix_of a b -> infix_of b c -> infix_of a c.
Proof.
  intros (p1 & q1 & ->) (p2 & q2 & ->).
  exists (p2 +:+ p1), (q1 +:+ q2). by rewrite !append_assoc.
Qed.

Lemma infix_of_append_l (a s t : string) : infix_of a s -> infix_of a (s +:+ t).
Proof. intros (p & q & ->). exists p, (q +:+ t). by rewrite !append_assoc. Qed.

Lemma infix_of_append_r (a s t : string) : infix_of a t -> infix_of a (s +:+ t).
Proof. intros (p & q & ->). exists (s +:+ p), q. by rewrite !append_assoc. Qed.

(** An element of a joined list occurs in the join. *)
Lemma infix_of_join (sep x : string) (xs : list string) :
  x ∈ xs -> infix_of x (Py.join sep xs).
Proof.
  unfold Py.join. induction xs as [|y ys IH]; intros H.
  - by apply elem_of_nil in H.
  - apply elem_of_cons in H as [->|H].
    + destruct ys; simpl; [apply infix_of_refl | apply infix_of_append_l, infix_of_refl].
    + destruct ys as [|z zs]; [by apply elem_of_nil in H|].
      change (infix_of x (y +:+ sep +:+ String.concat sep (z :: zs))).
      by apply infix_of_append_r, infix_of_append_r, IH.
Qed.

End Substrings.

(* ===================================================================== *)
(** * Properties: table representations *)
(* ===================================================================== *)

Section Tables.

Import table_extractor.

Lemma html_rows_fold (f : list string -> list string) (rows : list (list string))
    (init : list string) :
  fold_left (fun html row => html ++ f row) rows init = init ++ List.concat (map f rows).
Proof.
  revert init. induction rows as [|r rows IH]; intros init; simpl.
  - by rewrite app_nil_r.
  - by rewrite IH, app_assoc.
Qed.

Lemma markdown_cell (headers : list string) (rows : list (list string))
    (row : list string) (cell : string) :
  row ∈ rows -> cell ∈ row -> infix_of cell (_to_markdown headers rows).
Proof.
  intros Hrow Hcell.
  assert (Hline : infix_of cell ("| " +:+ Py.join " | " row +:+ " |")).
  { apply infix_of_append_r, infix_of_append_l. by apply infix_of_join. }
  apply (infix_of_trans _ _ _ Hline).
  unfold _to_markdown.
  destruct headers as [|h hs]; (destruct rows as [|r rs]; [by apply elem_of_nil in Hrow|]).
  all: apply infix_of_join, elem_of_app; right.
  all: apply (list_elem_of_fmap_2 (fun row => "| " +:+ Py.join " | " row +:+ " |")), Hrow.
Qed.

Lemma html_cell (headers : list string) (rows : list (list string))
    (row : list string) (cell : string) :
  row ∈ rows -> cell ∈ row ->
  infix_of ("<td>" +:+ cell +:+ "</td>") (_to_html headers rows).
Proof.
  intros Hrow Hcell.
  assert (Hline : infix_of ("<td>" +:+ cell +:+ "</td>") ("    <td>" +:+ cell +:+ "</td>")).
  { exists "    ", EmptyString. by rewrite append_nil_r. }
  apply (infix_of_trans _ _ _ Hline).
  unfold _to_html. apply infix_of_join.
  rewrite (html_rows_fold (fun row => ["  <tr>"]
             ++ map (fun cell => "    <td>" +:+ cell +:+ "</td>") row ++ ["  </tr>"])).
  rewrite !elem_of_app. left. left. right.
  apply list_elem_of_In, in_concat.
  exists (["  <tr>"] ++ map (fun cell => "    <td>" +:+ cell +:+ "</td>") row ++ ["  </tr>"]).
  split.
  - apply in_map_iff. exists row. split; [reflexivity | by apply list_elem_of_In].
  - apply list_elem_of_In. rewrite !elem_of_app. right. left.
    by apply (list_elem_of_fmap_2 (fun cell => "    <td>" +:+ cell +:+ "</td>")).
Qed.

Lemma writerow_field (row : list string) (cell : string) :
  cell ∈ row -> infix_of (csv.field cell) (csv.writerow row).
Proof.
  intros Hcell.
  assert (Hgen : infix_of (csv.field cell) (Py.join "," (map csv.field row) +:+ Py.CR +:+ Py.NL)).
  { apply infix_of_append_l, infix_of_join. by apply list_elem_of_fmap_2. }
  unfold csv.writerow. destruct row as [|[|c s] [|y ys]]; try exact Hgen.
  apply list_elem_of_singleton in Hcell as ->.
  exists EmptyString, (Py.QUOTE +:+ Py.QUOTE +:+ Py.CR +:+ Py.NL). reflexivity.
Qed.

Lemma csv_cell (headers : list string) (rows : list (list string))
    (row : list string) (cell : string) :
  row ∈ rows -> cell ∈ row -> infix_of (csv.field cell) (_to_csv headers rows).
Proof.
  intros Hrow Hcell. unfold _to_csv. apply infix_of_append_r.
  apply (infix_of_trans _ _ _ (writerow_field _ _ Hcell)).
  unfold csv.writerows. induction rows as [|r rs IH]; [by apply elem_of_nil in Hrow|].
  apply elem_of_cons in Hrow as [->|Hrow].
  - destruct rs; simpl; [apply infix_of_refl | apply infix_of_append_l, infix_of_refl].
  - destruct rs as [|r' rs']; [by apply elem_of_nil in Hrow|].
    change (infix_of (csv.writerow row)
              (csv.writerow r +:+ EmptyString +:+ String.concat EmptyString (map csv.writerow (r' :: rs')))).
    by apply infix_of_append_r, infix_of_append_r, IH.
Qed.

Lemma markdown_header (headers : list string) (rows : list (list string)) (cell : string) :
  cell ∈ headers -> infix_of cell (_to_markdown headers rows).
Proof.
  intros Hcell.
  assert (Hline : infix_of cell ("| " +:+ Py.join " | " headers +:+ " |")).
  { apply infix_of_append_r, infix_of_append_l. by apply infix_of_join. }
  apply (infix_of_trans _ _ _ Hline). unfold _to_markdown.
  destruct headers as [|h hs]; [by apply elem_of_nil in Hcell|].
  apply infix_of_join, elem_of_app. left. apply list_elem_of_here.
Qed.

Lemma html_header (headers : list string) (rows : list (list string)) (cell : string) :
  cell ∈ headers -> infix_of ("<th>" +:+ cell +:+ "</th>") (_to_html headers rows).
Proof.
  intros Hcell.
  assert (Hline : infix_of ("<th>" +:+ cell +:+ "</th>") ("    <th>" +:+ cell +:+ "</th>")).
  { exists "    ", EmptyString. by rewrite append_nil_r. }
  apply (infix_of_trans _ _ _ Hline).
  unfold _to_html. apply infix_of_join.
  rewrite (html_rows_fold (fun row => ["  <tr>"]
             ++ map (fun cell => "    <td>" +:+ cell +:+ "</td>") row ++ ["  </tr>"])).
  destruct headers as [|h hs]; [by apply elem_of_nil in Hcell|].
  rewrite !elem_of_app. do 4 left. right. right. left.
  by apply (list_elem_of_fmap_2 (fun h => "    <th>" +:+ h +:+ "</th>")).
Qed.

Lemma csv_header (headers : list string) (rows : list (list string)) (cell : string) :
  cell ∈ headers -> infix_of (csv.field cell) (_to_csv headers rows).
Proof.
  intros Hcell. unfold _to_csv.
  destruct headers as [|h hs]; [by apply elem_of_nil in Hcell|].
  by apply infix_of_append_l, writerow_field.
Qed.

Lemma quote_char (c : ascii) : (Py.code c =? 34) = Ascii.eqb (ascii_of_nat 34) c.
Proof.
  destruct (Ascii.eqb_spec (ascii_of_nat 34) c) as [<-|Hne]; [reflexivity|].
  apply Z.eqb_neq. intros Hc. apply Hne. unfold Py.code in Hc.
  rewrite <- (ascii_nat_embedding c). f_equal. lia.
Qed.

Lemma double_quotes_plain (cell : string) :
  Py.contains Py.QUOTE cell = false -> csv.double_quotes cell = cell.
Proof.
  induction cell as [|c s IH]; [reflexivity|].
  unfold Py.QUOTE. cbn [Py.contains Py.startswith csv.double_quotes].
  rewrite quote_char. intros H. apply orb_false_iff in H as [Hc Hs].
  destruct (Ascii.eqb (ascii_of_nat 34) c); [by destruct s|].
  by rewrite (IH Hs).
Qed.

Lemma special_quote (cell : string) :
  Py.any_char csv.special cell = false -> Py.contains Py.QUOTE cell = false.
Proof.
  induction cell as [|c s IH]; [reflexivity|].
  unfold Py.QUOTE. cbn [Py.any_char Py.contains Py.startswith]. unfold csv.special at 1.
  cbv zeta. rewrite quote_char. intros H. apply orb_false_iff in H as [Hc Hs].
  specialize (IH Hs). unfold Py.QUOTE in IH. rewrite IH.
  destruct (Ascii.eqb (ascii_of_nat 34) c); [|reflexivity].
  by destruct (Py.code c =? 44).
Qed.

(** A CSV field holds the cell with its double quotes doubled. *)
Lemma field_double_quotes (cell : string) : infix_of (csv.double_quotes cell) (csv.field cell).
Proof.
  unfold csv.field. destruct (Py.any_char csv.special cell) eqn:Hs.
  - by exists Py.QUOTE, Py.QUOTE.
  - rewrite (double_quotes_plain _ (special_quote _ Hs)). apply infix_of_refl.
Qed.

(** What the three representations hold of a cell whose row, or header
    row, they render; [tag] is th for a header cell and td for a data
    cell. *)
Lemma cell_rendered (headers : list string) (rows : list (list string)) (tag cell : string) :
  infix_of cell (_to_markdown headers rows) ->
  infix_of ("<" +:+ tag +:+ ">" +:+ cell +:+ "</" +:+ tag +:+ ">") (_to_html headers rows) ->
  infix_of (csv.field cell) (_to_csv headers rows) ->
  Py.contains cell (_to_markdown headers rows) = true
  /\ Py.contains ("<" +:+ tag +:+ ">" +:+ cell +:+ "</" +:+ tag +:+ ">")
       (_to_html headers rows) = true
  /\ Py.contains cell (_to_html headers rows) = true
  /\ Py.contains (csv.field cell) (_to_csv headers rows) = true
  /\ Py.contains (csv.double_quotes cell) (_to_csv headers rows) = true
  /\ (Py.contains Py.QUOTE cell = false -> Py.contains cell (_to_csv headers rows) = true).
Proof.
  intros Hmd Hhtml Hcsv.
  assert (Hdq : infix_of (csv.double_quotes cell) (_to_csv headers rows))
    by exact (infix_of_trans _ _ _ (field_double_quotes cell) Hcsv).
  repeat split; try by apply contains_spec.
  - apply contains_spec. refine (infix_of_trans _ _ _ _ Hhtml).
    apply infix_of_append_r, infix_of_append_r, infix_of_append_r, infix_of_append_l,
      infix_of_refl.
  - intros Hq. rewrite <- (double_quotes_plain _ Hq). by apply contains_spec.
Qed.

(** The claim fails as worded on two counts: the HTML of the example
    table holds each cell on a line of its own, so that the two cells
    are not adjacent; and a cell with a double quote occurs in the
    markdown and in the HTML text but not in the CSV text, where the
    quote is doubled. *)
Lemma representations_differ_literally :
  Py.contains "<td>Ann</td><td>30</td>" (_to_html ["Name"; "Age"] [["Ann"; "30"]]) = false
  /\ Py.contains ("a" +:+ Py.QUOTE +:+ "b") (_to_markdown [] [["a" +:+ Py.QUOTE +:+ "b"]]) = true
  /\ Py.contains ("a" +:+ Py.QUOTE +:+ "b") (_to_html [] [["a" +:+ Py.QUOTE +:+ "b"]]) = true
  /\ Py.contains ("a" +:+ Py.QUOTE +:+ "b") (_to_csv [] [["a" +:+ Py.QUOTE +:+ "b"]]) = false.
Proof. by vm_compute. Qed.

(** C7, amended: every header cell and every cell of every data row
    occurs in the markdown text, in the HTML text (a header cell as
    [<th>cell</th>], a data cell as [<td>cell</td>]) and, with its double
    quotes doubled, in the CSV text, hence as it is when it has no double
    quote; so the three representations hold the same cell values
    whenever no cell has a double quote.  For headers Name, Age and the
    row Ann, 30 the markdown has [| Name | Age |] and [| Ann | 30 |], the
    CSV has [Name,Age] and [Ann,30], and the HTML has [<th>Name</th>],
    [<th>Age</th>], and [<td>Ann</td>] and [<td>30</td>] on two consecutive
    lines. *)
Theorem table_representations_agree (headers : list string) (rows : list (list string)) :
  (forall cell, cell ∈ headers ->
     Py.contains cell (_to_markdown headers rows) = true
     /\ Py.contains ("<th>" +:+ cell +:+ "</th>") (_to_html headers rows) = true
     /\ Py.contains cell (_to_html headers rows) = true
     /\ Py.contains (csv.field cell) (_to_csv headers rows) = true
     /\ Py.contains (csv.double_quotes cell) (_to_csv headers rows) = true
     /\ (Py.contains Py.QUOTE cell = false ->
         Py.contains cell (_to_csv headers rows) = true))
  /\ (forall row cell, row ∈ rows -> cell ∈ row ->
     Py.contains cell (_to_markdown headers rows) = true
     /\ Py.contains ("<td>" +:+ cell +:+ "</td>") (_to_html headers rows) = true
     /\ Py.contains cell (_to_html headers rows) = true
     /\ Py.contains (csv.field cell) (_to_csv headers rows) = true
     /\ Py.contains (csv.double_quotes cell) (_to_csv headers rows) = true
     /\ (Py.contains Py.QUOTE cell = false ->
         Py.contains cell (_to_csv headers rows) = true))
  /\ Py.contains "| Name | Age |" (_to_markdown ["Name"; "Age"] [["Ann"; "30"]]) = true
  /\ Py.contains "| Ann | 30 |" (_to_markdown ["Name"; "Age"] [["Ann"; "30"]]) = true
  /\ Py.contains "Name,Age" (_to_csv ["Name"; "Age"] [["Ann"; "30"]]) = true
  /\ Py.contains "Ann,30" (_to_csv ["Name"; "Age"] [["Ann"; "30"]]) = true
  /\ Py.contains ("    <th>Name</th>" +:+ Py.NL +:+ "    <th>Age</th>")
       (_to_html ["Name"; "Age"] [["Ann"; "30"]]) = true
  /\ Py.contains ("    <td>Ann</td>" +:+ Py.NL +:+ "    <td>30</td>")
       (_to_html ["Name"; "Age"] [["Ann"; "30"]]) = true.
Proof.
  split; [|split; [|by vm_compute]].
  - intros cell Hcell.
    apply (cell_rendered headers rows "th" cell);
      [by apply markdown_header | by apply html_header | by apply csv_header].
  - intros row cell Hrow Hcell.
    apply (cell_rendered headers rows "td" cell);
      [by apply (markdown_cell _ _ row) | by apply (html_cell _ _ row)
      | by apply (csv_cell _ _ row)].
Qed.

Lemma table_representations_agree_witness :
  "Name" ∈ ["Name"; "Age"] /\ ["Ann"; "30"] ∈ [["Ann"; "30"]] /\ "30" ∈ ["Ann"; "30"]
  /\ Py.contains "<th>Name</th>" (_to_html ["Name"; "Age"] [["Ann"; "30"]]) = true
  /\ Py.contains "30" (_to_csv ["Name"; "Age"] [["Ann"; "30"]]) = true.
Proof.
  assert (H0 : "Name" ∈ ["Name"; "Age"]) by apply list_elem_of_here.
  assert (H1 : ["Ann"; "30"] ∈ [["Ann"; "30"]]) by apply list_elem_of_here.
  assert (H2 : "30" ∈ ["Ann"; "30"]) by apply list_elem_of_further, list_elem_of_here.
  split; [exact H0|]. split; [exact H1|]. split; [exact H2|].
  destruct (table_representations_agree ["Name"; "Age"] [["Ann"; "30"]]) as (Hh & Hr & _).
  split.
  - exact (proj1 (proj2 (Hh "Name" H0))).
  - apply (proj2 (proj2 (proj2 (proj2 (proj2 (Hr ["Ann"; "30"] "30" H1 H2)))))).
    vm_compute. reflexivity.
Defined.

End Tables.


(* ===================================================================== *)
(** * Properties: equations *)
(* ===================================================================== *)

Section Equations.

Import math_extractor.
Variable env : Env.

Lemma append_equation_fst (st : list Equation * Z) (page_num : Z) (ty text : string) :
  exists e, (append_equation env st page_num ty text).1 = st.1 ++ [e]
            /\ eq_type e = ty /\ raw_text e = text /\ page_number e = page_num.
Proof. destruct st as [eqs n]. simpl. eexists. split; [reflexivity|]. by simpl. Qed.

(** The pattern-based pass only adds valid equations. *)
Lemma pattern_pass_valid (text : string) (page_num : Z) (st : list Equation * Z) :
  Forall valid st.1 -> Forall valid (pattern_pass env text page_num st).1.
Proof.
  unfold pattern_pass. generalize patterns. intros ps. revert st.
  induction ps as [|[pattern ty] ps IH]; intros st Hst; simpl; [exact Hst|].
  apply IH. generalize (finditer (re env) pattern text). intros ms. revert st Hst.
  induction ms as [|m ms IHm]; intros st Hst; simpl; [exact Hst|].
  apply IHm.
  destruct (2 <? Py.len (Py.strip m)); simpl; [|exact Hst].
  destruct (_is_valid_equation (Py.strip m)) eqn:Hv; [|exact Hst].
  destruct (append_equation_fst st page_num ty (Py.strip m)) as (e & -> & _ & Hraw & _).
  apply Forall_app. split; [exact Hst|]. apply Forall_singleton.
  unfold valid. by rewrite Hraw, Hv.
Qed.

(** The font-based pass keeps what was found and adds equations of type
    structural only. *)
Lemma block_pass_structural (blocks : list Block) (page_num : Z) (st : list Equation * Z) :
  exists added, (block_pass env blocks page_num st).1 = st.1 ++ added
                /\ Forall (fun e => eq_type e = "structural") added.
Proof.
  unfold block_pass. revert st.
  induction blocks as [|b bs IH]; intros st; simpl.
  - exists []. by rewrite app_nil_r.
  - destruct (block_type b =? 0); [|apply IH].
    destruct (has_math_font b && _); [|apply IH].
    destruct (append_equation_fst st page_num "structural" (Py.strip (block_text b)))
      as (e & He & Hty & _).
    destruct (IH (append_equation env st page_num "structural" (Py.strip (block_text b))))
      as (added & -> & Hadded).
    exists (e :: added). rewrite He, <- app_assoc. split; [reflexivity|].
    by constructor.
Qed.

(** Every emitted equation whose type is not structural is valid. *)
Lemma pattern_equations_valid (page : FitzPage) (page_num : Z) (e : Equation) :
  e ∈ extract_equations_from_page env page page_num ->
  eq_type e <> "structural" -> valid e.
Proof.
  unfold extract_equations_from_page. intros He Hty.
  destruct (block_pass_structural (get_text_dict page) page_num
              (pattern_pass env (get_text page) page_num ([], 0))) as (added & Heq & Hadded).
  rewrite Heq in He. apply elem_of_app in He as [He|He].
  - pose proof (pattern_pass_valid (get_text page) page_num ([], 0) (Forall_nil_2 _)) as Hv.
    rewrite Forall_forall in Hv. by apply Hv.
  - rewrite Forall_forall in Hadded. by apply Hadded in He.
Qed.

Lemma not_among_valid (text : string) (eqs : list Equation) :
  _is_valid_equation text = false -> Forall valid eqs ->
  existsb (String.eqb text) (map raw_text eqs) = false.
Proof.
  intros Htext Hv. induction Hv as [|e eqs He Hv IH]; [reflexivity|].
  simpl. rewrite IH, orb_false_r. apply String.eqb_neq. intros ->.
  unfold valid in He. by rewrite Htext in He.
Qed.

(** C3, violated by the code: whatever the regular expressions match, a
    text block set in a math font whose text is the word Hello is emitted
    as a structural equation, although its raw text has no operator and
    is not valid. *)
Theorem structural_equation_not_validated :
  exists e, e ∈ extract_equations_from_page env demo.cmr_page 1
            /\ eq_type e = "structural" /\ raw_text e = "Hello"
            /\ _is_valid_equation (raw_text e) = false.
Proof.
  unfold extract_equations_from_page.
  pose proof (pattern_pass_valid (get_text demo.cmr_page) 1 ([], 0) (Forall_nil_2 _)) as Hv.
  set (st := pattern_pass env (get_text demo.cmr_page) 1 ([], 0)) in *.
  assert (Hnew : existsb (String.eqb "Hello") (map raw_text st.1) = false)
    by (by apply not_among_valid).
  change (get_text_dict demo.cmr_page)
    with [{| block_type := 0;
             block_lines := [[{| span_font := "CMR10"; span_text := "Hello" |}]] |}].
  unfold block_pass. cbn [fold_left block_type Z.eqb].
  change (has_math_font _) with true.
  change (block_text _) with "Hello".
  rewrite Hnew. cbn [negb andb].
  destruct (append_equation_fst st 1 "structural" (Py.strip "Hello"))
    as (e & -> & Hty & Hraw & _).
  exists e. split; [apply elem_of_app; right; apply list_elem_of_here|].
  split; [exact Hty|]. change (Py.strip "Hello") with "Hello" in Hraw.
  split; [exact Hraw|]. by rewrite Hraw.
Qed.

End Equations.

(* ===================================================================== *)
(** * Properties: document metadata *)
(* ===================================================================== *)

Section Metadata.

Import pdf.

Lemma option_wins (key : string) (v default : value) (opts : options) :
  opts !! key = Some v -> get opts key default = v.
Proof. intros H. unfold get. by rewrite H. Qed.

Lemma default_applies (key : string) (default : value) (opts : options) :
  opts !! key = None -> get opts key default = default.
Proof. intros H. unfold get. by rewrite H. Qed.

(** Without a subject option the assembled subject is the default,
    whatever the document embeds. *)
Lemma subject_without_option (pdf_metadata : metadata_extractor.PdfMetadata)
    (c : analyzer.PDFCharacteristics) (r : ExtractionResult) (opts : options) :
  opts !! "subject" = None ->
  md_subject (_build_metadata_with_fallback pdf_metadata c r opts) = VStr "general".
Proof.
  intros H. unfold _build_metadata_with_fallback. simpl.
  by rewrite (default_applies _ _ _ H).
Qed.

(** C5, violated by the code: without a subject option the assembled
    subject is the default general, whatever the document embeds; the
    demo document embeds the subject Physics, and with no option
    supplied its assembled subject is general. *)
Theorem embedded_subject_not_used (pdf_metadata : metadata_extractor.PdfMetadata)
    (c : analyzer.PDFCharacteristics) (r : ExtractionResult) (opts : options) :
  (opts !! "subject" = None ->
   md_subject (_build_metadata_with_fallback pdf_metadata c r opts) = VStr "general")
  /\ metadata_extractor.subject (metadata_extractor.extract_pdf_metadata demo.env "/tmp/a.pdf")
     = Some "Physics"
  /\ md_subject (_build_metadata_with_fallback
                   (metadata_extractor.extract_pdf_metadata demo.env "/tmp/a.pdf") c r ∅)
     = VStr "general".
Proof.
  split; [apply subject_without_option|].
  split; [by vm_compute|]. by apply subject_without_option.
Qed.

End Metadata.

(* ===================================================================== *)
(** * Properties: the analyzer *)
(* ===================================================================== *)

Section Analyzer.

Import analyzer.
Variable env : Env.

(** C6, violated by the code: a file that cannot be opened for reading
    makes analyze_pdf raise, the hash being computed outside the [try]. *)
Theorem analyze_pdf_raises_on_unreadable (file_path : string) :
  open_rb env file_path = None -> analyze_pdf env file_path = Raise OSError.
Proof.
  intros H. unfold analyze_pdf, _calculate_file_hash. by rewrite H.
Qed.

(** Once the file has been read, analyze_pdf returns. *)
Lemma analyze_pdf_returns (file_path bytes : string) :
  open_rb env file_path = Some bytes ->
  exists c, analyze_pdf env file_path = Ok c /\ file_hash c = hashlib.md5 bytes.
Proof.
  intros H. unfold analyze_pdf, _calculate_file_hash. rewrite H.
  change (exists c, try_except (analyze_body env file_path (hashlib.md5 bytes))
                      (fun _ => Ok (default_characteristics (hashlib.md5 bytes))) = Ok c
                    /\ file_hash c = hashlib.md5 bytes).
  unfold analyze_body.
  destruct (fitz_open env file_path) as [doc|]; [|by eexists].
  cbv zeta.
  repeat match goal with
         | |- context [mbind _ ?m] => destruct m; try (by eexists); cbn [mbind res_bind]
         | |- context [let '(_, _) := ?p in _] => destruct p
         end.
  all: try (by eexists).
Qed.

Lemma density_guarded (count : Z) : density count 0 = Ok 0%float.
Proof. reflexivity. Qed.

(** The [try] block on a document of no page: the sample is empty, no
    division is evaluated, and the block stops at the unbound [text]. *)
Lemma analyze_body_no_pages (file_path file_hash : string) (doc : FitzDoc) :
  fitz_open env file_path = Some doc -> fitz_pages doc = [] ->
  analyze_body env file_path file_hash = Raise UnboundLocalError.
Proof.
  intros Hopen Hpages. unfold analyze_body. rewrite Hopen, Hpages. reflexivity.
Qed.

(** C10: for a readable document that opens with no page, analyze_pdf
    returns, with text density, image density and average text per page
    all 0; its [try] block raises no ZeroDivisionError. *)
Theorem analyze_pdf_no_pages (file_path bytes : string) (doc : FitzDoc) :
  open_rb env file_path = Some bytes ->
  fitz_open env file_path = Some doc -> fitz_pages doc = [] ->
  exists c, analyze_pdf env file_path = Ok c
            /\ text_density c = 0%float /\ image_density c = 0%float
            /\ avg_text_per_page c = 0 /\ total_pages c = 0
            /\ analyze_body env file_path (hashlib.md5 bytes) <> Raise ZeroDivisionError.
Proof.
  intros Hread Hopen Hpages.
  exists (default_characteristics (hashlib.md5 bytes)).
  unfold analyze_pdf, _calculate_file_hash. rewrite Hread.
  change (try_except (analyze_body env file_path (hashlib.md5 bytes))
            (fun _ => Ok (default_characteristics (hashlib.md5 bytes)))
          = Ok (default_characteristics (hashlib.md5 bytes))
          /\ text_density (default_characteristics (hashlib.md5 bytes)) = 0%float
          /\ image_density (default_characteristics (hashlib.md5 bytes)) = 0%float
          /\ avg_text_per_page (default_characteristics (hashlib.md5 bytes)) = 0
          /\ total_pages (default_characteristics (hashlib.md5 bytes)) = 0
          /\ analyze_body env file_path (hashlib.md5 bytes) <> Raise ZeroDivisionError).
  rewrite (analyze_body_no_pages _ _ _ Hopen Hpages).
  repeat split; try reflexivity. discriminate.
Qed.

End Analyzer.

Lemma analyze_pdf_raises_on_unreadable_witness :
  open_rb demo.env "/tmp/missing.pdf" = None
  /\ analyzer.analyze_pdf demo.env "/tmp/missing.pdf" = Raise OSError.
Proof.
  split; [reflexivity|].
  apply (analyze_pdf_raises_on_unreadable demo.env "/tmp/missing.pdf"). reflexivity.
Defined.

Lemma analyze_pdf_no_pages_witness :
  exists c, analyzer.analyze_pdf demo.env "/tmp/empty.pdf" = Ok c
            /\ analyzer.text_density c = 0%float /\ analyzer.image_density c = 0%float
            /\ analyzer.avg_text_per_page c = 0 /\ analyzer.total_pages c = 0
            /\ analyzer.analyze_body demo.env "/tmp/empty.pdf" (hashlib.md5 "%PDF-1.4 empty")
               <> Raise ZeroDivisionError.
Proof.
  apply (analyze_pdf_no_pages demo.env "/tmp/empty.pdf" "%PDF-1.4 empty" demo.no_pages);
    reflexivity.
Defined.

(* ===================================================================== *)
(** * Properties: page order and full text *)
(* ===================================================================== *)

Section PageLoops.

Lemma page_numbers_S (n : nat) : page_numbers (S n) = page_numbers n ++ [Z.of_nat n + 1].
Proof. unfold page_numbers. by rewrite seq_S, map_app. Qed.

Lemma consistent_acc0 : consistent acc0.
Proof. by split. Qed.

Lemma consistent_push (a : Acc) (page_data : PageData) (n : Z) :
  consistent a ->
  pageNumber page_data = Z.of_nat (length (acc_pages a)) + 1 ->
  consistent (push a page_data (content page_data) n).
Proof.
  intros [Htext Hnum] Hpage. split; simpl.
  - by rewrite map_app, Htext.
  - rewrite map_app, length_app. cbn [map length].
    by rewrite Nat.add_1_r, page_numbers_S, Hnum, Hpage.
Qed.

Lemma push_length (a : Acc) (page_data : PageData) (text : string) (n : Z) :
  length (acc_pages (push a page_data text n)) = S (length (acc_pages a)).
Proof. simpl. rewrite length_app. simpl. lia. Qed.

(** A loop over [enumerate] whose body pushes one page numbered [i + 1]. *)
Lemma enumerate_loop {A} (f : Acc -> Z * A -> Acc) (xs : list A) (a : Acc) :
  (forall a i x, exists page_data text n,
      f a (i, x) = push a page_data text n
      /\ content page_data = text /\ pageNumber page_data = i + 1) ->
  consistent a ->
  consistent (fold_left f (Py.enumerate (Z.of_nat (length (acc_pages a))) xs) a)
  /\ length (acc_pages (fold_left f (Py.enumerate (Z.of_nat (length (acc_pages a))) xs) a))
     = (length (acc_pages a) + length xs)%nat.
Proof.
  intros Hf. revert a. induction xs as [|x xs IH]; intros a Ha; simpl.
  - split; [exact Ha | lia].
  - destruct (Hf a (Z.of_nat (length (acc_pages a))) x) as (pd & text & n & -> & <- & Hnum).
    assert (Hc : consistent (push a pd (content pd) n)) by (by apply consistent_push).
    specialize (IH _ Hc). rewrite push_length in IH.
    replace (Z.of_nat (length (acc_pages a)) + 1) with (Z.of_nat (S (length (acc_pages a))))
      by lia.
    destruct IH as [IH1 IH2]. split; [exact IH1|]. rewrite IH2. lia.
Qed.

Lemma enumerate_loop0 {A} (f : Acc -> Z * A -> Acc) (xs : list A) :
  (forall a i x, exists page_data text n,
      f a (i, x) = push a page_data text n
      /\ content page_data = text /\ pageNumber page_data = i + 1) ->
  consistent (fold_left f (Py.enumerate 0 xs) acc0)
  /\ length (acc_pages (fold_left f (Py.enumerate 0 xs) acc0)) = length xs.
Proof. intros Hf. exact (enumerate_loop f xs acc0 Hf consistent_acc0). Qed.

Lemma result_of_ordered (a : Acc) (method : string) :
  consistent a -> ordered (extractor.result_of a method).
Proof. intros [Htext Hnum]. split; simpl; [by rewrite Htext | exact Hnum]. Qed.

Variable env : Env.

Lemma text_focused_ordered (file_path : string) (opts : options) (r : ExtractionResult) :
  extractor.extract_text_focused env file_path opts = Ok r -> ordered r.
Proof.
  unfold extractor.extract_text_focused.
  destruct (pdfplumber_open env file_path) as [pdf_pages|]; [|discriminate].
  destruct (min_max_pages opts _) as [max_pages|]; [|discriminate].
  cbn [mbind res_bind]. intros [= <-].
  apply result_of_ordered, enumerate_loop0.
  intros a i x. eexists _, _, _. repeat split.
Qed.

Lemma text_focused_page_count (file_path : string) (opts : options) (r : ExtractionResult)
    (pdf_pages : list PlumberPage) (max_pages : Z) :
  pdfplumber_open env file_path = Some pdf_pages ->
  min_max_pages opts (Z.of_nat (length pdf_pages)) = Ok max_pages ->
  extractor.extract_text_focused env file_path opts = Ok r ->
  length (pages r) = Z.to_nat max_pages.
Proof.
  unfold extractor.extract_text_focused. intros -> Hmin. rewrite Hmin.
  cbn [mbind res_bind]. intros [= <-].
  unfold extractor.result_of. cbn [pages].
  match goal with
  | |- context [fold_left ?f _ _] =>
      destruct (enumerate_loop0 f (Py.upto max_pages pdf_pages)) as [_ ->]
  end.
  - intros a i x. eexists _, _, _. repeat split.
  - unfold Py.upto. rewrite length_take.
    unfold min_max_pages in Hmin.
    destruct (get opts "max_pages" _) as [|b|m| |]; simplify_eq; [destruct b|]; lia.
Qed.

Lemma table_focused_ordered (file_path : string) (opts : options) (r : ExtractionResult) :
  extractor.extract_table_focused env file_path opts = Ok r -> ordered r.
Proof.
  unfold extractor.extract_table_focused.
  destruct (table_extractor.extract_tables_from_pdf env file_path opts) as [all_tables|];
    [|discriminate].
  cbn [mbind res_bind].
  destruct (pdfplumber_open env file_path) as [pdf_pages|]; [|discriminate].
  intros [= <-].
  match goal with
  | |- context [fold_left ?f _ _] =>
      destruct (enumerate_loop0 f pdf_pages) as [[Htext Hnum] _]
  end.
  { intros a i x. eexists _, _, _. repeat split. }
  split; cbn [pages fullText]; [by rewrite Htext | exact Hnum].
Qed.

(** The table-focused text pass covers every page, whatever the options. *)
Lemma table_focused_page_count (file_path : string) (opts : options) (r : ExtractionResult)
    (pdf_pages : list PlumberPage) :
  pdfplumber_open env file_path = Some pdf_pages ->
  extractor.extract_table_focused env file_path opts = Ok r ->
  length (pages r) = length pdf_pages.
Proof.
  unfold extractor.extract_table_focused. intros Hopen.
  destruct (table_extractor.extract_tables_from_pdf env file_path opts) as [all_tables|];
    [|discriminate].
  cbn [mbind res_bind]. rewrite Hopen. intros [= <-]. cbn [pages extractor.result_of].
  match goal with
  | |- context [fold_left ?f _ _] => destruct (enumerate_loop0 f pdf_pages) as [_ ->]
  end; [|reflexivity].
  intros a i x. eexists _, _, _. repeat split.
Qed.

Lemma merge_equations_content (eqs : list math_extractor.Equation) (p : PageData) :
  content (extractor.merge_equations eqs p) = content p
  /\ pageNumber (extractor.merge_equations eqs p) = pageNumber p.
Proof. unfold extractor.merge_equations. by destruct (List.filter _ _). Qed.

Lemma math_focused_ordered (file_path : string) (opts : options) (r : ExtractionResult) :
  extractor.extract_math_focused env file_path opts = Ok r -> ordered r.
Proof.
  unfold extractor.extract_math_focused.
  destruct (fitz_open env file_path) as [doc|]; [|discriminate].
  intros [= <-].
  match goal with
  | |- context [fold_left ?f _ _] =>
      destruct (enumerate_loop0 f (fitz_pages doc)) as [[Htext Hnum] _]
  end.
  { intros a i x. eexists _, _, _. repeat split. }
  split; cbn [pages fullText].
  - rewrite Htext, map_map. f_equal. apply map_ext. intros p.
    by destruct (merge_equations_content (math_extractor.extract_math_from_pdf env file_path opts) p)
      as [-> _].
  - rewrite map_map, length_map, <- Hnum. apply map_ext. intros p.
    by destruct (merge_equations_content (math_extractor.extract_math_from_pdf env file_path opts) p)
      as [_ ->].
Qed.

(** The math-focused text pass covers every page, whatever the options. *)
Lemma math_focused_page_count (file_path : string) (opts : options) (r : ExtractionResult)
    (doc : FitzDoc) :
  fitz_open env file_path = Some doc ->
  extractor.extract_math_focused env file_path opts = Ok r ->
  length (pages r) = length (fitz_pages doc).
Proof.
  unfold extractor.extract_math_focused. intros ->. intros [= <-]. cbn [pages].
  rewrite length_map.
  match goal with
  | |- context [fold_left ?f _ _] => destruct (enumerate_loop0 f (fitz_pages doc)) as [_ ->]
  end; [|reflexivity].
  intros a i x. eexists _, _, _. repeat split.
Qed.

End PageLoops.

(* ===================================================================== *)
(** * Properties: loops that may raise, and OCR batches *)
(* ===================================================================== *)

Section RaisingLoops.

Lemma for_each_enumerate {S A} (body : S -> Z * A -> res S) (P : nat -> S -> Prop)
    (xs : list A) (k : nat) (s s' : S) :
  (forall s i x s', P i s -> body s (Z.of_nat i, x) = Ok s' -> P (Datatypes.S i) s') ->
  P k s ->
  for_each body (Py.enumerate (Z.of_nat k) xs) s = Ok s' ->
  P (k + length xs)%nat s'.
Proof.
  intros Hbody. revert k s. induction xs as [|x xs IH]; intros k s Hs; simpl.
  - intros [= <-]. by rewrite Nat.add_0_r.
  - destruct (body s (Z.of_nat k, x)) as [s1|] eqn:Hb; [|discriminate].
    cbn [mbind res_bind].
    replace (Z.of_nat k + 1) with (Z.of_nat (Datatypes.S k)) by lia.
    intros Hrest. apply IH in Hrest; [|by eapply Hbody].
    by replace (k + Datatypes.S (length xs))%nat with (Datatypes.S k + length xs)%nat by lia.
Qed.

Lemma for_each_positions {S A} (body : S -> A -> res S) (P : nat -> S -> Prop)
    (Q : nat -> A -> Prop) (xs : list A) (k : nat) (s s' : S) :
  (forall s i x s', P i s -> Q i x -> body s x = Ok s' -> P (Datatypes.S i) s') ->
  (forall j x, xs !! j = Some x -> Q (k + j)%nat x) ->
  P k s ->
  for_each body xs s = Ok s' ->
  P (k + length xs)%nat s'.
Proof.
  intros Hbody. revert k s. induction xs as [|x xs IH]; intros k s HQ Hs; simpl.
  - intros [= <-]. by rewrite Nat.add_0_r.
  - destruct (body s x) as [s1|] eqn:Hb; [|discriminate].
    cbn [mbind res_bind]. intros Hrest.
    replace (k + Datatypes.S (length xs))%nat with (Datatypes.S k + length xs)%nat by lia.
    apply (IH (Datatypes.S k) s1); [| |exact Hrest].
    + intros j y Hy. replace (Datatypes.S k + j)%nat with (k + Datatypes.S j)%nat by lia.
      by apply HQ.
    + apply (Hbody s k x); [exact Hs | | exact Hb].
      rewrite <- (Nat.add_0_r k). by apply HQ.
Qed.

Lemma gather_app {A} (l1 l2 : list (res A)) :
  gather (l1 ++ l2) = (r1 ← gather l1; r2 ← gather l2; Ok (r1 ++ r2)).
Proof.
  induction l1 as [|t l1 IH]; simpl.
  - by destruct (gather l2).
  - destruct t as [r|e]; cbn [mbind res_bind]; [|reflexivity].
    rewrite IH. destruct (gather l1); cbn [mbind res_bind]; [|reflexivity].
    by destruct (gather l2).
Qed.

(** The results of a gathered list of tasks are those of the tasks, in
    task order. *)
Lemma gather_Forall2 {A} (tasks : list (res A)) (rs : list A) :
  gather tasks = Ok rs -> Forall2 (fun t r => t = Ok r) tasks rs.
Proof.
  revert rs. induction tasks as [|t ts IH]; intros rs; simpl.
  - intros [= <-]. constructor.
  - destruct t as [r|]; cbn [mbind res_bind]; [|discriminate].
    destruct (gather ts) as [rs'|]; cbn [mbind res_bind]; [|discriminate].
    intros [= <-]. constructor; [reflexivity | by apply IH].
Qed.

Lemma batches_from (m : nat) {A} (l : list A) :
  (length l <= 5 * m)%nat ->
  List.concat (map (fun i => take 5 (drop i l)) (map (fun k => (5 * k)%nat) (seq 0 m))) = l.
Proof.
  revert l. induction m as [|m IH]; intros l Hlen.
  - destruct l; [reflexivity | simpl in Hlen; lia].
  - rewrite <- cons_seq, <- fmap_S_seq. cbn [map List.concat].
    rewrite drop_0, !map_map.
    rewrite (map_ext _ (fun k => take 5 (drop (5 * k) (drop 5 l)))).
    + rewrite <- (map_map (fun k => (5 * k)%nat) (fun i => take 5 (drop i (drop 5 l)))).
      rewrite IH; [apply take_drop|]. rewrite length_drop. lia.
    + intros k. rewrite drop_drop. do 2 f_equal. lia.
Qed.

(** The batches, one after the other, are the tasks. *)
Lemma batches_concat {A} (tasks : list A) :
  List.concat (ocr_processor.batches tasks) = tasks.
Proof.
  unfold ocr_processor.batches, Py.seq_step. apply batches_from.
  pose proof (Nat.div_mod_eq (length tasks + 4) 5) as Hd.
  pose proof (Nat.mod_upper_bound (length tasks + 4) 5). lia.
Qed.

(** No batch holds more than five tasks. *)
Lemma batches_at_most_5 {A} (tasks : list A) :
  Forall (fun batch => (length batch <= 5)%nat) (ocr_processor.batches tasks).
Proof.
  unfold ocr_processor.batches. apply Forall_fmap, Forall_forall.
  intros i _. simpl. rewrite length_take. lia.
Qed.

Lemma for_each_batches {A} (bs : list (list (res A))) (results : list A) :
  for_each (fun results batch => batch_results ← gather batch; Ok (results ++ batch_results))
           bs results
  = (rs ← gather (List.concat bs); Ok (results ++ rs)).
Proof.
  revert results. induction bs as [|b bs IH]; intros results; simpl.
  - by rewrite app_nil_r.
  - rewrite gather_app. destruct (gather b) as [r|]; cbn [mbind res_bind]; [|reflexivity].
    rewrite IH. destruct (gather (List.concat bs)); cbn [mbind res_bind]; [|reflexivity].
    by rewrite app_assoc.
Qed.

(** Batch after batch, the results are those of gathering all the tasks. *)
Lemma run_batches_gather {A} (tasks : list (res A)) :
  ocr_processor.run_batches tasks = gather tasks.
Proof.
  unfold ocr_processor.run_batches. rewrite for_each_batches, batches_concat.
  by destruct (gather tasks).
Qed.

Lemma gather_numbered {A} (f : Z * A -> res PageData) (l : list (Z * A)) (rs : list PageData) :
  (forall n x r, f (n, x) = Ok r -> pageNumber r = n) ->
  gather (map f l) = Ok rs -> map pageNumber rs = map fst l.
Proof.
  intros Hf Hg. apply gather_Forall2 in Hg. revert rs Hg.
  induction l as [|[n x] l IH]; intros rs Hg; inversion Hg; subst; simpl; [reflexivity|].
  f_equal; [by eapply Hf | by apply IH].
Qed.

Lemma enumerate_fst {A} (start : Z) (xs : list A) :
  map fst (Py.enumerate start xs) = map (fun i => start + Z.of_nat i) (seq 0 (length xs)).
Proof.
  revert start. induction xs as [|x xs IH]; intros start; simpl; [reflexivity|].
  rewrite IH, <- fmap_S_seq, map_map. f_equal; [lia|]. apply map_ext. intros i. lia.
Qed.

Lemma enumerate_length {A} (start : Z) (xs : list A) :
  length (Py.enumerate start xs) = length xs.
Proof. revert start. induction xs as [|x xs IH]; intros start; simpl; [reflexivity | by rewrite IH]. Qed.

Lemma build_response_acc (rs : list PageData) (a : Acc) :
  let a' := fold_left (fun a page_data =>
                         push a page_data (content page_data) (wordCount (metadata page_data)))
                      rs a in
  acc_pages a' = acc_pages a ++ rs /\ acc_full_text a' = acc_full_text a ++ map content rs.
Proof.
  revert a. induction rs as [|r rs IH]; intros a; simpl.
  - by rewrite !app_nil_r.
  - destruct (IH (push a r (content r) (wordCount (metadata r)))) as [-> ->]. simpl.
    by rewrite <- !app_assoc.
Qed.

Lemma build_response_ordered (rs : list PageData) :
  map pageNumber rs = page_numbers (length rs) -> ordered (ocr_processor.build_response rs).
Proof.
  intros Hnum. unfold ocr_processor.build_response.
  destruct (build_response_acc rs acc0) as [Hp Ht]. simpl in Hp, Ht.
  split; cbn [pages fullText]; rewrite ?Hp, ?Ht; [reflexivity | exact Hnum].
Qed.

Variable env : Env.

(** The page images of _process_with_fitz are numbered from 1, one for
    each page of the loop. *)
Lemma fitz_page_images (xs : list FitzPage) (page_images : list (Z * image)) :
  for_each (fun page_images '(page_num, page) =>
              img_data ← get_pixmap page;
              Ok (page_images ++ [(page_num + 1, img_data)]))
           (Py.enumerate 0 xs) [] = Ok page_images ->
  map fst page_images = page_numbers (length xs) /\ length page_images = length xs.
Proof.
  intros Hloop.
  apply (for_each_enumerate _
           (fun i (s : list (Z * image)) => map fst s = page_numbers i /\ length s = i)
           _ 0%nat) in Hloop; [exact Hloop | | by split].
  intros s i page s' [Hnum Hlen].
  destruct (get_pixmap page) as [img_data|]; cbn [mbind res_bind]; [|discriminate].
  intros [= <-]. split.
  - by rewrite map_app, Hnum, page_numbers_S.
  - rewrite length_app. simpl. lia.
Qed.

Lemma process_with_fitz_ordered (file_path : string) (opts : options) (r : ExtractionResult) :
  ocr_processor._process_with_fitz env file_path opts = Ok r -> ordered r.
Proof.
  unfold ocr_processor._process_with_fitz.
  destruct (fitz_installed env); [|discriminate].
  destruct (fitz_open env file_path) as [doc|]; [|discriminate].
  destruct (min_max_pages opts _) as [max_pages|]; [|discriminate].
  cbn [mbind res_bind].
  destruct (for_each _ _ _) as [page_images|] eqn:Himg; [|discriminate].
  apply fitz_page_images in Himg as [Hnum Hlen].
  cbn [mbind res_bind]. rewrite run_batches_gather.
  destruct (gather _) as [rs|] eqn:Hg; [|discriminate].
  cbn [mbind res_bind]. intros [= <-]. apply build_response_ordered.
  rewrite (map_ext _ (fun p : Z * image =>
             ocr_processor._process_page_data env p.2 p.1 opts)) in Hg
    by (by intros [i img]).
  assert (Hrs : length rs = length page_images).
  { apply gather_Forall2, Forall2_length in Hg. by rewrite length_map in Hg. }
  assert (Hf : forall n x r0,
             (fun p : Z * image => ocr_processor._process_page_data env p.2 p.1 opts) (n, x)
             = Ok r0 -> pageNumber r0 = n).
  { intros n x r0. simpl. unfold ocr_processor._process_page_data. by intros [= <-]. }
  by rewrite (gather_numbered _ _ _ Hf Hg), Hnum, Hrs, Hlen.
Qed.

Lemma process_pdf_with_ocr_ordered (file_path : string) (opts : options) (r : ExtractionResult) :
  ocr_processor.process_pdf_with_ocr env file_path opts = Ok r -> ordered r.
Proof.
  unfold ocr_processor.process_pdf_with_ocr.
  destruct (negb (ensure_tmp_space env 100)); [discriminate|].
  destruct (convert_from_path env) as [convert|]; [|apply process_with_fitz_ordered].
  destruct (convert file_path _) as [images|]; cbn [mbind res_bind try_except];
    [|apply process_with_fitz_ordered].
  rewrite run_batches_gather.
  destruct (gather _) as [rs|] eqn:Hg; cbn [mbind res_bind try_except];
    [|apply process_with_fitz_ordered].
  intros [= <-]. apply build_response_ordered.
  rewrite (map_ext _ (fun p : Z * pil_image =>
             ocr_processor._process_page_image env p.2 p.1 opts)) in Hg
    by (by intros [i page]).
  assert (Hlen : length rs = length images).
  { apply gather_Forall2, Forall2_length in Hg.
    by rewrite length_map, enumerate_length in Hg. }
  assert (Hf : forall n x r,
             (fun p : Z * pil_image => ocr_processor._process_page_image env p.2 p.1 opts) (n, x)
             = Ok r -> pageNumber r = n).
  { intros n x r. unfold ocr_processor._process_page_image. simpl.
    destruct (save_png env x); cbn [mbind res_bind]; [|discriminate]. by intros [= <-]. }
  rewrite (gather_numbered _ _ _ Hf Hg), Hlen, enumerate_fst.
  unfold page_numbers. apply map_ext. intros i. lia.
Qed.

Lemma hybrid_first_pass_numbered (file_path : string) (opts : options)
    (pages_data : list extractor.HybridPage) :
  extractor.hybrid_first_pass env file_path opts = Ok pages_data ->
  forall j pd, pages_data !! j = Some pd -> extractor.hp_page_num pd = Z.of_nat j.
Proof.
  unfold extractor.hybrid_first_pass.
  destruct (fitz_open env file_path) as [doc|]; [|discriminate].
  destruct (min_max_pages opts _) as [max_pages|]; [|discriminate].
  cbn [mbind res_bind]. intros Hloop.
  apply (for_each_enumerate _
           (fun i pds => length pds = i
                         /\ forall j pd, pds !! j = Some pd -> extractor.hp_page_num pd = Z.of_nat j)
           _ 0%nat) in Hloop.
  - by destruct Hloop.
  - intros pds i [page_num page] pds' [Hlen Hnum].
    destruct (if Float.gt _ _ then _ else _) as [d|]; cbn [mbind res_bind]; [|discriminate].
    intros [= <-]. split; [rewrite length_app; simpl; lia|].
    intros j pd Hj. apply lookup_app_Some in Hj as [Hj|[Hge Hj]]; [by apply Hnum|].
    apply list_lookup_singleton_Some in Hj as [Hj <-]. simpl. lia.
  - split; [reflexivity|]. intros j pd Hj. by rewrite lookup_nil in Hj.
Qed.

Lemma hybrid_ordered (file_path : string) (opts : options) (r : ExtractionResult) :
  extractor.extract_hybrid env file_path opts = Ok r -> ordered r.
Proof.
  unfold extractor.extract_hybrid.
  destruct (extractor.hybrid_first_pass env file_path opts) as [pages_data|] eqn:Hfirst;
    [|discriminate].
  cbn [mbind res_bind].
  destruct (for_each _ pages_data acc0) as [a|] eqn:Hloop; [|discriminate].
  cbn [mbind res_bind]. intros [= <-]. apply result_of_ordered.
  apply (for_each_positions _
           (fun i a => consistent a /\ length (acc_pages a) = i)
           (fun i pd => extractor.hp_page_num pd = Z.of_nat i) _ 0%nat) in Hloop.
  - by destruct Hloop.
  - intros a0 i pd a' [Hc Hlen] Hpd.
    destruct (if truthy (extractor.hp_needs_ocr pd) then _ else _) as [text|];
      cbn [mbind res_bind]; [|discriminate].
    destruct (extractor._has_math_content text); [discriminate|].
    intros [= <-]. split; [|rewrite push_length; lia].
    match goal with
    | |- consistent (push a0 ?page_data _ ?n) => apply (consistent_push a0 page_data n Hc)
    end.
    simpl. lia.
  - intros j pd Hj. by apply (hybrid_first_pass_numbered _ _ _ Hfirst).
  - split; [apply consistent_acc0 | reflexivity].
Qed.

(** C4: whatever the strategy, a returned result has as full text the
    join, by a blank line, of the contents of its pages in page order,
    and its pages are numbered 1, 2, ..., n. *)
Theorem full_text_and_page_numbers (file_path strategy : string) (opts : options)
    (r : ExtractionResult) :
  extractor.extract_with_strategy env file_path strategy opts = Ok r ->
  fullText r = Py.join (Py.NL +:+ Py.NL) (map content (pages r))
  /\ map pageNumber (pages r) = page_numbers (length (pages r)).
Proof.
  unfold extractor.extract_with_strategy, extractor.extract_ocr_heavy.
  repeat case_match; intros Hr.
  all: first [ exact (text_focused_ordered env _ _ _ Hr)
             | exact (process_pdf_with_ocr_ordered _ _ _ Hr)
             | exact (hybrid_ordered _ _ _ Hr)
             | exact (table_focused_ordered env _ _ _ Hr)
             | exact (math_focused_ordered env _ _ _ Hr) ].
Qed.

End RaisingLoops.

Lemma full_text_and_page_numbers_witness :
  exists r, extractor.extract_with_strategy demo.env "/tmp/a.pdf" "hybrid" ∅ = Ok r
            /\ fullText r = Py.join (Py.NL +:+ Py.NL) (map content (pages r))
            /\ map pageNumber (pages r) = page_numbers (length (pages r)).
Proof.
  eexists. split; [vm_compute; reflexivity|].
  eapply (full_text_and_page_numbers demo.env "/tmp/a.pdf" "hybrid" ∅).
  vm_compute. reflexivity.
Defined.

(* ===================================================================== *)
(** * Properties: the page cap and the cache key, on the demo files *)
(* ===================================================================== *)

Section Demo.

(** C1, violated by the code: the table-focused and the math-focused
    strategies return every page of the document whatever the options
    hold; on the three-page demo document with max_pages = 1 they return
    all three pages, where the text-focused, hybrid and OCR-heavy
    strategies return one. *)
Theorem max_pages_ignored_by_table_and_math_focus (env : Env) (file_path : string)
    (opts : options) (r : ExtractionResult) :
  (forall pdf_pages, pdfplumber_open env file_path = Some pdf_pages ->
     extractor.extract_with_strategy env file_path "table_focus" opts = Ok r ->
     length (pages r) = length pdf_pages)
  /\ (forall doc, fitz_open env file_path = Some doc ->
       extractor.extract_with_strategy env file_path "math_focus" opts = Ok r ->
       length (pages r) = length (fitz_pages doc))
  /\ length (fitz_pages demo.three_pages) = 3%nat
  /\ demo.max_pages_1 !! "max_pages" = Some (VInt 1)
  /\ demo.page_count
       (extractor.extract_with_strategy demo.env "/tmp/a.pdf" "table_focus" demo.max_pages_1)
     = Some 3%nat
  /\ demo.page_count
       (extractor.extract_with_strategy demo.env "/tmp/a.pdf" "math_focus" demo.max_pages_1)
     = Some 3%nat
  /\ demo.page_count
       (extractor.extract_with_strategy demo.env "/tmp/a.pdf" "text_focus" demo.max_pages_1)
     = Some 1%nat
  /\ demo.page_count
       (extractor.extract_with_strategy demo.env "/tmp/a.pdf" "hybrid" demo.max_pages_1)
     = Some 1%nat
  /\ demo.page_count
       (extractor.extract_with_strategy demo.env "/tmp/a.pdf" "ocr_heavy" demo.max_pages_1)
     = Some 1%nat.
Proof.
  split; [intros pdf_pages Hopen Hr; by apply (table_focused_page_count env file_path opts)|].
  split; [intros doc Hopen Hr; by apply (math_focused_page_count env file_path opts)|].
  repeat split; vm_compute; reflexivity.
Qed.

(** C2, violated by the code: the cache key is the digest of the path, a
    colon and the dumped options, the bytes of the file not entering it;
    two files of the same bytes at two paths, parsed with the same (empty)
    options, get different keys, and the parse of the second, ten seconds
    after the first, is not served from the cache, where a second parse
    of the first path is. *)
Theorem cache_key_depends_on_path (file_path : pdf.Path) (opts : options) :
  pdf.parse_pdf_cache_key file_path opts
    = hashlib.md5 (pdf.path_str file_path +:+ ":" +:+ json.dumps opts)
  /\ open_rb demo.env "/tmp/a.pdf" = open_rb demo.env "/tmp/b.pdf"
  /\ pdf.parse_pdf_cache_key demo.path_a ∅ = "477f6c4d937c3cd38524af2aa620daaf"
  /\ pdf.parse_pdf_cache_key demo.path_b ∅ = "98122d7172ae0f1349f61e307d79fd16"
  /\ served_from_cache
       (pdf.parse_pdf demo.env unit (fun _ _ => tt) demo.path_b ∅ (demo.clock 10)
          after_first_parse).1 = Some false
  /\ served_from_cache
       (pdf.parse_pdf demo.env unit (fun _ _ => tt) demo.path_a ∅ (demo.clock 10)
          after_first_parse).1 = Some true.
Proof. split; [reflexivity|]. repeat split; vm_compute; reflexivity. Qed.

End Demo.

(* ===================================================================== *)
(** * Properties: the result cache and the OCR cache *)
(* ===================================================================== *)

Section CacheProperties.

Import cache.
Context {V : Type}.
Implicit Types (es : list (string * (V * Z))) (st : store V).

Lemma lookup_assign (key : string) (e : V * Z) es : lookup key (assign key e es) = Some e.
Proof.
  induction es as [|[k e'] es IH]; simpl.
  - by rewrite String.eqb_refl.
  - destruct (String.eqb_spec k key) as [->|Hne]; simpl.
    + by rewrite String.eqb_refl.
    + destruct (String.eqb_spec k key); [done | exact IH].
Qed.

Lemma lookup_assign_ne (key k : string) (e : V * Z) es :
  k <> key -> lookup k (assign key e es) = lookup k es.
Proof.
  intros Hne. induction es as [|[k' e'] es IH]; simpl.
  - destruct (String.eqb_spec key k); [congruence | reflexivity].
  - destruct (String.eqb_spec k' key) as [->|Hk]; simpl.
    + destruct (String.eqb_spec key k); [congruence | reflexivity].
    + destruct (String.eqb_spec k' k); [reflexivity | exact IH].
Qed.

Lemma length_assign (key : string) (e : V * Z) es :
  (length (assign key e es) <= S (length es))%nat.
Proof.
  induction es as [|[k e'] es IH]; simpl; [lia|].
  destruct (String.eqb k key); simpl; lia.
Qed.

Lemma lookup_Some_elem (key : string) (e : V * Z) es :
  lookup key es = Some e -> (key, e) ∈ es.
Proof.
  induction es as [|[k e'] es IH]; simpl; [discriminate|].
  destruct (String.eqb_spec k key) as [->|Hne].
  - intros [= ->]. apply list_elem_of_here.
  - intros H. by apply list_elem_of_further, IH.
Qed.

Lemma lookup_None_keys (key : string) es : key ∉ map fst es -> lookup key es = None.
Proof.
  induction es as [|[k e'] es IH]; simpl; [reflexivity|].
  intros Hnot. apply not_elem_of_cons in Hnot as [Hne Hnot].
  destruct (String.eqb_spec k key); [congruence | by apply IH].
Qed.

Lemma elem_lookup (key : string) (e : V * Z) es :
  NoDup (map fst es) -> (key, e) ∈ es -> lookup key es = Some e.
Proof.
  induction es as [|[k e'] es IH]; simpl; intros Hnd Hin.
  - by apply elem_of_nil in Hin.
  - apply NoDup_cons in Hnd as [Hk Hnd].
    apply elem_of_cons in Hin as [[= -> ->]|Hin].
    + by rewrite String.eqb_refl.
    + destruct (String.eqb_spec k key) as [->|Hne]; [|by apply IH].
      exfalso. apply Hk. by apply (list_elem_of_fmap_2 fst _ (key, e)).
Qed.

Lemma del_keys_subset (key k : string) es : k ∈ map fst (del key es) -> k ∈ map fst es.
Proof.
  induction es as [|[k' e'] es IH]; simpl; [done|].
  destruct (String.eqb k' key); simpl.
  - intros H. by apply list_elem_of_further.
  - intros H. apply elem_of_cons in H as [->|H]; [apply list_elem_of_here|].
    by apply list_elem_of_further, IH.
Qed.

Lemma del_elem_subset (key : string) (x : string * (V * Z)) es : x ∈ del key es -> x ∈ es.
Proof.
  induction es as [|[k' e'] es IH]; simpl; [done|].
  destruct (String.eqb k' key); simpl.
  - intros H. by apply list_elem_of_further.
  - intros H. apply elem_of_cons in H as [->|H]; [apply list_elem_of_here|].
    by apply list_elem_of_further, IH.
Qed.

Lemma del_NoDup (key : string) es : NoDup (map fst es) -> NoDup (map fst (del key es)).
Proof.
  induction es as [|[k e'] es IH]; simpl; intros Hnd; [constructor|].
  apply NoDup_cons in Hnd as [Hk Hnd].
  destruct (String.eqb k key); simpl; [exact Hnd|].
  apply NoDup_cons. split; [|by apply IH].
  intros Hin. apply Hk. by apply (del_keys_subset key).
Qed.

Lemma lookup_del (key : string) es : NoDup (map fst es) -> lookup key (del key es) = None.
Proof.
  induction es as [|[k e'] es IH]; simpl; intros Hnd; [reflexivity|].
  apply NoDup_cons in Hnd as [Hk Hnd].
  destruct (String.eqb_spec k key) as [->|Hne]; simpl.
  - by apply lookup_None_keys.
  - destruct (String.eqb_spec k key); [congruence | by apply IH].
Qed.

Lemma lookup_del_ne (key k : string) es : k <> key -> lookup k (del key es) = lookup k es.
Proof.
  intros Hne. induction es as [|[k' e'] es IH]; simpl; [reflexivity|].
  destruct (String.eqb_spec k' key) as [->|Hk]; simpl.
  - destruct (String.eqb_spec key k); [congruence | reflexivity].
  - destruct (String.eqb_spec k' k); [reflexivity | exact IH].
Qed.

Lemma length_del (key : string) es :
  key ∈ map fst es -> length (del key es) = pred (length es).
Proof.
  induction es as [|[k e'] es IH]; simpl; intros Hin; [by apply elem_of_nil in Hin|].
  destruct (String.eqb_spec k key) as [->|Hne]; simpl; [reflexivity|].
  apply elem_of_cons in Hin as [Heq|Hin]; [congruence|].
  rewrite (IH Hin). destruct es; [by apply elem_of_nil in Hin | reflexivity].
Qed.

Lemma assign_NoDup (key : string) (e : V * Z) es :
  NoDup (map fst es) -> NoDup (map fst (assign key e es)).
Proof.
  induction es as [|[k e'] es IH]; simpl; intros Hnd.
  - apply NoDup_singleton.
  - apply NoDup_cons in Hnd as [Hk Hnd].
    destruct (String.eqb_spec k key) as [->|Hne]; simpl.
    + by apply NoDup_cons.
    + apply NoDup_cons. split; [|by apply IH].
      intros Hin. apply list_elem_of_fmap in Hin as ([k' e''] & Hk' & Hin). simpl in Hk'. subst k'.
      destruct (String.eqb_spec k key) as [Heq|_]; [congruence|].
      assert (Hl : lookup k (assign key e es) = lookup k es) by (by apply lookup_assign_ne).
      destruct (lookup k es) as [e0|] eqn:Hes.
      * apply Hk. apply lookup_Some_elem in Hes. by apply (list_elem_of_fmap_2 fst _ (k, e0)).
      * assert (Hsome : lookup k (assign key e es) = Some e'') by (apply elem_lookup; [by apply IH | done]).
        congruence.
Qed.

(** The key [oldest] returns carries the least expiry. *)
Lemma oldest_spec (best : string * Z) es :
  exists x, ((oldest best es, x) = best \/ exists v, (oldest best es, (v, x)) ∈ es)
            /\ x <= best.2
            /\ forall k v x', (k, (v, x')) ∈ es -> x <= x'.
Proof.
  revert best. induction es as [|[k [v x0]] es IH]; intros best.
  - exists best.2. split; [left; by destruct best|]. split; [lia|].
    intros k v x' H. by apply elem_of_nil in H.
  - change (oldest best ((k, (v, x0)) :: es))
      with (oldest (if x0 <? best.2 then (k, x0) else best) es).
    destruct (IH (if x0 <? best.2 then (k, x0) else best)) as (x & Hwhere & Hle & Hall).
    set (o := oldest (if x0 <? best.2 then (k, x0) else best) es) in *.
    exists x. split; [|split].
    + destruct Hwhere as [Heq|[v' Hin]].
      * destruct (Z.ltb_spec x0 best.2); [|by left].
        injection Heq as Hk Hx. right. exists v. rewrite Hk, Hx. apply list_elem_of_here.
      * right. exists v'. by apply list_elem_of_further.
    + destruct (Z.ltb_spec x0 best.2); simpl in Hle; lia.
    + intros k' v' x' Hin. apply elem_of_cons in Hin as [[= -> -> ->]|Hin]; [|by eapply Hall].
      destruct (Z.ltb_spec x0 best.2); simpl in Hle; lia.
Qed.

(** X1: what was just stored is returned until it expires, and the lookup
    counts as a hit. *)
Theorem cache_set_then_get (now t ttl : Z) (key : string) (v : V) st :
  now < t + ttl ->
  let '(found, st') := get_from_cache now key (set_in_cache t key v ttl st) in
  found = Some v
  /\ cache_hits st' = cache_hits st + 1 /\ cache_misses st' = cache_misses st.
Proof.
  intros Hnow. unfold get_from_cache, set_in_cache. cbn [entries cache_hits cache_misses].
  rewrite lookup_assign. destruct (Z.ltb_spec now (t + ttl)); [|lia]. by cbn.
Qed.

(** X2: at or after the expiry the stored value is not returned, the
    lookup counts as a miss and the entry is dropped from the cache. *)
Theorem cache_get_expired (now t ttl : Z) (key : string) (v : V) st :
  NoDup (map fst (entries st)) ->
  t + ttl <= now ->
  let '(found, st') := get_from_cache now key (set_in_cache t key v ttl st) in
  found = None
  /\ lookup key (entries st') = None
  /\ cache_misses st' = cache_misses st + 1 /\ cache_hits st' = cache_hits st.
Proof.
  intros Hnd Hnow. unfold set_in_cache.
  set (es := if (MAX_CACHE_SIZE <=? length (entries st))%nat then _ else _).
  assert (Hes : NoDup (map fst es)).
  { subst es. destruct (MAX_CACHE_SIZE <=? length (entries st))%nat; [|exact Hnd].
    unfold _evict_oldest. destruct (entries st) as [|[k [v0 x0]] es'] eqn:Hes; [constructor|].
    by apply del_NoDup. }
  unfold get_from_cache. cbn [entries cache_hits cache_misses].
  rewrite lookup_assign. destruct (Z.ltb_spec now (t + ttl)); [lia|].
  cbn [entries cache_hits cache_misses].
  split; [reflexivity|]. split; [|done].
  by apply lookup_del, assign_NoDup.
Qed.

(** X3: evicting removes exactly one entry, one whose expiry no other
    entry undercuts, and leaves every other entry in place. *)
Theorem evict_oldest_least_expiry es :
  es <> [] -> NoDup (map fst es) ->
  exists k v x,
    lookup k es = Some (v, x)
    /\ (forall k' v' x', lookup k' es = Some (v', x') -> x <= x')
    /\ _evict_oldest es = del k es
    /\ lookup k (_evict_oldest es) = None
    /\ (forall k', k' <> k -> lookup k' (_evict_oldest es) = lookup k' es)
    /\ length (_evict_oldest es) = pred (length es).
Proof.
  intros Hne Hnd. destruct es as [|[k0 [v0 x0]] es']; [done|].
  unfold _evict_oldest.
  destruct (oldest_spec (k0, x0) es') as (x & Hwhere & Hle & Hall).
  set (k := oldest (k0, x0) es') in *.
  assert (Hfound : exists v, (k, (v, x)) ∈ (k0, (v0, x0)) :: es').
  { destruct Hwhere as [[= -> ->]|[v Hin]].
    - exists v0. apply list_elem_of_here.
    - exists v. by apply list_elem_of_further. }
  destruct Hfound as [v Hin].
  exists k, v, x. split; [by apply elem_lookup|]. split; [|split; [reflexivity|split; [|split]]].
  - intros k' v' x' Hl. apply lookup_Some_elem in Hl.
    apply elem_of_cons in Hl as [[= -> -> ->]|Hl]; [simpl in Hle; lia | by eapply Hall].
  - by apply lookup_del.
  - intros k' Hk'. by apply lookup_del_ne.
  - apply length_del. by apply (list_elem_of_fmap_2 fst _ (k, (v, x))).
Qed.

(** X4: a cache of distinct keys holding at most MAX_CACHE_SIZE entries
    still does after a write. *)
Theorem cache_size_bounded (t ttl : Z) (key : string) (v : V) st :
  NoDup (map fst (entries st)) ->
  (length (entries st) <= MAX_CACHE_SIZE)%nat ->
  NoDup (map fst (entries (set_in_cache t key v ttl st)))
  /\ (length (entries (set_in_cache t key v ttl st)) <= MAX_CACHE_SIZE)%nat.
Proof.
  intros Hnd Hlen. unfold set_in_cache. cbn [entries].
  destruct (Nat.leb_spec MAX_CACHE_SIZE (length (entries st))) as [Hfull|Hroom].
  - destruct (entries st) as [|e0 es'] eqn:Hes; [unfold MAX_CACHE_SIZE in Hfull; simpl in Hfull; lia|].
    destruct (evict_oldest_least_expiry (e0 :: es')) as (k & v' & x & _ & _ & Hev & _ & _ & Hl);
      [done | exact Hnd |].
    split.
    + apply assign_NoDup. rewrite Hev. by apply del_NoDup.
    + pose proof (length_assign key (v, t + ttl) (_evict_oldest (e0 :: es'))) as Ha.
      rewrite Hl in Ha. cbn [length pred] in Ha, Hlen. lia.
  - split; [by apply assign_NoDup|].
    pose proof (length_assign key (v, t + ttl) (entries st)). lia.
Qed.

(** X5: while the cache is not full, a write leaves every other key as it
    was. *)
Theorem cache_write_keeps_other_keys (t ttl : Z) (key k : string) (v : V) st :
  (length (entries st) < MAX_CACHE_SIZE)%nat -> k <> key ->
  lookup k (entries (set_in_cache t key v ttl st)) = lookup k (entries st).
Proof.
  intros Hroom Hne. unfold set_in_cache. cbn [entries].
  destruct (Nat.leb_spec MAX_CACHE_SIZE (length (entries st))); [lia|].
  by apply lookup_assign_ne.
Qed.

End CacheProperties.

Section OcrCacheProperties.

Import cache.

Lemma ocr_lookup_assign (key text : string) (oc : list (string * string)) :
  ocr_lookup key (ocr_assign key text oc) = Some text.
Proof.
  induction oc as [|[k t] oc IH]; simpl.
  - by rewrite String.eqb_refl.
  - destruct (String.eqb_spec k key) as [->|Hne]; simpl.
    + by rewrite String.eqb_refl.
    + destruct (String.eqb_spec k key); [done | exact IH].
Qed.

Lemma ocr_length_assign (key text : string) (oc : list (string * string)) :
  (length (ocr_assign key text oc) <= S (length oc))%nat.
Proof.
  induction oc as [|[k t] oc IH]; simpl; [lia|].
  destruct (String.eqb k key); simpl; lia.
Qed.

(** X6: an OCR text just cached is found again under the same image hash
    and language, and a cache of at most MAX_OCR_CACHE entries still has
    at most that many. *)
Theorem ocr_cache_round_trip (image_hash language text : string) (oc : list (string * string)) :
  get_cached_ocr image_hash language (cache_ocr_result image_hash language text oc) = Some text
  /\ ((length oc <= MAX_OCR_CACHE)%nat ->
      (length (cache_ocr_result image_hash language text oc) <= MAX_OCR_CACHE)%nat).
Proof.
  unfold get_cached_ocr, cache_ocr_result. split; [apply ocr_lookup_assign|].
  intros Hlen.
  destruct (Nat.leb_spec MAX_OCR_CACHE (length oc)) as [Hfull|Hroom].
  - pose proof (ocr_length_assign (get_ocr_cache_key image_hash language) text (tail oc)) as Ha.
    destruct oc as [|e oc']; [unfold MAX_OCR_CACHE in Hfull; simpl in Hfull; lia|].
    simpl in *. lia.
  - pose proof (ocr_length_assign (get_ocr_cache_key image_hash language) text oc). lia.
Qed.

End OcrCacheProperties.


Lemma cache_set_then_get_witness :
  (cache.get_from_cache 5 "k" (cache.set_in_cache 0 "k" 7 900 cache.empty_store)).1 = Some 7.
Proof.
  pose proof (cache_set_then_get 5 0 900 "k" 7 cache.empty_store) as H.
  destruct (cache.get_from_cache 5 "k" _) as [found st']. apply H. lia.
Defined.

Lemma cache_get_expired_witness :
  (cache.get_from_cache 900 "k" (cache.set_in_cache 0 "k" 7 900 cache.empty_store)).1 = None.
Proof.
  pose proof (cache_get_expired 900 0 900 "k" 7 cache.empty_store) as H.
  destruct (cache.get_from_cache 900 "k" _) as [found st']. apply H; [constructor | lia].
Defined.

Lemma evict_oldest_least_expiry_witness :
  exists k v x,
    cache.lookup k [("a", (1, 10)); ("b", (2, 5))] = Some (v, x)
    /\ (forall k' v' x', cache.lookup k' [("a", (1, 10)); ("b", (2, 5))] = Some (v', x') -> x <= x')
    /\ cache._evict_oldest [("a", (1, 10)); ("b", (2, 5))]
       = cache.del k [("a", (1, 10)); ("b", (2, 5))]
    /\ cache.lookup k (cache._evict_oldest [("a", (1, 10)); ("b", (2, 5))]) = None
    /\ (forall k', k' <> k ->
        cache.lookup k' (cache._evict_oldest [("a", (1, 10)); ("b", (2, 5))])
        = cache.lookup k' [("a", (1, 10)); ("b", (2, 5))])
    /\ length (cache._evict_oldest [("a", (1, 10)); ("b", (2, 5))])
       = pred (length [("a", (1, 10)); ("b", (2, 5))]).
Proof.
  apply (evict_oldest_least_expiry [("a", (1, 10)); ("b", (2, 5))]); [done|].
  apply (bool_decide_unpack _). vm_compute. exact I.
Defined.

Lemma cache_size_bounded_witness :
  (length (cache.entries (cache.set_in_cache 0 "k" 7 900 cache.empty_store))
   <= cache.MAX_CACHE_SIZE)%nat.
Proof.
  apply (cache_size_bounded 0 900 "k" 7 cache.empty_store); [constructor|].
  unfold cache.MAX_CACHE_SIZE. simpl. lia.
Defined.

Lemma cache_write_keeps_other_keys_witness :
  cache.lookup "a" (cache.entries (cache.set_in_cache 0 "k" 7 900
                      (cache.set_in_cache 0 "a" 1 900 cache.empty_store)))
  = cache.lookup "a" (cache.entries (cache.set_in_cache 0 "a" 1 900 cache.empty_store)).
Proof.
  apply (cache_write_keeps_other_keys 0 900 "k" "a" 7); [|done].
  unfold cache.MAX_CACHE_SIZE. simpl. lia.
Defined.

(* ===================================================================== *)
(** * Properties: parse_pdf and its cache *)
(* ===================================================================== *)

Section ParsePdf.

Import pdf.
Variable QuizContent : Type.
Variable gen : ExtractionResult -> value -> QuizContent.

(** X7: a document parsed afresh is served from the cache, marked as
    cached, by a second parse of the same path and options that looks
    the cache up less than 1800 seconds after the write, whatever the
    file or the libraries then hold. *)
Theorem parse_pdf_second_call_cached (env env' : Env) (file_path : Path) (opts : options)
    (clock clock' : Clock) (st st' : cache.store (ParsedDocument QuizContent))
    (d : ParsedDocument QuizContent) :
  parse_pdf env QuizContent gen file_path opts clock st = (Ok d, st') ->
  cached (processingInfo d) = false ->
  lookup_time clock' < store_time clock + 1800 ->
  (parse_pdf env' QuizContent gen file_path opts clock' st').1 = Ok (mark_cached QuizContent d).
Proof.
  unfold parse_pdf at 1.
  destruct (cache.get_from_cache (lookup_time clock) _ st) as [[d0|] st1].
  { intros [= <- _]. discriminate. }
  destruct (mbind _ _) as [parsed|]; [|discriminate].
  intros [= -> <-] _ Hfresh.
  unfold parse_pdf, cache.get_from_cache, cache.set_in_cache. cbn [cache.entries].
  rewrite lookup_assign.
  destruct (Z.ltb_spec (lookup_time clock') (store_time clock + 1800)); [|lia].
  reflexivity.
Qed.

(** X8: a parse that fails raises ValueError and adds nothing to the
    cache. *)
Theorem parse_pdf_failure_stores_nothing (env : Env) (file_path : Path) (opts : options)
    (clock : Clock) (st st' : cache.store (ParsedDocument QuizContent)) (e : exn) :
  parse_pdf env QuizContent gen file_path opts clock st = (Raise e, st') ->
  e = ValueError /\ forall x, x ∈ cache.entries st' -> x ∈ cache.entries st.
Proof.
  unfold parse_pdf, cache.get_from_cache.
  destruct (cache.lookup _ (cache.entries st)) as [[d0 x0]|] eqn:Hl.
  - destruct (lookup_time clock <? x0); [discriminate|].
    destruct (mbind _ _); [discriminate|].
    intros [= <- <-]. split; [reflexivity|]. cbn [cache.entries].
    intros x. apply del_elem_subset.
  - destruct (mbind _ _); [discriminate|].
    intros [= <- <-]. by split.
Qed.

End ParsePdf.

Lemma parse_pdf_second_call_cached_witness :
  exists d,
    (pdf.parse_pdf demo.env unit (fun _ _ => tt) demo.path_a ∅ (demo.clock 0)
       cache.empty_store).1 = Ok d
    /\ (pdf.parse_pdf demo.env unit (fun _ _ => tt) demo.path_a ∅ (demo.clock 10)
          after_first_parse).1 = Ok (pdf.mark_cached unit d).
Proof.
  destruct (pdf.parse_pdf demo.env unit (fun _ _ => tt) demo.path_a ∅ (demo.clock 0)
              cache.empty_store) as [r st'] eqn:Hp.
  assert (Hst : after_first_parse = st') by (unfold after_first_parse; by rewrite Hp).
  destruct r as [d|e]; [|by vm_compute in Hp].
  exists d. split; [reflexivity|]. rewrite Hst.
  apply (parse_pdf_second_call_cached unit (fun _ _ => tt) demo.env demo.env demo.path_a ∅
           (demo.clock 0) (demo.clock 10) cache.empty_store st' d Hp).
  - vm_compute in Hp. by injection Hp as <- _.
  - simpl. lia.
Defined.

Lemma parse_pdf_failure_stores_nothing_witness :
  let r := pdf.parse_pdf demo.env unit (fun _ _ => tt) demo.path_missing ∅ (demo.clock 0)
             cache.empty_store in
  r.1 = Raise ValueError
  /\ forall x, x ∈ cache.entries r.2 ->
               x ∈ cache.entries (cache.empty_store (V := pdf.ParsedDocument unit)).
Proof.
  intros r. split; [vm_compute; reflexivity|].
  apply (parse_pdf_failure_stores_nothing unit (fun _ _ => tt) demo.env demo.path_missing ∅
           (demo.clock 0) cache.empty_store r.2 ValueError).
  vm_compute. reflexivity.
Defined.

(* ===================================================================== *)
(** * Properties: word counts, the page cap and the method labels *)
(* ===================================================================== *)

Section WordCounts.

Lemma sum_word_counts_snoc (ps : list PageData) (p : PageData) :
  sum_word_counts (ps ++ [p]) = sum_word_counts ps + wordCount (metadata p).
Proof.
  unfold sum_word_counts. induction ps as [|q ps IH]; simpl; [lia|]. rewrite IH. lia.
Qed.

Lemma tallied_acc0 : tallied acc0.
Proof. split; [reflexivity | constructor]. Qed.

Lemma tallied_push (a : Acc) (page_data : PageData) (text : string) (n : Z) :
  tallied a -> wordCount (metadata page_data) = n -> counts_its_words page_data ->
  tallied (push a page_data text n).
Proof.
  intros [Hsum Hall] Hn Hp. split; simpl.
  - rewrite sum_word_counts_snoc, Hsum, Hn. reflexivity.
  - apply Forall_app. split; [exact Hall | by constructor].
Qed.

(** A loop whose body pushes one page that counts its words. *)
Lemma fold_tallied {A} (f : Acc -> A -> Acc) (xs : list A) (a : Acc) :
  (forall a x, exists page_data text n,
      f a x = push a page_data text n
      /\ wordCount (metadata page_data) = n /\ counts_its_words page_data) ->
  tallied a -> tallied (fold_left f xs a).
Proof.
  intros Hf. revert a. induction xs as [|x xs IH]; intros a Ha; simpl; [exact Ha|].
  destruct (Hf a x) as (pd & text & n & -> & Hn & Hp). by apply IH, tallied_push.
Qed.

Lemma merge_equations_words (eqs : list math_extractor.Equation) (p : PageData) :
  wordCount (metadata (extractor.merge_equations eqs p)) = wordCount (metadata p).
Proof. unfold extractor.merge_equations. by destruct (List.filter _ _). Qed.

Lemma build_response_tallied (rs : list PageData) (a : Acc) :
  Forall counts_its_words rs -> tallied a ->
  tallied (fold_left (fun a page_data =>
                        push a page_data (content page_data) (wordCount (metadata page_data)))
                     rs a).
Proof.
  intros Hrs. revert a. induction Hrs as [|r rs Hr Hrs IH]; intros a Ha; simpl; [exact Ha|].
  by apply IH, tallied_push.
Qed.

Lemma gather_Forall {A} (P : A -> Prop) (tasks : list (res A)) (rs : list A) :
  Forall (fun t => forall r, t = Ok r -> P r) tasks -> gather tasks = Ok rs -> Forall P rs.
Proof.
  intros Ht Hg. apply gather_Forall2 in Hg.
  induction Hg as [|t r ts rs' Htr Hg IH]; [constructor|].
  inversion Ht; subst. constructor; [auto | by apply IH].
Qed.

Lemma ocr_page_counts (env : Env) (text : string) (page_num : Z) :
  counts_its_words (ocr_processor.ocr_page env text page_num).
Proof. reflexivity. Qed.

Variable env : Env.

Lemma text_focused_tallied (file_path : string) (opts : options) (r : ExtractionResult) :
  extractor.extract_text_focused env file_path opts = Ok r ->
  totalWordCount r = sum_word_counts (pages r) /\ Forall counts_its_words (pages r).
Proof.
  unfold extractor.extract_text_focused.
  destruct (pdfplumber_open env file_path) as [pdf_pages|]; [|discriminate].
  destruct (min_max_pages opts _) as [max_pages|]; [|discriminate].
  cbn [mbind res_bind]. intros [= <-]. cbn [extractor.result_of totalWordCount pages].
  apply fold_tallied; [|apply tallied_acc0].
  intros a [i x]. eexists _, _, _. repeat split.
Qed.

Lemma table_focused_tallied (file_path : string) (opts : options) (r : ExtractionResult) :
  extractor.extract_table_focused env file_path opts = Ok r ->
  totalWordCount r = sum_word_counts (pages r) /\ Forall counts_its_words (pages r).
Proof.
  unfold extractor.extract_table_focused.
  destruct (table_extractor.extract_tables_from_pdf env file_path opts) as [all_tables|];
    [|discriminate].
  cbn [mbind res_bind].
  destruct (pdfplumber_open env file_path) as [pdf_pages|]; [|discriminate].
  intros [= <-]. cbn [extractor.result_of totalWordCount pages].
  apply fold_tallied; [|apply tallied_acc0].
  intros a [i x]. eexists _, _, _. repeat split.
Qed.

Lemma math_focused_tallied (file_path : string) (opts : options) (r : ExtractionResult) :
  extractor.extract_math_focused env file_path opts = Ok r ->
  totalWordCount r = sum_word_counts (pages r) /\ Forall counts_its_words (pages r).
Proof.
  unfold extractor.extract_math_focused.
  destruct (fitz_open env file_path) as [doc|]; [|discriminate].
  intros [= <-]. cbn [totalWordCount pages].
  match goal with
  | |- context [fold_left ?f ?l acc0] =>
      destruct (fold_tallied f l acc0) as [Hsum Hall]; [|apply tallied_acc0|]
  end.
  { intros a [i x]. eexists _, _, _. repeat split. }
  split.
  - rewrite Hsum. unfold sum_word_counts. rewrite map_map. f_equal.
    apply map_ext. intros p. by rewrite merge_equations_words.
  - apply Forall_fmap. eapply Forall_impl; [exact Hall|]. intros p Hp.
    unfold counts_its_words. simpl. rewrite merge_equations_words.
    by destruct (merge_equations_content
                   (math_extractor.extract_math_from_pdf env file_path opts) p) as [-> _].
Qed.

Lemma build_response_counts (rs : list PageData) :
  Forall counts_its_words rs ->
  totalWordCount (ocr_processor.build_response rs)
  = sum_word_counts (pages (ocr_processor.build_response rs))
  /\ Forall counts_its_words (pages (ocr_processor.build_response rs)).
Proof.
  intros Hrs. unfold ocr_processor.build_response. cbn [totalWordCount pages].
  by apply build_response_tallied, tallied_acc0.
Qed.

Lemma process_with_fitz_tallied (file_path : string) (opts : options) (r : ExtractionResult) :
  ocr_processor._process_with_fitz env file_path opts = Ok r ->
  totalWordCount r = sum_word_counts (pages r) /\ Forall counts_its_words (pages r).
Proof.
  unfold ocr_processor._process_with_fitz.
  destruct (fitz_installed env); [|discriminate].
  destruct (fitz_open env file_path) as [doc|]; [|discriminate].
  destruct (min_max_pages opts _) as [max_pages|]; [|discriminate].
  cbn [mbind res_bind].
  destruct (for_each _ _ _) as [page_images|]; [|discriminate].
  cbn [mbind res_bind]. rewrite run_batches_gather.
  destruct (gather _) as [rs|] eqn:Hg; [|discriminate].
  cbn [mbind res_bind]. intros [= <-]. apply build_response_counts.
  eapply gather_Forall; [|exact Hg].
  apply Forall_fmap, Forall_forall. intros [page_num img] _ r0. simpl.
  unfold ocr_processor._process_page_data. intros [= <-]. apply ocr_page_counts.
Qed.

Lemma process_pdf_with_ocr_tallied (file_path : string) (opts : options)
    (r : ExtractionResult) :
  ocr_processor.process_pdf_with_ocr env file_path opts = Ok r ->
  totalWordCount r = sum_word_counts (pages r) /\ Forall counts_its_words (pages r).
Proof.
  unfold ocr_processor.process_pdf_with_ocr.
  destruct (negb (ensure_tmp_space env 100)); [discriminate|].
  destruct (convert_from_path env) as [convert|]; [|apply process_with_fitz_tallied].
  destruct (convert file_path _) as [images|]; cbn [mbind res_bind try_except];
    [|apply process_with_fitz_tallied].
  rewrite run_batches_gather.
  destruct (gather _) as [rs|] eqn:Hg; cbn [mbind res_bind try_except];
    [|apply process_with_fitz_tallied].
  intros [= <-]. apply build_response_counts.
  eapply gather_Forall; [|exact Hg].
  apply Forall_fmap, Forall_forall. intros [page_num img] _ r0. simpl.
  unfold ocr_processor._process_page_image.
  destruct (save_png env img); cbn [mbind res_bind]; [|discriminate].
  intros [= <-]. apply ocr_page_counts.
Qed.

(** The second loop of extract_hybrid keeps an invariant of the
    accumulator that every page it pushes establishes. *)
Lemma hybrid_loop (P : PageData -> Prop) (file_path : string) (opts : options)
    (r : ExtractionResult) :
  (forall (pd : extractor.HybridPage) (text : string) (imgs : option (list ImageInfo))
          (has_images : bool),
      extractor._has_math_content text = false ->
      P {| pageNumber := extractor.hp_page_num pd + 1;
           content := text;
           metadata := {| wordCount := word_count text; characterCount := Py.len text;
                          paragraphCount := None;
                          textDensity := Some (extractor.hp_text_density pd);
                          hasImages := Some has_images;
                          hasTables := Some false;
                          ocrApplied := Some (extractor.hp_needs_ocr pd);
                          ocrMethod := None; hasEquations := None;
                          estimatedReadingTime := word_count text / 200 |};
           elements := {| tables := None; images := imgs; equations := None |} |}) ->
  extractor.extract_hybrid env file_path opts = Ok r ->
  Forall P (pages r) /\ totalWordCount r = sum_word_counts (pages r)
  /\ exists pages_data, extractor.hybrid_first_pass env file_path opts = Ok pages_data
                        /\ length (pages r) = length pages_data.
Proof.
  intros HP. unfold extractor.extract_hybrid.
  destruct (extractor.hybrid_first_pass env file_path opts) as [pages_data|] eqn:Hfirst;
    [|discriminate].
  cbn [mbind res_bind].
  destruct (for_each _ pages_data acc0) as [a|] eqn:Hloop; [|discriminate].
  cbn [mbind res_bind]. intros [= <-]. cbn [extractor.result_of pages totalWordCount].
  apply (for_each_positions _
           (fun i a => Forall P (acc_pages a)
                       /\ acc_total_word_count a = sum_word_counts (acc_pages a)
                       /\ length (acc_pages a) = i)
           (fun _ _ => True) _ 0%nat) in Hloop.
  - destruct Hloop as (H1 & H2 & H3). repeat split; [exact H1 | exact H2|].
    exists pages_data. split; [reflexivity | exact H3].
  - intros a0 i pd a' (Hall & Hsum & Hlen) _.
    destruct (if truthy (extractor.hp_needs_ocr pd) then _ else _) as [text|];
      cbn [mbind res_bind]; [|discriminate].
    destruct (extractor._has_math_content text) eqn:Hmath; [discriminate|].
    intros [= <-]. repeat split.
    + cbn [push acc_pages]. apply Forall_app. split; [exact Hall|]. constructor; [|constructor].
      by apply HP.
    + cbn [push acc_pages acc_total_word_count]. rewrite sum_word_counts_snoc, Hsum.
      reflexivity.
    + rewrite push_length. lia.
  - done.
  - repeat split. constructor.
Qed.

Lemma hybrid_tallied (file_path : string) (opts : options) (r : ExtractionResult) :
  extractor.extract_hybrid env file_path opts = Ok r ->
  totalWordCount r = sum_word_counts (pages r) /\ Forall counts_its_words (pages r).
Proof.
  intros Hr. destruct (hybrid_loop counts_its_words _ _ _ (fun _ _ _ _ _ => eq_refl) Hr)
    as (Hall & Hsum & _).
  by split.
Qed.

(** X9: whatever the strategy, the total word count of a returned result
    is the sum of the word counts of its pages, and each page's word
    count is the number of whitespace-separated words of its content. *)
Theorem total_word_count_is_sum (file_path strategy : string) (opts : options)
    (r : ExtractionResult) :
  extractor.extract_with_strategy env file_path strategy opts = Ok r ->
  totalWordCount r = sum_word_counts (pages r)
  /\ Forall (fun p => wordCount (metadata p) = word_count (content p)) (pages r).
Proof.
  unfold extractor.extract_with_strategy, extractor.extract_ocr_heavy.
  repeat case_match; intros Hr.
  all: first [ exact (text_focused_tallied _ _ _ Hr)
             | exact (process_pdf_with_ocr_tallied _ _ _ Hr)
             | exact (hybrid_tallied _ _ _ Hr)
             | exact (table_focused_tallied _ _ _ Hr)
             | exact (math_focused_tallied _ _ _ Hr) ].
Qed.

(** X10: a result of the hybrid strategy has no page with math content:
    on such a page the equation step raises, so that no result of this
    strategy carries an equation. *)
Theorem hybrid_result_has_no_math (file_path : string) (opts : options)
    (r : ExtractionResult) :
  extractor.extract_hybrid env file_path opts = Ok r ->
  Forall math_free (pages r) /\ totalEquations r = None /\ allEquations r = None.
Proof.
  intros Hr. split.
  - by destruct (hybrid_loop math_free _ _ _ (fun _ _ _ _ H => conj H eq_refl) Hr) as [H _].
  - revert Hr. unfold extractor.extract_hybrid.
    destruct (extractor.hybrid_first_pass env file_path opts); [|discriminate].
    cbn [mbind res_bind]. destruct (for_each _ _ _); [|discriminate].
    cbn [mbind res_bind]. by intros [= <-].
Qed.

Lemma hybrid_first_pass_length (file_path : string) (opts : options) (doc : FitzDoc)
    (max_pages : Z) (pages_data : list extractor.HybridPage) :
  fitz_open env file_path = Some doc ->
  min_max_pages opts (Z.of_nat (length (fitz_pages doc))) = Ok max_pages ->
  extractor.hybrid_first_pass env file_path opts = Ok pages_data ->
  length pages_data = length (Py.upto max_pages (fitz_pages doc)).
Proof.
  unfold extractor.hybrid_first_pass. intros -> ->. cbn [mbind res_bind]. intros Hloop.
  apply (for_each_enumerate _ (fun i pds => length pds = i) _ 0%nat) in Hloop;
    [exact Hloop | | reflexivity].
  intros pds i [page_num page] pds' Hlen.
  destruct (if Float.gt _ _ then _ else _) as [d|]; cbn [mbind res_bind]; [|discriminate].
  intros [= <-]. rewrite length_app. simpl. lia.
Qed.

Lemma capped_length {A} (opts : options) (xs : list A) (m max_pages : Z) :
  opts !! "max_pages" = Some (VInt m) ->
  min_max_pages opts (Z.of_nat (length xs)) = Ok max_pages ->
  length (Py.upto max_pages xs) = Z.to_nat (Z.min m (Z.of_nat (length xs))).
Proof.
  unfold min_max_pages, get. intros ->. intros [= <-].
  unfold Py.upto. rewrite length_take. lia.
Qed.

Lemma min_max_pages_int (opts : options) (n m : Z) :
  opts !! "max_pages" = Some (VInt m) -> min_max_pages opts n = Ok (Z.min m n).
Proof. unfold min_max_pages, get. by intros ->. Qed.

(** X11: with an integer max_pages option, the text-focused strategy, the
    hybrid strategy and the OCR pass over PyMuPDF return exactly
    min(max_pages, pages of the document) pages, none for a cap of zero
    or less. *)
Theorem page_cap_respected (file_path : string) (opts : options) (m : Z)
    (r : ExtractionResult) :
  opts !! "max_pages" = Some (VInt m) ->
  (forall pdf_pages,
      pdfplumber_open env file_path = Some pdf_pages ->
      extractor.extract_text_focused env file_path opts = Ok r ->
      length (pages r) = Z.to_nat (Z.min m (Z.of_nat (length pdf_pages))))
  /\ (forall doc,
      fitz_open env file_path = Some doc ->
      extractor.extract_hybrid env file_path opts = Ok r ->
      length (pages r) = Z.to_nat (Z.min m (Z.of_nat (length (fitz_pages doc)))))
  /\ (forall doc,
      fitz_open env file_path = Some doc ->
      ocr_processor._process_with_fitz env file_path opts = Ok r ->
      length (pages r) = Z.to_nat (Z.min m (Z.of_nat (length (fitz_pages doc))))).
Proof.
  intros Hm. repeat split.
  - intros pdf_pages Hopen Hr.
    rewrite (text_focused_page_count env _ _ _ _ _ Hopen (min_max_pages_int _ _ _ Hm) Hr).
    lia.
  - intros doc Hopen Hr.
    destruct (hybrid_loop (fun _ => True) _ _ _ (fun _ _ _ _ _ => I) Hr)
      as (_ & _ & pages_data & Hfirst & ->).
    rewrite (hybrid_first_pass_length _ _ _ _ _ Hopen (min_max_pages_int _ _ _ Hm) Hfirst).
    apply (capped_length opts _ m); [exact Hm | by apply min_max_pages_int].
  - intros doc Hopen. unfold ocr_processor._process_with_fitz.
    destruct (fitz_installed env); [|discriminate].
    rewrite Hopen, (min_max_pages_int _ _ _ Hm). cbn [mbind res_bind].
    destruct (for_each _ _ _) as [page_images|] eqn:Himg; [|discriminate].
    apply fitz_page_images in Himg as [_ Hlen].
    cbn [mbind res_bind]. rewrite run_batches_gather.
    destruct (gather _) as [rs|] eqn:Hg; [|discriminate].
    cbn [mbind res_bind]. intros [= <-].
    unfold ocr_processor.build_response. cbn [pages].
    destruct (build_response_acc rs acc0) as [-> _]. simpl.
    apply gather_Forall2, Forall2_length in Hg.
    rewrite length_map in Hg. rewrite <- Hg, Hlen.
    unfold Py.upto. rewrite length_take. lia.
Qed.

Lemma text_focused_shape (file_path : string) (opts : options) (r : ExtractionResult) :
  extractor.extract_text_focused env file_path opts = Ok r ->
  extractionMethod r = "text_focused" /\ totalTables r = None /\ totalEquations r = None.
Proof.
  unfold extractor.extract_text_focused.
  destruct (pdfplumber_open env file_path); [|discriminate].
  destruct (min_max_pages opts _); [|discriminate].
  cbn [mbind res_bind]. by intros [= <-].
Qed.

Lemma hybrid_shape (file_path : string) (opts : options) (r : ExtractionResult) :
  extractor.extract_hybrid env file_path opts = Ok r ->
  extractionMethod r = "hybrid" /\ totalTables r = None /\ totalEquations r = None.
Proof.
  unfold extractor.extract_hybrid.
  destruct (extractor.hybrid_first_pass env file_path opts); [|discriminate].
  cbn [mbind res_bind]. destruct (for_each _ _ _); [|discriminate].
  cbn [mbind res_bind]. by intros [= <-].
Qed.

Lemma table_focused_shape (file_path : string) (opts : options) (r : ExtractionResult) :
  extractor.extract_table_focused env file_path opts = Ok r ->
  extractionMethod r = "table_focused" /\ is_Some (totalTables r) /\ totalEquations r = None.
Proof.
  unfold extractor.extract_table_focused.
  destruct (table_extractor.extract_tables_from_pdf env file_path opts); [|discriminate].
  cbn [mbind res_bind]. destruct (pdfplumber_open env file_path); [|discriminate].
  intros [= <-]. by repeat split.
Qed.

Lemma math_focused_shape (file_path : string) (opts : options) (r : ExtractionResult) :
  extractor.extract_math_focused env file_path opts = Ok r ->
  extractionMethod r = "math_focused" /\ totalTables r = None /\ is_Some (totalEquations r).
Proof.
  unfold extractor.extract_math_focused.
  destruct (fitz_open env file_path); [|discriminate].
  intros [= <-]. by repeat split.
Qed.

Lemma process_with_fitz_shape (file_path : string) (opts : options) (r : ExtractionResult) :
  ocr_processor._process_with_fitz env file_path opts = Ok r ->
  extractionMethod r = "ocr" /\ totalTables r = None /\ totalEquations r = None.
Proof.
  unfold ocr_processor._process_with_fitz.
  destruct (if fitz_installed env then _ else _); [|discriminate].
  cbn [mbind res_bind]. destruct (ocr_processor.run_batches _); [|discriminate].
  cbn [mbind res_bind]. by intros [= <-].
Qed.

Lemma ocr_heavy_shape (file_path : string) (opts : options) (r : ExtractionResult) :
  extractor.extract_ocr_heavy env file_path opts = Ok r ->
  extractionMethod r = "ocr" /\ totalTables r = None /\ totalEquations r = None.
Proof.
  unfold extractor.extract_ocr_heavy, ocr_processor.process_pdf_with_ocr.
  destruct (negb (ensure_tmp_space env 100)); [discriminate|].
  destruct (convert_from_path env) as [convert|]; [|apply process_with_fitz_shape].
  destruct (convert file_path _); cbn [mbind res_bind try_except];
    [|apply process_with_fitz_shape].
  destruct (ocr_processor.run_batches _); cbn [mbind res_bind try_except];
    [|apply process_with_fitz_shape].
  by intros [= <-].
Qed.

(** X12: the extractionMethod of a returned result is fixed by the
    strategy name: "ocr" for ocr_heavy, "hybrid", "table_focused",
    "math_focused", and "text_focused" for text_focus and for every
    unknown name; a table total is present only for table_focus and an
    equation total only for math_focus. *)
Theorem extraction_method_by_strategy (file_path strategy : string) (opts : options)
    (r : ExtractionResult) :
  extractor.extract_with_strategy env file_path strategy opts = Ok r ->
  extractionMethod r = method_of_strategy strategy
  /\ (is_Some (totalTables r) <-> strategy = "table_focus")
  /\ (is_Some (totalEquations r) <-> strategy = "math_focus").
Proof.
  unfold extractor.extract_with_strategy, method_of_strategy.
  destruct (String.eqb_spec strategy "text_focus") as [->|H1].
  { intros Hr. destruct (text_focused_shape _ _ _ Hr) as (-> & -> & ->).
    repeat split; first [by intros [? [=]] | by intros [=]]. }
  destruct (String.eqb_spec strategy "ocr_heavy") as [->|H2].
  { intros Hr. destruct (ocr_heavy_shape _ _ _ Hr) as (-> & -> & ->).
    repeat split; first [by intros [? [=]] | by intros [=]]. }
  destruct (String.eqb_spec strategy "hybrid") as [->|H3].
  { intros Hr. destruct (hybrid_shape _ _ _ Hr) as (-> & -> & ->).
    repeat split; first [by intros [? [=]] | by intros [=]]. }
  destruct (String.eqb_spec strategy "table_focus") as [->|H4].
  { intros Hr. destruct (table_focused_shape _ _ _ Hr) as (-> & Ht & ->).
    repeat split; first [done | by intros [? [=]] | by intros [=]]. }
  destruct (String.eqb_spec strategy "math_focus") as [->|H5].
  { intros Hr. destruct (math_focused_shape _ _ _ Hr) as (-> & -> & He).
    repeat split; first [done | by intros [? [=]] | by intros [=]]. }
  intros Hr. destruct (text_focused_shape _ _ _ Hr) as (-> & -> & ->).
  repeat split; first [by intros [? [=]] | done].
Qed.

End WordCounts.

Lemma total_word_count_is_sum_witness :
  match extractor.extract_with_strategy demo.env "/tmp/a.pdf" "math_focus" ∅ with
  | Ok r => totalWordCount r = sum_word_counts (pages r)
            /\ Forall (fun p => wordCount (metadata p) = word_count (content p)) (pages r)
  | Raise _ => False
  end.
Proof.
  destruct (extractor.extract_with_strategy demo.env "/tmp/a.pdf" "math_focus" ∅)
    as [r|e] eqn:Hr.
  - exact (total_word_count_is_sum demo.env "/tmp/a.pdf" "math_focus" ∅ r Hr).
  - vm_compute in Hr. discriminate Hr.
Defined.

Lemma hybrid_result_has_no_math_witness :
  match extractor.extract_hybrid demo.env "/tmp/a.pdf" ∅ with
  | Ok r => Forall math_free (pages r) /\ totalEquations r = None /\ allEquations r = None
  | Raise _ => False
  end.
Proof.
  destruct (extractor.extract_hybrid demo.env "/tmp/a.pdf" ∅) as [r|e] eqn:Hr.
  - exact (hybrid_result_has_no_math demo.env "/tmp/a.pdf" ∅ r Hr).
  - vm_compute in Hr. discriminate Hr.
Defined.

Lemma page_cap_respected_witness :
  match extractor.extract_hybrid demo.env "/tmp/a.pdf" demo.max_pages_1 with
  | Ok r => length (pages r) = 1%nat
  | Raise _ => False
  end.
Proof.
  destruct (extractor.extract_hybrid demo.env "/tmp/a.pdf" demo.max_pages_1) as [r|e] eqn:Hr.
  - destruct (page_cap_respected demo.env "/tmp/a.pdf" demo.max_pages_1 1 r) as (_ & H & _).
    + vm_compute. reflexivity.
    + exact (H demo.three_pages eq_refl Hr).
  - vm_compute in Hr. discriminate Hr.
Defined.

Lemma extraction_method_by_strategy_witness :
  match extractor.extract_with_strategy demo.env "/tmp/a.pdf" "ocr_heavy" ∅ with
  | Ok r => extractionMethod r = "ocr"
  | Raise _ => False
  end.
Proof.
  destruct (extractor.extract_with_strategy demo.env "/tmp/a.pdf" "ocr_heavy" ∅)
    as [r|e] eqn:Hr.
  - exact (proj1 (extraction_method_by_strategy demo.env "/tmp/a.pdf" "ocr_heavy" ∅ r Hr)).
  - vm_compute in Hr. discriminate Hr.
Defined.

(* ===================================================================== *)
(** * Properties: the OCR pass *)
(* ===================================================================== *)

Section Ocr.

Variable env : Env.

(** X13: the ocrMethod of an OCR page names the provider that is
    configured first, not the one that produced the text: when a Cloud
    Vision client exists but gives no text for the image (it raises or
    returns the empty string) and Tesseract reads a non-blank text, the
    page holds the Tesseract text, stripped, under ocrMethod
    cloud_vision. *)
Theorem ocr_method_ignores_fallback (img : image) (page_num : Z) (opts : options)
    (f : image -> res string) (g : image -> value -> res string) (s : string) :
  vision_ocr env = Some f ->
  (f img = Ok EmptyString \/ exists e, f img = Raise e) ->
  tesseract env = Some g ->
  g (if truthy (get opts "preprocess" (VBool true)) then preprocess env img else img)
    (get opts "language" (VStr "eng")) = Ok s ->
  Py.strip s <> EmptyString ->
  exists p, ocr_processor._process_page_data env img page_num opts = Ok p
            /\ pageNumber p = page_num
            /\ content p = Py.strip s
            /\ ocrMethod (metadata p) = Some "cloud_vision".
Proof.
  intros Hv Hf Ht Hg Hs. eexists. split; [reflexivity|].
  unfold ocr_processor.ocr_page, ocr_processor._get_ocr_method,
    ocr_processor._process_image_ocr.
  cbn [pageNumber content metadata ocrMethod]. rewrite Hv, Ht, Hg.
  assert (Hnone : ocr_processor.nonempty_result (f img) = None).
  { destruct Hf as [-> | [e ->]]; reflexivity. }
  rewrite Hnone. cbn [mbind res_bind ocr_processor.nonempty_result].
  destruct (String.eqb_spec (Py.strip s) EmptyString) as [Heq|_]; [contradiction|].
  by repeat split.
Qed.

Lemma gather_all_ok {A B} (f : A -> res B) (l : list A) :
  (forall x, exists r, f x = Ok r) -> exists rs, gather (map f l) = Ok rs.
Proof.
  intros Hf. induction l as [|x l [rs IH]]; simpl; [by eexists|].
  destruct (Hf x) as [r ->]. rewrite IH. by eexists.
Qed.

Lemma render_all_ok (xs : list (Z * FitzPage)) (acc : list (Z * image)) :
  Forall (fun p => exists img_data, get_pixmap p.2 = Ok img_data) xs ->
  exists page_images,
    for_each (fun page_images '(page_num, page) =>
                img_data ← get_pixmap page;
                Ok (page_images ++ [(page_num + 1, img_data)])) xs acc = Ok page_images.
Proof.
  intros Hxs. revert acc. induction Hxs as [|[page_num page] xs [img Himg] _ IH]; intros acc.
  - by eexists.
  - simpl in Himg. cbn [for_each]. rewrite Himg. cbn [mbind res_bind]. apply IH.
Qed.

Lemma enumerate_Forall {B} (P : B -> Prop) (start : Z) (xs : list B) :
  Forall P xs -> Forall (fun p => P p.2) (Py.enumerate start xs).
Proof.
  intros Hxs. revert start. induction Hxs as [|x xs Hx _ IH]; intros start; simpl;
    constructor; [exact Hx | apply IH].
Qed.

Lemma process_with_fitz_returns (file_path : string) (opts : options) (doc : FitzDoc) :
  fitz_installed env = true -> fitz_open env file_path = Some doc ->
  (opts !! "max_pages" = None \/ exists m, opts !! "max_pages" = Some (VInt m)) ->
  Forall (fun page => exists img_data, get_pixmap page = Ok img_data) (fitz_pages doc) ->
  exists r, ocr_processor._process_with_fitz env file_path opts = Ok r.
Proof.
  intros Hinst Hopen Hmax Hrender. unfold ocr_processor._process_with_fitz.
  rewrite Hinst, Hopen.
  assert (Hmin : exists mp, min_max_pages opts (Z.of_nat (length (fitz_pages doc))) = Ok mp).
  { unfold min_max_pages, get. destruct Hmax as [-> | [m ->]]; by eexists. }
  destruct Hmin as [mp ->]. cbn [mbind res_bind].
  destruct (render_all_ok (Py.enumerate 0 (Py.upto mp (fitz_pages doc))) []) as [imgs ->].
  { apply (enumerate_Forall (fun page => exists img_data, get_pixmap page = Ok img_data)).
    unfold Py.upto. by apply Forall_take. }
  cbn [mbind res_bind]. rewrite run_batches_gather.
  match goal with
  | |- context [gather (map ?f ?l)] => destruct (gather_all_ok f l) as [rs ->]
  end.
  - intros [page_num img_data]. by eexists.
  - by eexists.
Qed.

(** X14: the OCR-heavy strategy returns a result for every document that
    PyMuPDF opens and whose pages it renders, when there is temporary
    space and max_pages is absent or an integer: whether pdf2image is
    installed or not, converts or fails, and whatever the OCR providers
    do (a provider that fails leaves the page text empty).  Rendering
    is not guarded: without pdf2image and without a cap, a first page
    that fails to render makes the strategy raise that error. *)
Theorem ocr_heavy_returns (file_path : string) (opts : options) (doc : FitzDoc) :
  ensure_tmp_space env 100 = true ->
  fitz_installed env = true -> fitz_open env file_path = Some doc ->
  (opts !! "max_pages" = None \/ exists m, opts !! "max_pages" = Some (VInt m)) ->
  (Forall (fun page => exists img_data, get_pixmap page = Ok img_data) (fitz_pages doc) ->
   exists r, extractor.extract_ocr_heavy env file_path opts = Ok r
             /\ extractionMethod r = "ocr")
  /\ (forall page rest e,
        fitz_pages doc = page :: rest -> get_pixmap page = Raise e ->
        convert_from_path env = None -> opts !! "max_pages" = None ->
        extractor.extract_ocr_heavy env file_path opts = Raise e).
Proof.
  intros Hspace Hinst Hopen Hmax. split.
  - intros Hrender.
    assert (Hr : exists r, extractor.extract_ocr_heavy env file_path opts = Ok r).
    { destruct (process_with_fitz_returns _ _ _ Hinst Hopen Hmax Hrender) as [r Hr].
      unfold extractor.extract_ocr_heavy, ocr_processor.process_pdf_with_ocr.
      rewrite Hspace. cbn [negb].
      destruct (convert_from_path env) as [convert|]; [|by eexists].
      destruct (mbind _ _) as [r'|]; cbn [try_except]; by eexists. }
    destruct Hr as [r Hr]. exists r. split; [exact Hr|].
    by destruct (ocr_heavy_shape env _ _ _ Hr) as [-> _].
  - intros page rest e Hpages Hfail Hnone Hopt.
    unfold extractor.extract_ocr_heavy, ocr_processor.process_pdf_with_ocr,
      ocr_processor._process_with_fitz, min_max_pages, get.
    rewrite Hspace, Hnone, Hinst, Hopen, Hopt, Hpages. cbn [negb mbind res_bind].
    rewrite Z.min_id. unfold Py.upto. rewrite Nat2Z.id, firstn_all.
    cbn [Py.enumerate for_each]. by rewrite Hfail.
Qed.

End Ocr.

Section Batches.

Context {A : Type}.

Lemma batches_lookup (tasks : list A) (i : nat) (b : list A) :
  ocr_processor.batches tasks !! i = Some b ->
  (i < (length tasks + 4) / 5)%nat /\ b = take 5 (drop (5 * i) tasks).
Proof.
  unfold ocr_processor.batches, Py.seq_step. rewrite !list_lookup_fmap.
  destruct (seq 0 ((length tasks + 4) / 5) !! i) as [k|] eqn:Hk; [|discriminate].
  apply lookup_seq in Hk as [-> Hlt]. simpl. intros [= <-]. by split.
Qed.

(** X15: the OCR tasks are processed in consecutive batches that
    partition them: the batches, one after the other, are the tasks;
    every batch holds between one and five tasks; every batch but the
    last holds exactly five. *)
Theorem ocr_batches_partition (tasks : list A) :
  List.concat (ocr_processor.batches tasks) = tasks
  /\ length (ocr_processor.batches tasks) = ((length tasks + 4) / 5)%nat
  /\ (forall i b, ocr_processor.batches tasks !! i = Some b ->
        (1 <= length b <= 5)%nat
        /\ ((S i < length (ocr_processor.batches tasks))%nat -> length b = 5%nat)).
Proof.
  assert (Hlen : length (ocr_processor.batches tasks) = ((length tasks + 4) / 5)%nat).
  { unfold ocr_processor.batches, Py.seq_step. by rewrite !length_map, length_seq. }
  split; [apply batches_concat|]. split; [exact Hlen|].
  intros i b Hb. rewrite Hlen. apply batches_lookup in Hb as [Hi ->].
  rewrite length_take, length_drop.
  pose proof (Nat.div_mod_eq (length tasks + 4) 5) as Hd.
  pose proof (Nat.mod_upper_bound (length tasks + 4) 5).
  split; lia.
Qed.

End Batches.

Lemma ocr_method_ignores_fallback_witness :
  exists p, ocr_processor._process_page_data vision_down "scan" 1 ∅ = Ok p
            /\ pageNumber p = 1
            /\ content p = "ocr of scan"
            /\ ocrMethod (metadata p) = Some "cloud_vision".
Proof.
  apply (ocr_method_ignores_fallback vision_down "scan" 1 ∅
           (fun _ => Raise LibraryError) (fun img _ => Ok ("ocr of " +:+ img)) "ocr of scan").
  - reflexivity.
  - right. by exists LibraryError.
  - reflexivity.
  - vm_compute. reflexivity.
  - vm_compute. discriminate.
Defined.

Lemma ocr_heavy_returns_witness :
  (exists r, extractor.extract_ocr_heavy vision_down "/tmp/a.pdf" ∅ = Ok r
             /\ extractionMethod r = "ocr")
  /\ extractor.extract_ocr_heavy (with_fitz unrenderable) "/tmp/a.pdf" ∅ = Raise LibraryError.
Proof.
  assert (Hnone : (∅ : options) !! "max_pages" = None) by apply lookup_empty.
  split.
  - apply (proj1 (ocr_heavy_returns vision_down "/tmp/a.pdf" ∅ demo.three_pages
                    eq_refl eq_refl eq_refl (or_introl Hnone))).
    repeat constructor; by eexists.
  - apply (proj2 (ocr_heavy_returns (with_fitz unrenderable) "/tmp/a.pdf" ∅ unrenderable
                    eq_refl eq_refl eq_refl (or_introl Hnone))
             _ [] LibraryError eq_refl eq_refl eq_refl Hnone).
Defined.

(* ===================================================================== *)
(** * Properties: the table extractor *)
(* ===================================================================== *)

Section TableStructure.

Import table_extractor.
Variable env : Env.

Lemma cleaning_fold (raw_table : RawTable) (acc : list (list string)) :
  fold_left (fun cleaned row =>
               match row with
               | [] => cleaned
               | _ => let cleaned_row := map clean_cell row in
                      if existsb nonempty cleaned_row then cleaned ++ [cleaned_row] else cleaned
               end) raw_table acc
  = acc ++ kept_rows raw_table.
Proof.
  revert acc. induction raw_table as [|row raw IH]; intros acc; simpl.
  - by rewrite app_nil_r.
  - rewrite IH. unfold kept_rows. cbn [map List.filter].
    destruct row as [|c row]; [reflexivity|].
    destruct (existsb nonempty (map clean_cell (c :: row))); [|reflexivity].
    by rewrite <- app_assoc.
Qed.

Lemma kept_rows_nil (raw_table : RawTable) :
  kept_rows raw_table = [] <-> Forall (Forall blank_cell) raw_table.
Proof.
  unfold kept_rows. induction raw_table as [|row raw IH]; cbn [map List.filter].
  - split; [constructor | reflexivity].
  - destruct (existsb nonempty (map clean_cell row)) eqn:Hrow.
    + split; [discriminate|]. intros H. inversion H as [|? ? Hblank _]; subst. exfalso.
      apply existsb_exists in Hrow as (s & Hin & Hs).
      apply in_map_iff in Hin as (c & <- & Hin).
      rewrite Forall_forall in Hblank. apply list_elem_of_In, Hblank in Hin.
      unfold blank_cell in Hin. by rewrite Hin in Hs.
    + rewrite IH. split; [|by inversion 1]. intros H. constructor; [|exact H].
      apply Forall_forall. intros c Hc. unfold blank_cell.
      destruct (String.eqb_spec (clean_cell c) EmptyString) as [Heq|Hne]; [exact Heq|].
      exfalso. apply not_true_iff_false in Hrow. apply Hrow, existsb_exists.
      exists (clean_cell c). split; [apply in_map, list_elem_of_In, Hc|].
      unfold nonempty. by destruct (String.eqb_spec (clean_cell c) EmptyString).
Qed.

Lemma process_table_cleaned (raw_table : RawTable) (page_num table_idx : Z) :
  _process_table env raw_table page_num table_idx
  = match kept_rows raw_table with
    | [] => None
    | first :: rest =>
        let '(headers, data_rows) :=
          if _is_header_row env first then (first, rest) else ([], first :: rest) in
        Some {| id := "page" +:+ Py.str_int page_num +:+ "_table" +:+ Py.str_int table_idx;
                page_number := page_num;
                headers := headers;
                rows := data_rows;
                num_rows := len data_rows;
                num_cols := match headers with
                            | [] => match data_rows with [] => 0 | r :: _ => len r end
                            | _ => len headers
                            end;
                representations := {| markdown := _to_markdown headers data_rows;
                                      csv := _to_csv headers data_rows;
                                      html := _to_html headers data_rows |};
                analysis := _analyze_table env headers data_rows |}
    end.
Proof.
  unfold _process_table. destruct raw_table as [|row raw]; [reflexivity|].
  rewrite cleaning_fold. cbn [app]. by destruct (kept_rows (row :: raw)).
Qed.

(** X16: a raw table is dropped exactly when it has no non-blank cell:
    _process_table returns None if and only if every cell of every row
    is None, empty or whitespace (an empty table and a table of empty
    rows included). *)
Theorem process_table_none_iff_blank (raw_table : RawTable) (page_num table_idx : Z) :
  _process_table env raw_table page_num table_idx = None
  <-> Forall (Forall blank_cell) raw_table.
Proof.
  rewrite process_table_cleaned, <- kept_rows_nil.
  destruct (kept_rows raw_table) as [|first rest]; [done|].
  destruct (_is_header_row env first); split; discriminate.
Qed.

Lemma count_if_bound {B} (p : B -> bool) (l : list B) : 0 <= count_if p l <= len l.
Proof.
  unfold count_if, len. pose proof (length_filter (fun x => Is_true (p x)) l). split; lia.
Qed.

Lemma count_if_Forall {B} (p : B -> bool) (l : list B) :
  Forall (fun x => p x = true) l -> count_if p l = len l.
Proof.
  unfold count_if, len. induction 1 as [|x l Hx _ IH]; [reflexivity|].
  rewrite filter_cons_True by (by apply Is_true_eq_left). simpl. lia.
Qed.

Lemma header_row_has_text (row : list string) :
  _is_header_row env row = true ->
  row <> [] /\ exists cell, cell ∈ row /\ _is_numeric env cell = false.
Proof.
  unfold _is_header_row. destruct row as [|c row]; [discriminate|].
  destruct (_ <? _); [discriminate|]. intros Hlt. split; [discriminate|].
  apply Z.ltb_lt in Hlt.
  destruct (decide (Forall (fun x => _is_numeric env x = true) (c :: row))) as [Hall|Hnot].
  - exfalso. rewrite (count_if_Forall _ _ Hall) in Hlt. lia.
  - apply not_Forall_Exists in Hnot; [|apply _].
    apply Exists_exists in Hnot. destruct Hnot as (x & Hx & Hn).
    exists x. split; [exact Hx|]. simpl in Hn. by destruct (_is_numeric env x).
Qed.

(** The column loop of _analyze_table. *)
Lemma analyze_fold (numeric : Z -> bool) (cols : list Z) (a : Analysis) :
  let a' := fold_left (fun a col_idx =>
              if numeric col_idx
              then {| data_types := data_types a ++ ["numeric"]; has_numeric := true;
                      row_count := row_count a; col_count := col_count a |}
              else {| data_types := data_types a ++ ["text"]; has_numeric := has_numeric a;
                      row_count := row_count a; col_count := col_count a |}) cols a in
  data_types a'
  = data_types a ++ map (fun c => if numeric c then "numeric" else "text") cols
  /\ has_numeric a' = has_numeric a || existsb numeric cols
  /\ row_count a' = row_count a /\ col_count a' = col_count a.
Proof.
  revert a. induction cols as [|c cols IH]; intros a; simpl.
  - by rewrite app_nil_r, orb_false_r.
  - destruct (IH (if numeric c
                  then {| data_types := data_types a ++ ["numeric"]; has_numeric := true;
                          row_count := row_count a; col_count := col_count a |}
                  else {| data_types := data_types a ++ ["text"];
                          has_numeric := has_numeric a;
                          row_count := row_count a; col_count := col_count a |}))
      as (-> & -> & -> & ->).
    destruct (numeric c); simpl; rewrite <- app_assoc; repeat split.
    by rewrite orb_true_r.
Qed.

Lemma analyze_table_rows (headers : list string) (r : list string)
    (rows : list (list string)) :
  let a := _analyze_table env headers (r :: rows) in
  let cols := Py.range 0 (column_count headers (r :: rows)) in
  data_types a
  = map (fun c => if numeric_column env (r :: rows) c then "numeric" else "text") cols
  /\ has_numeric a = existsb (numeric_column env (r :: rows)) cols
  /\ row_count a = len (r :: rows)
  /\ col_count a = column_count headers (r :: rows).
Proof.
  exact (analyze_fold (numeric_column env (r :: rows))
           (Py.range 0 (column_count headers (r :: rows)))
           {| data_types := []; has_numeric := false; row_count := len (r :: rows);
              col_count := column_count headers (r :: rows) |}).
Qed.

Lemma analyze_table_counts (headers : list string) (rows : list (list string)) :
  row_count (_analyze_table env headers rows) = len rows
  /\ col_count (_analyze_table env headers rows) = column_count headers rows.
Proof.
  destruct rows as [|r rows]; [by split|].
  by destruct (analyze_table_rows headers r rows) as (_ & _ & -> & ->).
Qed.

(** X17: a processed table holds, with the header row first when one was
    detected, exactly the rows of the raw table that have a non-blank
    cell, in order and with every cell cleaned; a detected header row
    has a cell that is not numeric; the table carries the page number
    and the identifier page<p>_table<i> it was given, and its row and
    column counts are those of its rows and of its analysis. *)
Theorem process_table_structure (raw_table : RawTable) (page_num table_idx : Z) (t : Table) :
  _process_table env raw_table page_num table_idx = Some t ->
  table_lines t = kept_rows raw_table
  /\ (headers t <> [] -> exists cell, cell ∈ headers t /\ _is_numeric env cell = false)
  /\ page_number t = page_num
  /\ id t = "page" +:+ Py.str_int page_num +:+ "_table" +:+ Py.str_int table_idx
  /\ num_rows t = len (rows t)
  /\ row_count (analysis t) = num_rows t
  /\ col_count (analysis t) = num_cols t.
Proof.
  rewrite process_table_cleaned.
  destruct (kept_rows raw_table) as [|first rest]; [discriminate|].
  destruct (_is_header_row env first) eqn:Hh; intros Ht; apply (inj Some) in Ht; subst t;
    unfold table_lines; cbn [headers rows page_number id num_rows num_cols analysis].
  - destruct (header_row_has_text _ Hh) as [Hne Hcell].
    destruct (analyze_table_counts first rest) as [-> ->].
    destruct first as [|c first]; [done|]. by repeat split.
  - destruct (analyze_table_counts [] (first :: rest)) as [-> ->]. by repeat split.
Qed.

(** X18: the analysis of a table with rows has one data type per column,
    each numeric or text, and has_numeric holds exactly when some column
    is numeric; a table without rows has no data type and no numeric
    column. *)
Theorem analyze_table_types (headers : list string) (rows : list (list string)) :
  let a := _analyze_table env headers rows in
  (rows <> [] -> len (data_types a) = col_count a)
  /\ (rows = [] -> data_types a = [] /\ has_numeric a = false)
  /\ Forall (fun ty => ty = "numeric" \/ ty = "text") (data_types a)
  /\ (has_numeric a = true <-> "numeric" ∈ data_types a).
Proof.
  destruct rows as [|r rows].
  { cbn. repeat split; try done; try constructor.
    intros H. by apply elem_of_nil in H. }
  cbv zeta. destruct (analyze_table_rows headers r rows) as (-> & -> & _ & ->).
  set (numeric := numeric_column env (r :: rows)).
  repeat split.
  - intros _. unfold len. rewrite length_map. unfold Py.range. rewrite length_map, length_seq.
    unfold column_count. destruct headers; unfold len; lia.
  - discriminate.
  - discriminate.
  - apply Forall_fmap, Forall_forall. intros c _. simpl. destruct (numeric c); auto.
  - intros Hex. apply existsb_exists in Hex as (c & Hin & Hc).
    apply list_elem_of_fmap. exists c. rewrite Hc. split; [reflexivity|].
    by apply list_elem_of_In.
  - intros Hin. apply list_elem_of_fmap in Hin as (c & Hc & Hin).
    apply existsb_exists. exists c. split; [by apply list_elem_of_In|].
    by destruct (numeric c).
Qed.

End TableStructure.

Section TablePages.

Import table_extractor.
Variable env : Env.

Lemma process_table_page (raw_table : RawTable) (page_num table_idx : Z) (t : Table) :
  _process_table env raw_table page_num table_idx = Some t -> page_number t = page_num.
Proof.
  rewrite process_table_cleaned.
  destruct (kept_rows raw_table) as [|first rest]; [discriminate|].
  destruct (_is_header_row env first); intros Ht; apply (inj Some) in Ht; by subst t.
Qed.

Lemma tables_of_page (P : Table -> Prop) (page_num : Z) (raws : list (Z * RawTable))
    (acc : list Table) :
  (forall raw i t, _process_table env raw page_num i = Some t -> P t) ->
  Forall P acc ->
  Forall P (fold_left (fun tables '(table_idx, raw_table) =>
                         match _process_table env raw_table page_num table_idx with
                         | Some processed => tables ++ [processed]
                         | None => tables
                         end) raws acc).
Proof.
  intros HP. revert acc. induction raws as [|[i raw] raws IH]; intros acc Hacc; simpl;
    [exact Hacc|].
  apply IH. destruct (_process_table env raw page_num i) as [t|] eqn:Ht; [|exact Hacc].
  apply Forall_app. split; [exact Hacc|]. constructor; [by eapply HP | constructor].
Qed.

Lemma tables_of_pages (lo hi : Z) (pages : list PlumberPage) (start : Z) (acc : list Table) :
  lo <= start -> start + len pages <= hi + 1 ->
  Forall (fun t => lo <= page_number t <= hi) acc ->
  Forall (fun t => lo <= page_number t <= hi)
    (fold_left (fun tables '(page_num, page) =>
                  fold_left (fun tables '(table_idx, raw_table) =>
                               match _process_table env raw_table page_num table_idx with
                               | Some processed => tables ++ [processed]
                               | None => tables
                               end) (Py.enumerate 0 (extract_tables page)) tables)
               (Py.enumerate start pages) acc).
Proof.
  revert start acc. induction pages as [|page pages IH]; intros start acc Hlo Hhi Hacc; simpl;
    [exact Hacc|].
  unfold len in Hhi. simpl in Hhi. apply IH; [lia | unfold len; lia|].
  apply tables_of_page; [|exact Hacc].
  intros raw i t Ht. rewrite (process_table_page _ _ _ _ Ht). lia.
Qed.

Lemma select_pages_length (pages : list PlumberPage) (wanted : list value)
    (ps : list PlumberPage) :
  select_pages pages wanted = Ok ps -> (length ps <= length wanted)%nat.
Proof.
  revert ps. induction wanted as [|w wanted IH]; intros ps; simpl.
  - intros [= <-]. simpl. lia.
  - destruct w as [|b|i|s|l]; try discriminate;
      (destruct (select_pages pages wanted) as [ps'|]; cbn [mbind res_bind]; [|discriminate]);
      specialize (IH ps' eq_refl); intros [= <-]; repeat case_match; simpl; lia.
Qed.

(** X19: the page number of an extracted table is the position of its
    page among the pages processed, counted from 1: by default it lies
    between 1 and the number of pages of the document; when the pages
    option is a list it lies between 1 and the length of that list, so
    that with a single requested page every table is numbered page 1,
    whichever page was asked for. *)
Theorem extract_tables_page_numbers (file_path : string) (opts : options)
    (pdf_pages : list PlumberPage) (ts : list Table) :
  pdfplumber_open env file_path = Some pdf_pages ->
  extract_tables_from_pdf env file_path opts = Ok ts ->
  (opts !! "pages" = None -> Forall (fun t => 1 <= page_number t <= len pdf_pages) ts)
  /\ (forall wanted, opts !! "pages" = Some (VList wanted) ->
        Forall (fun t => 1 <= page_number t <= len wanted) ts)
  /\ (forall i, opts !! "pages" = Some (VList [VInt i]) ->
        Forall (fun t => page_number t = 1) ts).
Proof.
  intros Hopen. unfold extract_tables_from_pdf, get. rewrite Hopen. intros Hts.
  assert (Hlist : forall wanted, opts !! "pages" = Some (VList wanted) ->
            Forall (fun t => 1 <= page_number t <= len wanted) ts).
  { intros wanted Hw. rewrite Hw in Hts.
    destruct (select_pages pdf_pages wanted) as [ps|] eqn:Hsel; [|discriminate].
    cbn [mbind res_bind] in Hts. injection Hts as <-.
    apply select_pages_length in Hsel.
    apply tables_of_pages; [lia | unfold len; lia | constructor]. }
  split; [|split].
  - intros Hnone. rewrite Hnone in Hts. cbn [mbind res_bind] in Hts. injection Hts as <-.
    apply tables_of_pages; [lia | lia | constructor].
  - exact Hlist.
  - intros i Hi. eapply Forall_impl; [exact (Hlist _ Hi)|].
    intros t. unfold len. simpl. lia.
Qed.

End TablePages.

Lemma process_table_structure_witness :
  match table_extractor._process_table demo.env
          [[Some "Name"; Some "Age"]; [None; Some " "]; [Some "Ann"; Some " 30 "]] 2 0 with
  | Some t => table_lines t = [["Name"; "Age"]; ["Ann"; "30"]]
              /\ table_extractor.id t = "page2_table0"
  | None => False
  end.
Proof.
  destruct (table_extractor._process_table demo.env
              [[Some "Name"; Some "Age"]; [None; Some " "]; [Some "Ann"; Some " 30 "]] 2 0)
    as [t|] eqn:Ht.
  - destruct (process_table_structure demo.env _ 2 0 t Ht) as (H1 & _ & _ & H4 & _). split.
    + rewrite H1. vm_compute. reflexivity.
    + rewrite H4. vm_compute. reflexivity.
  - vm_compute in Ht. discriminate Ht.
Defined.

Lemma extract_tables_page_numbers_witness :
  match table_extractor.extract_tables_from_pdf demo.env "/tmp/a.pdf"
          {[ "pages" := VList [VInt 2] ]} with
  | Ok ts => ts <> [] /\ Forall (fun t => table_extractor.page_number t = 1) ts
  | Raise _ => False
  end.
Proof.
  destruct (table_extractor.extract_tables_from_pdf demo.env "/tmp/a.pdf"
              {[ "pages" := VList [VInt 2] ]}) as [ts|e] eqn:Hts.
  - split.
    + vm_compute in Hts. injection Hts as <-. discriminate.
    + destruct (extract_tables_page_numbers demo.env "/tmp/a.pdf" _ demo.plumber_three ts
                  eq_refl Hts) as (_ & _ & H).
      apply (H 2). vm_compute. reflexivity.
  - vm_compute in Hts. discriminate Hts.
Defined.

(* ===================================================================== *)
(** * Properties: the equations of a page and of a document *)
(* ===================================================================== *)

Section EquationShape.

Import math_extractor.
Variable env : Env.

Lemma fold_left_invariant {S B} (P : S -> Prop) (Q : B -> Prop) (f : S -> B -> S)
    (l : list B) (s : S) :
  Forall Q l -> (forall s x, Q x -> P s -> P (f s x)) -> P s -> P (fold_left f l s).
Proof.
  intros Hl Hf. revert s. induction Hl as [|x l Hx _ IH]; intros s Hs; simpl; [exact Hs|].
  by apply IH, Hf.
Qed.

Lemma convert_to_latex_shape (text ty : string) :
  (ty = "display" \/ ty = "inline" -> _convert_to_latex env text ty = text)
  /\ (ty = "simple" \/ ty = "structural" ->
      Py.startswith "$" (_convert_to_latex env text ty) = true).
Proof.
  unfold _convert_to_latex. split.
  - by intros [-> | ->].
  - intros [-> | ->]; cbn [String.eqb Ascii.eqb Bool.eqb orb].
    all: match goal with
         | |- context [negb (Py.startswith "$" ?l)] =>
             destruct (Py.startswith "$" l) eqn:Hs; cbn [negb]; [exact Hs|]
         end.
    all: by destruct (_ <? _).
Qed.

(** The loop state of extract_equations_from_page: [eq_id] is the number
    of equations collected, which are numbered in order and well formed. *)
Lemma append_equation_invariant (page_num : Z) (st : list Equation * Z) (ty text : string) :
  ty ∈ ["display"; "inline"; "simple"; "structural"] ->
  (st.2 = Z.of_nat (length st.1)
   /\ map id st.1 = map (equation_id page_num) (seq 0 (length st.1))
   /\ Forall (well_formed page_num) st.1) ->
  let st' := append_equation env st page_num ty text in
  st'.2 = Z.of_nat (length st'.1)
  /\ map id st'.1 = map (equation_id page_num) (seq 0 (length st'.1))
  /\ Forall (well_formed page_num) st'.1.
Proof.
  destruct st as [eqs eq_id]. cbn [fst snd append_equation]. intros Hty (-> & Hids & Hwf).
  repeat split.
  - rewrite length_app. simpl. lia.
  - rewrite length_app, Nat.add_1_r, seq_S, !map_app, Hids. reflexivity.
  - apply Forall_app. split; [exact Hwf|]. constructor; [|constructor].
    destruct (convert_to_latex_shape text ty) as [H1 H2]. by repeat split.
Qed.

Lemma equations_invariant (page : FitzPage) (page_num : Z) :
  let st := block_pass env (get_text_dict page) page_num
              (pattern_pass env (get_text page) page_num ([], 0)) in
  st.2 = Z.of_nat (length st.1)
  /\ map id st.1 = map (equation_id page_num) (seq 0 (length st.1))
  /\ Forall (well_formed page_num) st.1.
Proof.
  cbv zeta.
  set (Inv := fun st : list Equation * Z =>
                st.2 = Z.of_nat (length st.1)
                /\ map id st.1 = map (equation_id page_num) (seq 0 (length st.1))
                /\ Forall (well_formed page_num) st.1).
  assert (H1 : Inv (pattern_pass env (get_text page) page_num ([], 0))).
  { unfold pattern_pass.
    apply (fold_left_invariant Inv
             (fun p : string * string => p.2 ∈ ["display"; "inline"; "simple"; "structural"])).
    - unfold patterns. repeat constructor; cbn [snd]; set_solver.
    - intros st [pattern ty] Hty Hst.
      apply (fold_left_invariant Inv (fun _ => True)); [by apply Forall_true | | exact Hst].
      intros st0 group1 _ Hst0. destruct (_ && _); [|exact Hst0].
      by apply append_equation_invariant.
    - repeat split. constructor. }
  unfold block_pass.
  apply (fold_left_invariant Inv (fun _ => True)); [by apply Forall_true | | exact H1].
  intros st block _ Hst. destruct (block_type block =? 0); [|exact Hst].
  destruct (_ && _); [|exact Hst].
  apply append_equation_invariant; [set_solver | exact Hst].
Qed.

(** X20: the equations extracted from a page are numbered in the order
    found, page<p>_eq0, page<p>_eq1, ..., each carries the page number
    and one of the types display, inline, simple or structural; the
    LaTeX of a display or inline equation is its raw text, and the
    LaTeX of a simple or structural equation begins with a dollar sign,
    whatever the regular-expression substitutions produce. *)
Theorem equations_numbered_and_delimited (page : FitzPage) (page_num : Z) :
  let eqs := extract_equations_from_page env page page_num in
  map id eqs = map (equation_id page_num) (seq 0 (length eqs))
  /\ Forall (fun e =>
       page_number e = page_num
       /\ eq_type e ∈ ["display"; "inline"; "simple"; "structural"]
       /\ (eq_type e = "display" \/ eq_type e = "inline" -> latex e = raw_text e)
       /\ (eq_type e = "simple" \/ eq_type e = "structural" ->
           Py.startswith "$" (latex e) = true)) eqs.
Proof.
  unfold extract_equations_from_page. cbv zeta.
  destruct (equations_invariant page page_num) as (_ & Hids & Hwf).
  split; [exact Hids|].
  eapply Forall_impl; [exact Hwf|].
  intros e (Hpage & Hty & Hplain & Hdollar). by repeat split.
Qed.

Lemma math_pages_fold (lo hi : Z) (pages : list FitzPage) (start : Z) (acc : list Equation) :
  lo <= start + 1 -> start + Z.of_nat (length pages) <= hi ->
  Forall (fun e => lo <= page_number e <= hi) acc ->
  Forall (fun e => lo <= page_number e <= hi)
    (fold_left (fun equations '(page_num, page) =>
                  equations ++ extract_equations_from_page env page (page_num + 1))
               (Py.enumerate start pages) acc).
Proof.
  revert start acc. induction pages as [|page pages IH]; intros start acc Hlo Hhi Hacc; simpl;
    [exact Hacc|].
  simpl in Hhi. apply IH; [lia | lia|].
  apply Forall_app. split; [exact Hacc|].
  destruct (equations_invariant page (start + 1)) as (_ & _ & Hwf).
  eapply Forall_impl; [exact Hwf|]. intros e (-> & _). lia.
Qed.

(** X21: every equation of extract_math_from_pdf comes from one of the
    first min(max_pages, page count) pages: its page number lies
    between 1 and that bound, and without a max_pages option between 1
    and the page count. *)
Theorem extract_math_within_cap (file_path : string) (opts : options) (doc : FitzDoc) :
  fitz_open env file_path = Some doc ->
  (forall m, opts !! "max_pages" = Some (VInt m) ->
     Forall (fun e => 1 <= page_number e <= Z.min m (Z.of_nat (length (fitz_pages doc))))
            (extract_math_from_pdf env file_path opts))
  /\ (opts !! "max_pages" = None ->
      Forall (fun e => 1 <= page_number e <= Z.of_nat (length (fitz_pages doc)))
             (extract_math_from_pdf env file_path opts)).
Proof.
  intros Hopen. unfold extract_math_from_pdf, min_max_pages, get. rewrite Hopen. split.
  - intros m ->. destruct (decide (0 <= m)) as [Hm|Hm].
    + apply math_pages_fold; [lia | | constructor].
      unfold Py.upto. rewrite length_take. lia.
    + unfold Py.upto. replace (Z.to_nat (Z.min m _)) with 0%nat by lia. constructor.
  - intros ->. apply math_pages_fold; [lia | | constructor].
    unfold Py.upto. rewrite length_take. lia.
Qed.

End EquationShape.

Lemma extract_math_within_cap_witness :
  math_extractor.extract_math_from_pdf (with_fitz two_math_pages) "/tmp/a.pdf" demo.max_pages_1
  <> []
  /\ Forall (fun e => 1 <= math_extractor.page_number e <= Z.min 1 2)
       (math_extractor.extract_math_from_pdf (with_fitz two_math_pages) "/tmp/a.pdf"
          demo.max_pages_1).
Proof.
  split; [vm_compute; discriminate|].
  apply (extract_math_within_cap (with_fitz two_math_pages) "/tmp/a.pdf" demo.max_pages_1
           two_math_pages eq_refl).
  vm_compute. reflexivity.
Defined.

(* ===================================================================== *)
(** * Properties: the recommended strategy *)
(* ===================================================================== *)

Section Strategy.

Import analyzer.
Variable env : Env.

Lemma determine_strategy_cases (scanned : bool) (text image table : float) (eqs : bool) :
  let s := _determine_strategy scanned text image table eqs in
  s ∈ ["text_focus"; "ocr_heavy"; "hybrid"; "table_focus"; "math_focus"]
  /\ (s = "ocr_heavy" <-> scanned = true)
  /\ (scanned = false -> eqs = true -> s = "math_focus").
Proof.
  unfold _determine_strategy.
  destruct scanned, eqs; cbv zeta; repeat case_match; repeat split;
    first [done | set_solver].
Qed.

Lemma analyze_body_strategy (file_path file_hash : string) (c : PDFCharacteristics) :
  analyze_body env file_path file_hash = Ok c ->
  recommended_strategy c
  = _determine_strategy (is_scanned c) (text_density c) (image_density c) (table_density c)
                        (has_equations c)
  /\ file_hash = analyzer.file_hash c.
Proof.
  unfold analyze_body.
  destruct (fitz_open env file_path) as [doc|]; [|discriminate].
  cbv zeta.
  repeat match goal with
         | |- context [mbind _ ?m] => destruct m; try discriminate; cbn [mbind res_bind]
         | |- context [let '(_, _) := ?p in _] => destruct p
         end.
  all: by intros [= <-].
Qed.

(** X22: whenever analyze_pdf returns, the recommended strategy is one of
    text_focus, ocr_heavy, hybrid, table_focus and math_focus; it is
    ocr_heavy exactly when the document was judged scanned, and
    math_focus for every document not judged scanned in which equations
    were detected. *)
Theorem recommended_strategy_sound (file_path : string) (c : PDFCharacteristics) :
  analyze_pdf env file_path = Ok c ->
  recommended_strategy c ∈ ["text_focus"; "ocr_heavy"; "hybrid"; "table_focus"; "math_focus"]
  /\ (recommended_strategy c = "ocr_heavy" <-> is_scanned c = true)
  /\ (is_scanned c = false -> has_equations c = true -> recommended_strategy c = "math_focus").
Proof.
  unfold analyze_pdf. destruct (_calculate_file_hash env file_path) as [h|]; [|discriminate].
  cbn [mbind res_bind].
  destruct (analyze_body env file_path h) as [c0|] eqn:Hbody; cbn [try_except]; intros [= <-].
  - destruct (analyze_body_strategy _ _ _ Hbody) as [-> _]. apply determine_strategy_cases.
  - cbn. repeat split; first [done | set_solver].
Qed.

End Strategy.

Lemma recommended_strategy_sound_witness :
  match analyzer.analyze_pdf demo.env "/tmp/a.pdf" with
  | Ok c => analyzer.recommended_strategy c = "ocr_heavy" /\ analyzer.is_scanned c = true
  | Raise _ => False
  end.
Proof.
  destruct (analyzer.analyze_pdf demo.env "/tmp/a.pdf") as [c|e] eqn:Hc.
  - destruct (recommended_strategy_sound demo.env "/tmp/a.pdf" c Hc) as (_ & [_ H] & _).
    assert (Hs : analyzer.is_scanned c = true).
    { vm_compute in Hc. injection Hc as <-. reflexivity. }
    split; [by apply H | exact Hs].
  - vm_compute in Hc. discriminate Hc.
Defined.

(* ===================================================================== *)
(** * Properties: the embedded metadata *)
(* ===================================================================== *)

Section MetadataCleaning.

Import metadata_extractor.

Lemma contains_char (a : ascii) (s : string) :
  Py.contains (String a EmptyString) s = Py.any_char (Ascii.eqb a) s.
Proof.
  induction s as [|c s IH]; [reflexivity|].
  cbn [Py.contains Py.startswith Py.any_char]. rewrite IH.
  destruct s; by rewrite andb_true_r.
Qed.

Lemma replace_removes_char (a : ascii) (s : string) :
  Py.any_char (Ascii.eqb a) (Py.replace (String a EmptyString) EmptyString s) = false.
Proof.
  unfold Py.replace. induction s as [|c s IH]; [reflexivity|].
  cbn [Py.replace_go Py.startswith String.length Nat.sub].
  destruct (Ascii.eqb_spec a c) as [->|Hne].
  - destruct s; cbn [andb]; by rewrite append_nil_l.
  - cbn [andb Py.any_char]. rewrite IH.
    by destruct (Ascii.eqb_spec a c).
Qed.

(** X23: a cleaned metadata string is never empty and holds no NUL
    character: _clean_string returns None rather than the empty string. *)
Theorem clean_string_result (v : option string) (s : string) :
  _clean_string v = Some s -> s <> EmptyString /\ Py.contains Py.NUL s = false.
Proof.
  unfold _clean_string. destruct v as [raw|]; [|discriminate].
  destruct (String.eqb_spec (Py.replace Py.NUL EmptyString (Py.strip raw)) EmptyString)
    as [|Hne]; [discriminate|].
  intros [= <-]. split; [exact Hne|].
  unfold Py.NUL. rewrite contains_char. apply replace_removes_char.
Qed.

Lemma any_char_append (p : ascii -> bool) (a b : string) :
  Py.any_char p (a +:+ b) = Py.any_char p a || Py.any_char p b.
Proof.
  induction a as [|c a IH]; [by rewrite append_nil_l|].
  rewrite append_cons. cbn [Py.any_char]. by rewrite IH, orb_assoc.
Qed.

Lemma split_on_go_pieces (sep : ascii) (cur s : string) :
  Py.any_char (Ascii.eqb sep) cur = false ->
  Forall (fun piece => Py.any_char (Ascii.eqb sep) piece = false) (Py.split_on_go sep cur s).
Proof.
  revert cur. induction s as [|c s IH]; intros cur Hcur; simpl.
  - by repeat constructor.
  - destruct (Ascii.eqb_spec c sep) as [->|Hne].
    + constructor; [exact Hcur | by apply IH].
    + apply IH. rewrite any_char_append, Hcur. cbn [Py.any_char orb].
      rewrite orb_false_r. by destruct (Ascii.eqb_spec sep c).
Qed.

Lemma lstrip_any_char (p : ascii -> bool) (s : string) :
  Py.any_char p s = false -> Py.any_char p (Py.lstrip s) = false.
Proof.
  induction s as [|c s IH]; [done|]. cbn [Py.lstrip Py.any_char].
  intros H. apply orb_false_iff in H as [Hc Hs].
  destruct (Py.isspace c); [by apply IH|]. cbn [Py.any_char]. by rewrite Hc, Hs.
Qed.

Lemma rstrip_any_char (p : ascii -> bool) (s : string) :
  Py.any_char p s = false -> Py.any_char p (Py.rstrip s) = false.
Proof.
  induction s as [|c s IH]; [done|]. cbn [Py.rstrip Py.any_char].
  intros H. apply orb_false_iff in H as [Hc Hs]. specialize (IH Hs).
  destruct (Py.rstrip s) as [|c' r].
  - destruct (Py.isspace c); [done|]. cbn [Py.any_char]. by rewrite Hc.
  - change (Py.any_char p (String c (String c' r)) = false). cbn [Py.any_char] in *.
    by rewrite Hc, IH.
Qed.

Lemma clean_keywords_spec (P : string -> Prop) (ks : list string) :
  Forall (fun k => P (Py.strip k)) ks ->
  Forall (fun k => k <> EmptyString /\ 1 < Py.len k /\ P k) (clean_keywords ks).
Proof.
  intros Hks. unfold clean_keywords. apply Forall_forall. intros k Hk.
  apply list_elem_of_In, filter_In in Hk as [Hin Hk].
  apply andb_true_iff in Hk as [Hne Hlen].
  apply in_map_iff in Hin as (k0 & <- & Hin).
  rewrite Forall_forall in Hks. repeat split.
  - intros Heq. by rewrite Heq in Hne.
  - by apply Z.ltb_lt.
  - by apply Hks, list_elem_of_In.
Qed.

Lemma keywords_split_on (sep : ascii) (s : string) :
  Forall (fun k => k <> EmptyString /\ 1 < Py.len k
                   /\ Py.contains (String sep EmptyString) k = false)
         (clean_keywords (Py.split_on sep s)).
Proof.
  apply clean_keywords_spec. eapply Forall_impl; [by apply (split_on_go_pieces sep)|].
  intros k Hk. rewrite contains_char. by apply rstrip_any_char, lstrip_any_char.
Qed.

(** X24: every keyword returned by _extract_keywords is non-empty and
    longer than one character, and holds no occurrence of the separator
    that was used: no comma when the string has a comma, else no
    semicolon when it has a semicolon, else no vertical bar when it has
    one. *)
Theorem keywords_are_separated (keywords_str : string) :
  Forall (fun k => k <> EmptyString /\ 1 < Py.len k) (_extract_keywords keywords_str)
  /\ (Py.contains "," keywords_str = true ->
      Forall (fun k => Py.contains "," k = false) (_extract_keywords keywords_str))
  /\ (Py.contains "," keywords_str = false -> Py.contains ";" keywords_str = true ->
      Forall (fun k => Py.contains ";" k = false) (_extract_keywords keywords_str))
  /\ (Py.contains "," keywords_str = false -> Py.contains ";" keywords_str = false ->
      Py.contains "|" keywords_str = true ->
      Forall (fun k => Py.contains "|" k = false) (_extract_keywords keywords_str)).
Proof.
  unfold _extract_keywords.
  destruct (String.eqb_spec keywords_str EmptyString) as [->|_].
  { repeat split; intros; constructor. }
  destruct (Py.contains "," keywords_str) eqn:H1; [|
    destruct (Py.contains ";" keywords_str) eqn:H2; [|
      destruct (Py.contains "|" keywords_str) eqn:H3]].
  - pose proof (keywords_split_on "," keywords_str) as H.
    repeat split; try discriminate; intros;
      (eapply Forall_impl; [exact H|]); by intros k (? & ? & ?).
  - pose proof (keywords_split_on ";" keywords_str) as H.
    repeat split; try discriminate; intros;
      (eapply Forall_impl; [exact H|]); by intros k (? & ? & ?).
  - pose proof (keywords_split_on "|" keywords_str) as H.
    repeat split; try discriminate; intros;
      (eapply Forall_impl; [exact H|]); by intros k (? & ? & ?).
  - repeat split; try discriminate.
    eapply Forall_impl; [apply (clean_keywords_spec (fun _ => True)); by apply Forall_true|].
    by intros k (? & ? & ?).
Qed.

End MetadataCleaning.

Lemma clean_string_result_witness :
  metadata_extractor._clean_string (Some (" a" +:+ Py.NUL +:+ "b ")) = Some "ab"
  /\ "ab" <> EmptyString /\ Py.contains Py.NUL "ab" = false.
Proof.
  split; [vm_compute; reflexivity|].
  apply (clean_string_result (Some (" a" +:+ Py.NUL +:+ "b ")) "ab").
  vm_compute. reflexivity.
Defined.

(* ===================================================================== *)
(** * Properties: the parsed document *)
(* ===================================================================== *)

Section ParsedDocuments.

Import pdf.
Variable env : Env.
Variable QuizContent : Type.
Variable gen : ExtractionResult -> value -> QuizContent.

(** X25: every call of parse_pdf counts exactly one cache lookup, a hit
    or a miss; a returned document is marked as cached exactly when the
    lookup was a hit, and a call that raises has counted a miss. *)
Theorem parse_pdf_counts_one_lookup (file_path : Path) (opts : options) (clock : Clock)
    (st : cache.store (ParsedDocument QuizContent)) :
  let out := parse_pdf env QuizContent gen file_path opts clock st in
  cache.cache_hits out.2 + cache.cache_misses out.2
  = cache.cache_hits st + cache.cache_misses st + 1
  /\ (forall d, out.1 = Ok d ->
        (cached (processingInfo d) = true <-> cache.cache_hits out.2 = cache.cache_hits st + 1)
        /\ (cached (processingInfo d) = false
            <-> cache.cache_misses out.2 = cache.cache_misses st + 1))
  /\ (forall e, out.1 = Raise e -> cache.cache_misses out.2 = cache.cache_misses st + 1).
Proof.
  assert (Hfresh : forall (strategy : analyzer.PDFCharacteristics -> value) parsed,
             (characteristics ← analyzer.analyze_pdf env (path_str file_path);
              result ← run_strategy env (path_str file_path) (strategy characteristics) opts;
              Ok (_build_document_structure env QuizContent gen file_path result
                    characteristics opts clock)) = Ok parsed ->
             cached (processingInfo parsed) = false).
  { intros strategy parsed. destruct (analyzer.analyze_pdf _ _) as [c|]; [|discriminate].
    cbn [mbind res_bind]. destruct (run_strategy _ _ _ _); [|discriminate].
    cbn [mbind res_bind]. by intros [= <-]. }
  unfold parse_pdf, cache.get_from_cache.
  destruct (cache.lookup _ (cache.entries st)) as [[d0 x0]|].
  - destruct (lookup_time clock <? x0).
    + cbn. split; [lia|]. split.
      * intros d1 [= <-]. cbn. split; split; first [done | lia].
      * intros e1 [=].
    + destruct (mbind _ _) as [parsed|] eqn:Hp.
      * apply Hfresh in Hp.
        cbn [fst snd cache.set_in_cache cache.cache_hits cache.cache_misses].
        split; [lia|]. split; [|intros e1 [=]].
        intros d1 [= <-]. rewrite Hp. split; split; first [done | lia].
      * cbn. split; [lia|]. split; [intros d1 [=] | intros e1 _; lia].
  - destruct (mbind _ _) as [parsed|] eqn:Hp.
    + apply Hfresh in Hp.
      cbn [fst snd cache.set_in_cache cache.cache_hits cache.cache_misses].
      split; [lia|]. split; [|intros e1 [=]].
      intros d1 [= <-]. rewrite Hp. split; split; first [done | lia].
    + cbn. split; [lia|]. split; [intros d1 [=] | intros e1 _; lia].
Qed.

Lemma with_strategy_result (file_path strategy : string) (opts : options)
    (r : ExtractionResult) :
  extractor.extract_with_strategy env file_path strategy opts = Ok r ->
  ordered r /\ totalWordCount r = sum_word_counts (pages r).
Proof.
  unfold extractor.extract_with_strategy, extractor.extract_ocr_heavy.
  repeat case_match; intros Hr; split.
  all: first [ exact (text_focused_ordered env _ _ _ Hr)
             | exact (process_pdf_with_ocr_ordered env _ _ _ Hr)
             | exact (hybrid_ordered env _ _ _ Hr)
             | exact (table_focused_ordered env _ _ _ Hr)
             | exact (math_focused_ordered env _ _ _ Hr)
             | exact (proj1 (text_focused_tallied env _ _ _ Hr))
             | exact (proj1 (process_pdf_with_ocr_tallied env _ _ _ Hr))
             | exact (proj1 (hybrid_tallied env _ _ _ Hr))
             | exact (proj1 (table_focused_tallied env _ _ _ Hr))
             | exact (proj1 (math_focused_tallied env _ _ _ Hr)) ].
Qed.

Lemma run_strategy_result (file_path : string) (strategy : value) (opts : options)
    (r : ExtractionResult) :
  run_strategy env file_path strategy opts = Ok r ->
  ordered r /\ totalWordCount r = sum_word_counts (pages r).
Proof.
  unfold run_strategy. destruct strategy as [|b|n|name|l]; try discriminate;
    first [ apply with_strategy_result
          | intros Hr; split;
            [exact (text_focused_ordered env _ _ _ Hr)
            | exact (proj1 (text_focused_tallied env _ _ _ Hr))] ].
Qed.

(** X26: a document that parse_pdf returns and that is not marked as
    cached is consistent with its pages: the full text is the join, by a
    blank line, of the page contents; the pages are numbered 1, 2, ...;
    the total word count of the metadata is the sum of the word counts
    of the pages, and the estimated reading time that total divided by
    200; the warning of little text is present exactly when the total is
    below 100; and the document carries the stem and the name of the
    file. *)
Theorem fresh_document_consistent (file_path : Path) (opts : options) (clock : Clock)
    (st st' : cache.store (ParsedDocument QuizContent)) (d : ParsedDocument QuizContent) :
  parse_pdf env QuizContent gen file_path opts clock st = (Ok d, st') ->
  cached (processingInfo d) = false ->
  doc_fullText d = Py.join (Py.NL +:+ Py.NL) (map content (doc_pages d))
  /\ map pageNumber (doc_pages d) = page_numbers (length (doc_pages d))
  /\ md_totalWordCount (doc_metadata d) = sum_word_counts (doc_pages d)
  /\ md_estimatedTotalReadingTime (doc_metadata d) = sum_word_counts (doc_pages d) / 200
  /\ ("Very little text extracted" ∈ warnings (processingInfo d)
      <-> sum_word_counts (doc_pages d) < 100)
  /\ documentId d = path_stem file_path /\ fileName d = path_name file_path.
Proof.
  unfold parse_pdf.
  destruct (cache.get_from_cache (lookup_time clock) _ st) as [[d0|] st1].
  { intros [= <- _]. discriminate. }
  destruct (analyzer.analyze_pdf env (path_str file_path)) as [c|]; [|discriminate].
  cbn [mbind res_bind].
  destruct (run_strategy env (path_str file_path) _ opts) as [r|] eqn:Hr; [|discriminate].
  cbn [mbind res_bind]. intros [= <- _] _.
  destruct (run_strategy_result _ _ _ _ Hr) as [[Htext Hnum] Hsum].
  unfold _build_document_structure, _build_metadata_with_fallback.
  cbn [doc_fullText doc_pages doc_metadata md_totalWordCount md_estimatedTotalReadingTime
       processingInfo warnings documentId fileName].
  rewrite <- Hsum. repeat split; try done.
  - intros Hin. apply elem_of_app in Hin as [Hin|Hin].
    + destruct (_ && _); [|by apply elem_of_nil in Hin].
      apply list_elem_of_singleton in Hin. discriminate Hin.
    + destruct (Z.ltb_spec (totalWordCount r) 100) as [Hlt|_]; [exact Hlt|].
      by apply elem_of_nil in Hin.
  - intros Hlt. apply elem_of_app. right.
    destruct (Z.ltb_spec (totalWordCount r) 100) as [_|Hge]; [|lia].
    by apply list_elem_of_singleton.
Qed.

End ParsedDocuments.

Lemma fresh_document_consistent_witness :
  match (pdf.parse_pdf demo.env unit (fun _ _ => tt) demo.path_a ∅ (demo.clock 0)
           cache.empty_store).1 with
  | Ok d => pdf.doc_fullText d = Py.join (Py.NL +:+ Py.NL) (map content (pdf.doc_pages d))
            /\ pdf.md_totalWordCount (pdf.doc_metadata d) = sum_word_counts (pdf.doc_pages d)
  | Raise _ => False
  end.
Proof.
  destruct (pdf.parse_pdf demo.env unit (fun _ _ => tt) demo.path_a ∅ (demo.clock 0)
              cache.empty_store) as [r st'] eqn:Hp.
  destruct r as [d|e]; cbn [fst].
  - destruct (fresh_document_consistent demo.env unit (fun _ _ => tt) demo.path_a ∅
                (demo.clock 0) cache.empty_store st' d Hp) as (H1 & _ & H3 & _).
    + vm_compute in Hp. by injection Hp as <- _.
    + by split.
  - vm_compute in Hp. discriminate Hp.
Defined.

(* ===================================================================== *)
(** * Properties: the page format *)
(* ===================================================================== *)

Section PageFormat.

Import metadata_extractor.

Lemma find_format_swap (width height : float) (fs : list (string * (float * float))) :
  find_format height width fs = find_format width height fs.
Proof.
  induction fs as [|[name [sw sh]] fs IH]; [reflexivity|]. cbn [find_format]. rewrite IH.
  by destruct (within_tolerance width sw), (within_tolerance height sh),
       (within_tolerance width sh), (within_tolerance height sw).
Qed.

Lemma find_format_name (width height : float) (fs : list (string * (float * float)))
    (name : string) :
  find_format width height fs = Some name -> name ∈ map fst fs.
Proof.
  induction fs as [|[n [sw sh]] fs IH]; [discriminate|]. cbn [find_format map fst].
  repeat case_match; try (intros [= <-]; by left). intros Hrest. right. by apply IH.
Qed.

(** X27: the page format does not depend on the orientation of the page:
    a page and the same page turned by a quarter get the same standard
    format (Letter, Legal, A4, A3 or A5), or both are custom; and the
    result is always one of these five names or one of the two custom
    labels. *)
Theorem page_format_ignores_orientation (width height : float) :
  let a := _identify_page_format width height in
  let b := _identify_page_format height width in
  ((a ∈ ["Letter"; "Legal"; "A4"; "A3"; "A5"] /\ b = a)
   \/ (a ∈ ["Custom (Landscape)"; "Custom (Portrait)"]
       /\ b ∈ ["Custom (Landscape)"; "Custom (Portrait)"]))
  /\ _identify_page_format 842 595 = "A4"
  /\ _identify_page_format 595 842 = "A4".
Proof.
  split; [|by vm_compute].
  unfold _identify_page_format. rewrite (find_format_swap width height).
  destruct (find_format width height formats) as [name|] eqn:Hf.
  - left. split; [|reflexivity]. exact (find_format_name _ _ _ _ Hf).
  - right. split; case_match; set_solver.
Qed.

End PageFormat.

(* ===================================================================== *)
(** * Properties: the parser registry and the request validation *)
(* ===================================================================== *)

Section Registry.

Import registry.
Variable mods : Modules.

Lemma reachable_cached (reg : Registry) (mime_type : string) (parser : Parser) :
  reachable mods reg -> _parsers reg !! mime_type = Some parser ->
  exists info, load mods mime_type = Some (parser, info)
               /\ _parser_info reg !! mime_type = Some info.
Proof.
  intros Hreach. revert mime_type parser.
  induction Hreach as [|m reg Hreach IH|reg Hreach IH]; intros mime_type parser.
  - cbn. by rewrite lookup_empty.
  - unfold get_parser.
    destruct (_parsers reg !! m) as [p0|] eqn:Hm; cbn [snd]; [by apply IH|].
    destruct (load mods m) as [[p1 info1]|] eqn:Hload; cbn [snd]; [|by apply IH].
    cbn [_parsers _parser_info]. destruct (decide (m = mime_type)) as [->|Hne].
    + rewrite !lookup_insert_eq. intros [= <-]. by exists info1.
    + rewrite !lookup_insert_ne by done. by apply IH.
  - cbn. by rewrite lookup_empty.
Qed.

Lemma get_parser_load (reg : Registry) (mime_type : string) :
  reachable mods reg -> (get_parser mods mime_type reg).1 = fst <$> load mods mime_type.
Proof.
  intros Hreach. unfold get_parser.
  destruct (_parsers reg !! mime_type) as [p|] eqn:Hm.
  - destruct (reachable_cached _ _ _ Hreach Hm) as (info & -> & _). reflexivity.
  - by destruct (load mods mime_type) as [[p info]|].
Qed.

(** X28: on a registry produced by calls of get_parser and
    clear_parser_cache, get_parser returns exactly what loading the MIME
    type gives, whether the parser was cached or not; a second call
    returns the same parser and leaves the registry as the first call
    left it; and application/pdf always has a parser, the PDF one. *)
Theorem get_parser_is_cached_load (reg : Registry) (mime_type : string) :
  reachable mods reg ->
  let out := get_parser mods mime_type reg in
  out.1 = fst <$> load mods mime_type
  /\ get_parser mods mime_type out.2 = out
  /\ (get_parser mods "application/pdf" reg).1 = Some parse_pdf.
Proof.
  intros Hreach.
  split; [by apply get_parser_load|]. split; [|by rewrite get_parser_load].
  unfold get_parser. destruct (_parsers reg !! mime_type) as [p|] eqn:Hm; cbn [snd].
  - by rewrite Hm.
  - destruct (load mods mime_type) as [[p info]|] eqn:Hl; cbn [snd _parsers].
    + by rewrite lookup_insert_eq.
    + by rewrite Hm.
Qed.

End Registry.

Section Requests.

Import registry.

Lemma load_pdf_only (mime_type : string) :
  load pdf_only mime_type
  = if String.eqb mime_type "application/pdf"
    then Some (parse_pdf, {| info_name := "PDF Parser"; info_version := "1.0";
                             info_formats := ["pdf"] |})
    else None.
Proof. unfold load, pdf_only. cbn [word_parser text_parser csv_parser html_parser].
  by repeat case_match. Qed.

(** X29: the service validates eight MIME types but, without the optional
    parser modules, parses one: for a request whose MIME type passes
    validate_mime_type, get_parser on a registry produced by earlier
    calls returns a parser exactly when the type is application/pdf;
    the seven other allowed types pass the validation and get no
    parser. *)
Theorem only_pdf_has_a_parser (reg : Registry) (mime_type : string) :
  reachable pdf_only reg ->
  validation.validate_mime_type mime_type validation.ALLOWED_MIME_TYPES = Ok true ->
  ((get_parser pdf_only mime_type reg).1 = Some parse_pdf <-> mime_type = "application/pdf")
  /\ (mime_type <> "application/pdf" ->
      get_parser pdf_only mime_type reg = (None, reg)
      /\ mime_type ∈ ["text/plain"; "application/msword";
                      "application/vnd.openxmlformats-officedocument.wordprocessingml.document";
                      "text/csv"; "application/csv"; "text/html"; "application/xhtml+xml"]).
Proof.
  intros Hreach Hvalid.
  assert (Hnone : mime_type <> "application/pdf" -> get_parser pdf_only mime_type reg = (None, reg)).
  { intros Hne. unfold get_parser.
    destruct (_parsers reg !! mime_type) as [p|] eqn:Hm.
    - destruct (reachable_cached _ _ _ _ Hreach Hm) as (info & Hl & _).
      rewrite load_pdf_only in Hl. by destruct (String.eqb_spec mime_type "application/pdf").
    - rewrite load_pdf_only. by destruct (String.eqb_spec mime_type "application/pdf"). }
  split; [split|].
  - intros Hp. destruct (String.eqb_spec mime_type "application/pdf") as [|Hne]; [done|].
    rewrite (Hnone Hne) in Hp. discriminate Hp.
  - intros ->. by rewrite get_parser_load.
  - intros Hne. split; [by apply Hnone|].
    revert Hvalid. unfold validation.validate_mime_type, validation.ALLOWED_MIME_TYPES.
    destruct (existsb _ _) eqn:Hex; [|discriminate]. intros _.
    apply existsb_exists in Hex as (m & Hin & Heq). apply String.eqb_eq in Heq. subst m.
    simpl in Hin. destruct Hin as [<-|Hin]; [done|].
    apply list_elem_of_In. simpl. tauto.
Qed.

End Requests.

Lemma get_parser_is_cached_load_witness :
  let out := registry.get_parser registry.pdf_only "application/pdf" registry.empty_registry in
  out.1 = fst <$> registry.load registry.pdf_only "application/pdf"
  /\ registry.get_parser registry.pdf_only "application/pdf" out.2 = out
  /\ (registry.get_parser registry.pdf_only "application/pdf" registry.empty_registry).1
     = Some registry.parse_pdf.
Proof.
  exact (get_parser_is_cached_load registry.pdf_only registry.empty_registry "application/pdf"
           (reachable_empty registry.pdf_only)).
Defined.

Lemma only_pdf_has_a_parser_witness :
  validation.validate_mime_type "text/csv" validation.ALLOWED_MIME_TYPES = Ok true
  /\ registry.get_parser registry.pdf_only "text/csv" registry.empty_registry
     = (None, registry.empty_registry).
Proof.
  split; [reflexivity|].
  destruct (only_pdf_has_a_parser registry.empty_registry "text/csv"
              (reachable_empty registry.pdf_only) eq_refl) as [_ H].
  apply H. discriminate.
Defined.
